(** * Unmasking-the-Voice: decision layer, channel simulators, data loader

    A shallow embedding of the Python sources

    - [utils/helpers.py]                              ([cosine_similarity])
    - [authentication_models/deepspeaker.py], [xvectors.py]
                                                      ([enroll], [verify])
    - [authentication_models/azure_sv.py]             ([enroll], [verify])
    - [tasks/speaker_verification.py], [tasks/csi.py], [tasks/osi.py]
    - [attack.py]                                     ([run_attack])
    - [other_environments/over_the_air_simulation.py],
      [other_environments/over_the_line_simulation.py]
    - [dataloaders/dataloader.py]                     ([DataLoader])

    Conventions of the embedding.

    - A Python call either returns a value or raises: [result A].
    - [print] calls are left out, with one exception: the log line of
      [verify] formats a NumPy array with a format spec, which raises, so
      it is part of what the function does.
    - The two local-embedding backends share one model ([Backend]); the
      remote one is modelled apart ([Azure]), with the service it calls as
      a [Variable].
    - The samples of a signal and the entries of an embedding are read as
      real numbers ([R]); their rounding is not modelled.  The one place
      where NumPy leaves the finite numbers, a division by zero, is kept:
      [np_divide] yields [NaN] or an infinity there, as NumPy does (with a
      warning, without raising).
    - The number of samples [librosa.resample] returns is computed in IEEE
      754 doubles ([SpecFloat], 53 digits), because there the rounding
      decides the length of a signal.
    - An embedding is the array of shape [(1, n)] that [_get_embedding]
      returns, written as the list of its [n] entries.
    - A [dict] keeps insertion order, as Python's does.
    - What lies outside the repository (the pretrained networks, the voice
      cloners, the random generator, SciPy's filter design, the resampling
      kernel, the file system, the speaker-recognition service) is a
      [Variable] of the section that uses it. *)

From Stdlib Require Import Ascii String Reals Lra Lia ZArith Bool List Permutation.
From Stdlib Require SpecFloat.
Import ListNotations.

Set Implicit Arguments.

(* ================================================================= *)
(** ** Python values: exceptions, results, dictionaries, slices *)

Module Py.

(** The exceptions the modelled code can raise, with their messages. *)
Inductive exn : Type :=
| ValueError (msg : string)
| TypeError (msg : string)
| IndexError (msg : string)
| AttributeError (msg : string)
| ZeroDivisionError (msg : string)
| OverflowError (msg : string).

Inductive result (A : Type) : Type :=
| Ok (a : A)
| Raise (e : exn).

Arguments Ok {A} a.
Arguments Raise {A} e.

Definition bind {A B : Type} (c : result A) (k : A -> result B) : result B :=
  match c with
  | Ok a => k a
  | Raise e => Raise e
  end.

(** [dict]: keys in insertion order; assigning to a key that is present
    replaces its value in place. *)
Definition dict (V : Type) : Type := list (string * V).

Fixpoint dict_get {V : Type} (d : dict V) (k : string) : option V :=
  match d with
  | [] => None
  | (k', v) :: rest => if String.eqb k' k then Some v else dict_get rest k
  end.

Fixpoint dict_set {V : Type} (d : dict V) (k : string) (v : V) : dict V :=
  match d with
  | [] => [(k, v)]
  | (k', v') :: rest =>
      if String.eqb k' k then (k', v) :: rest else (k', v') :: dict_set rest k v
  end.

Definition keys {V : Type} (d : dict V) : list string := map fst d.

(** [l[i:j]] for integers [i], [j]: a negative bound counts from the end,
    and both are clamped to [0 .. len l]. *)
Definition clamp_index (len i : Z) : Z :=
  let i' := if (i <? 0)%Z then (i + len)%Z else i in
  Z.max 0 (Z.min len i').

Definition slice {A : Type} (l : list A) (i j : Z) : list A :=
  let len := Z.of_nat (length l) in
  let lo := clamp_index len i in
  let hi := clamp_index len j in
  firstn (Z.to_nat (hi - lo)) (skipn (Z.to_nat lo) l).

(** [l[:j]] *)
Definition slice_to {A : Type} (l : list A) (j : Z) : list A := slice l 0 j.

End Py.

Import Py.

Declare Scope py_scope.
Delimit Scope py_scope with py.
Notation "x <- c ;; k" := (bind c (fun x => k))
  (at level 61, c at next level, right associativity) : py_scope.
Notation "' pat <- c ;; k" := (bind c (fun x => match x with pat => k end))
  (at level 61, pat pattern, c at next level, right associativity) : py_scope.
Open Scope py_scope.

(* ================================================================= *)
(** ** NumPy numbers and arrays *)

Module Np.

Open Scope R_scope.

(** The value of a float expression: a real number, or what a division by
    zero leaves behind. *)
Inductive pyfloat : Type :=
| Fin (r : R)
| PosInf
| NegInf
| NaN.

Definition Rgtb (x y : R) : bool := if Rlt_dec y x then true else false.
Definition Reqb (x y : R) : bool := if Req_dec_T x y then true else false.

(** [x > y]: every comparison with [nan] is [False]. *)
Definition gt (x y : pyfloat) : bool :=
  match x, y with
  | NaN, _ | _, NaN => false
  | Fin a, Fin b => Rgtb a b
  | PosInf, PosInf => false
  | PosInf, _ => true
  | NegInf, _ => false
  | Fin _, PosInf => false
  | Fin _, NegInf => true
  end.

(** [x / y] on arrays of floats: no exception; [0/0] is [nan] and [x/0] an
    infinity of the sign of [x]. *)
Definition np_divide (x y : R) : pyfloat :=
  if Reqb y 0 then
    if Reqb x 0 then NaN else if Rgtb x 0 then PosInf else NegInf
  else Fin (x / y).

(** [format(arr, spec)], which an f-string field [{arr:spec}] calls, for an
    array of one or more dimensions: [ndarray.__format__] hands a format
    spec to the scalar only for a 0-d array, and forwards every other array
    to [object.__format__], which accepts the empty spec alone.  [entry] is
    the one entry of an array of shape [(1,)]. *)
Definition ndarray_format (entry : pyfloat) (spec : string) : result string :=
  if String.eqb spec "" then Ok "[...]"%string
  else Raise (TypeError
         "unsupported format string passed to numpy.ndarray.__format__").

(** [np.sum(v, axis=1)] of a one-row array. *)
Definition np_sum (v : list R) : R := fold_right Rplus 0 v.

(** [np.linalg.norm(v, axis=1, keepdims=True)] of a one-row array:
    [sqrt(add.reduce(v * v))]. *)
Definition np_norm (v : list R) : R := sqrt (np_sum (map (fun x => x * x) v)).

Fixpoint zip_with (f : R -> R -> R) (a b : list R) : list R :=
  match a, b with
  | x :: a', y :: b' => f x y :: zip_with f a' b'
  | _, _ => []
  end.

(** [a * b] for arrays of shapes [(1, n)] and [(1, m)]: element by element
    when [n = m]; a one-entry row is broadcast along the other; any other
    pair of shapes raises. *)
Definition np_multiply (a b : list R) : result (list R) :=
  if (length a =? length b)%nat then Ok (zip_with Rmult a b)
  else match a, b with
       | [x], _ => Ok (map (fun y => x * y) b)
       | _, [y] => Ok (map (fun x => x * y) a)
       | _, _ => Raise (ValueError "operands could not be broadcast together")
       end.

(** The sum of two rows of one shape. *)
Definition vec_add (a b : list R) : list R := zip_with Rplus a b.

(** [np.mean(rows, axis=0)] of a list of one-row arrays: the rows must have
    one shape; the sum of the rows divided by their number.  The call is
    guarded by [successful_enrollments > 0] in the sources, the empty list
    is given the empty array. *)
Definition np_mean (rows : list (list R)) : result (list R) :=
  match rows with
  | [] => Ok []
  | r :: rest =>
      if forallb (fun x => (length x =? length r)%nat) rest
      then Ok (map (fun s => s / INR (length rows)) (fold_left vec_add rest r))
      else Raise (ValueError "inhomogeneous shape")
  end.

End Np.

Import Np.

(* ================================================================= *)
(** ** utils/helpers.py *)

Module Helpers.

Open Scope R_scope.

Definition cosine_similarity (a b : list R) : result pyfloat :=
  let a_norm := np_norm a in
  let b_norm := np_norm b in
  ab <- np_multiply a b ;;
  Ok (np_divide (np_sum ab) (a_norm * b_norm)).

End Helpers.

Import Helpers.

(* ================================================================= *)
(** ** authentication_models/deepspeaker.py, xvectors.py

    [DeepSpeakerVerification] and [XVectorVerification] differ in
    [_get_embedding] only (the network that is loaded); [enroll] and [verify]
    are the same text.  [_get_embedding] catches every exception of the
    network and returns [None] for it: an [option]. *)

Module Backend.

Open Scope R_scope.

Record verifier : Type := mkVerifier {
  threshold : R;
  enrollment_embedding : option (list R)
}.

(** [__init__]: [self.threshold = threshold; self.enrollment_embedding = None] *)
Definition init (thr : R) : verifier := mkVerifier thr None.

(** [wav_files: Union[str, List[str]]] *)
Inductive wav_arg : Type :=
| OneFile (f : string)
| FileList (l : list string).

Definition as_list (w : wav_arg) : list string :=
  match w with
  | OneFile f => [f]
  | FileList l => l
  end.

Section WithNetwork.

Variable _get_embedding : string -> option (list R).

(** The loop of [enroll]: one step per file, on the pair
    [(embeddings, successful_enrollments)]. *)
Definition enroll_step (acc : list (list R) * nat) (file : string)
  : list (list R) * nat :=
  match _get_embedding file with
  | Some embedding => (fst acc ++ [embedding], S (snd acc))
  | None => acc
  end.

Definition enroll (self : verifier) (wav_files : wav_arg)
  : result (bool * verifier) :=
  let wav_files := as_list wav_files in
  match wav_files with
  | [] => Ok (false, self)
  | _ =>
      let '(embeddings, successful_enrollments) :=
        fold_left enroll_step wav_files ([], 0%nat) in
      if (0 <? successful_enrollments)%nat then
        mean <- np_mean embeddings ;;
        Ok (true, mkVerifier (threshold self) (Some mean))
      else Ok (false, self)
  end.

Definition verify (self : verifier) (wav_file_path : string)
  : result (bool * pyfloat) :=
  match enrollment_embedding self with
  | None => Ok (false, Fin 0)
  | Some enrolled =>
      match _get_embedding wav_file_path with
      | None => Ok (false, Fin 0)
      | Some test_embedding =>
          similarity <- cosine_similarity test_embedding enrolled ;;
          let is_verified := gt similarity (Fin (threshold self)) in
          (* print(f"Verification result: ... (similarity: {similarity:.3f})"):
             [similarity] is the array of shape (1,) that
             [cosine_similarity] returned *)
          _ <- ndarray_format similarity ".3f" ;;
          Ok (is_verified, similarity)
      end
  end.

End WithNetwork.

End Backend.

(* ================================================================= *)
(** ** tasks/speaker_verification.py, tasks/csi.py, tasks/osi.py

    [SpeakerVerification] forwards [enroll] and [verify] to the backend it was
    built with; the local-embedding backends are the ones modelled.
    [ClosedSetIdentification] and [OpenSetIdentification] hold the same three
    fields: the verifier, the roster [enrolled_speakers] and the threshold. *)

Module Tasks.

Open Scope R_scope.

Import Backend.

Record ident : Type := mkIdent {
  verifier_of : verifier;
  enrolled_speakers : dict bool;
  ident_threshold : R
}.

(** [__init__] of both classes:
    [SpeakerVerification(backend, threshold=threshold)], an empty roster. *)
Definition ident_init (thr : R) : ident := mkIdent (Backend.init thr) [] thr.

Section WithNetwork.

Variable _get_embedding : string -> option (list R).

(** [SpeakerVerification.enroll], [SpeakerVerification.verify] *)
Definition sv_enroll := enroll _get_embedding.
Definition sv_verify := verify _get_embedding.

(** [enroll_speaker], the same in [csi.py] and [osi.py]. *)
Definition enroll_speaker (self : ident) (speaker_id : string)
           (wav_files : list string) : result (bool * ident) :=
  '(success, v) <- sv_enroll (verifier_of self) (FileList wav_files) ;;
  Ok (success,
      mkIdent v (dict_set (enrolled_speakers self) speaker_id success)
              (ident_threshold self)).

(** The loop of [ClosedSetIdentification.identify], on the pair
    [(best_speaker, best_score)]. *)
Definition csi_step (similarity : pyfloat)
           (best : option string * pyfloat) (item : string * bool)
  : option string * pyfloat :=
  let '(speaker_id, enrolled) := item in
  if enrolled && gt similarity (snd best)
  then (Some speaker_id, similarity)
  else best.

Definition csi_identify (self : ident) (wav_file_path : string)
  : result (string * pyfloat) :=
  match enrolled_speakers self with
  | [] => Raise (ValueError "No speakers enrolled in the system")
  | first :: _ =>
      '(is_verified, similarity) <- sv_verify (verifier_of self) wav_file_path ;;
      let '(best_speaker, best_score) :=
        fold_left (csi_step similarity) (enrolled_speakers self)
                  (None, Fin (-1)) in
      match best_speaker with
      | Some speaker_id => Ok (speaker_id, best_score)
      | None => Ok (fst first, Fin 0)
      end
  end.

Definition osi_identify (self : ident) (wav_file_path : string)
  : result (option string * pyfloat) :=
  match enrolled_speakers self with
  | [] => Ok (None, Fin 0)
  | _ =>
      '(is_verified, similarity) <- sv_verify (verifier_of self) wav_file_path ;;
      if is_verified && gt similarity (Fin (ident_threshold self)) then
        match find (fun item : string * bool => snd item)
                   (enrolled_speakers self) with
        | Some (speaker_id, _) => Ok (Some speaker_id, similarity)
        | None => Ok (None, similarity)
        end
      else Ok (None, similarity)
  end.

(** What [OpenSetIdentification.identify] does with the pair that the
    [verify] call returned (osi.py, from [if is_verified and ...] on). *)
Definition osi_decide (self : ident) (verified : bool * pyfloat)
  : result (option string * pyfloat) :=
  let '(is_verified, similarity) := verified in
  if is_verified && gt similarity (Fin (ident_threshold self)) then
    match find (fun item : string * bool => snd item)
               (enrolled_speakers self) with
    | Some (speaker_id, _) => Ok (Some speaker_id, similarity)
    | None => Ok (None, similarity)
    end
  else Ok (None, similarity).

(** [get_enrolled_speakers] *)
Definition get_enrolled_speakers (self : ident) : list string :=
  map fst (filter (fun item : string * bool => snd item)
                  (enrolled_speakers self)).

(** A sequence of [enroll_speaker] calls, oldest first. *)
Fixpoint enroll_all (self : ident) (calls : list (string * list string))
  : result ident :=
  match calls with
  | [] => Ok self
  | (speaker_id, wav_files) :: rest =>
      '(_, self') <- enroll_speaker self speaker_id wav_files ;;
      enroll_all self' rest
  end.

End WithNetwork.

End Tasks.

(* ================================================================= *)
(** ** NumPy and SciPy signal primitives used by the channel simulators *)

Module Signal.

Open Scope R_scope.

(** [int(x)] of a float: truncation towards zero. *)
Definition py_int (x : R) : Z :=
  if Rlt_dec x 0 then (- Int_part (- x))%Z else Int_part x.

(** [np.zeros(n)] *)
Definition np_zeros (n : Z) : result (list R) :=
  if (n <? 0)%Z then Raise (ValueError "negative dimensions are not allowed")
  else Ok (repeat 0 (Z.to_nat n)).

Fixpoint set_nth (l : list R) (i : nat) (v : R) : list R :=
  match l, i with
  | [], _ => []
  | _ :: l', O => v :: l'
  | x :: l', S i' => x :: set_nth l' i' v
  end.

(** [arr[i] = v]: a negative index counts from the end; an index outside
    [-len .. len-1] raises [IndexError]. *)
Definition np_setitem (arr : list R) (i : Z) (v : R) : result (list R) :=
  let len := Z.of_nat (length arr) in
  if ((i <? - len) || (len <=? i))%Z
  then Raise (IndexError "index is out of bounds for axis 0")
  else Ok (set_nth arr (Z.to_nat (if (i <? 0)%Z then i + len else i)) v).

(** Sum of two sequences aligned at index 0, as long as the longer one. *)
Fixpoint add_padded (a b : list R) : list R :=
  match a, b with
  | [], _ => b
  | _, [] => a
  | x :: a', y :: b' => (x + y) :: add_padded a' b'
  end.

Fixpoint convolve_full (a v : list R) : list R :=
  match a with
  | [] => []
  | x :: a' => add_padded (map (fun y => x * y) v) (0 :: convolve_full a' v)
  end.

(** [np.convolve(a, v)] (mode ['full']): NumPy first swaps the arguments
    when [v] is the longer one, then refuses an empty [a] and an empty
    [v]; the convolution itself does not depend on the order. *)
Definition np_convolve (a v : list R) : result (list R) :=
  let '(a', v') := if (length a <? length v)%nat then (v, a) else (a, v) in
  match a', v' with
  | [], _ => Raise (ValueError "a cannot be empty")
  | _, [] => Raise (ValueError "v cannot be empty")
  | _, _ => Ok (convolve_full a v)
  end.

(** One second-order section [(b0, b1, b2, 1, a1, a2)] of a filter in
    ['sos'] form. *)
Record sos_section : Type := mkSection {
  b0 : R; b1 : R; b2 : R; a1 : R; a2 : R
}.

(** One section run over a signal (direct form II transposed), from the
    delay state [(z0, z1)]. *)
Fixpoint biquad (c : sos_section) (z0 z1 : R) (x : list R) : list R :=
  match x with
  | [] => []
  | x_cur :: rest =>
      let x_new := b0 c * x_cur + z0 in
      x_new :: biquad c (b1 c * x_cur - a1 c * x_new + z1)
                        (b2 c * x_cur - a2 c * x_new) rest
  end.

(** The sections in cascade, each from the zero state. *)
Definition sos_cascade (sos : list sos_section) (x : list R) : list R :=
  fold_left (fun signal c => biquad c 0 0 signal) sos x.

(** [scipy.signal.sosfilt(sos, x)] for a one-dimensional [x], zero initial
    state.  SciPy reshapes [x] to [(-1, x.shape[-1])] before it filters,
    which NumPy refuses for an empty array (the wording of the message
    varies with the version). *)
Definition sosfilt (sos : list sos_section) (x : list R) : result (list R) :=
  match x with
  | [] => Raise (ValueError "cannot reshape array of size 0 into shape (0)")
  | _ => Ok (sos_cascade sos x)
  end.

Inductive btype : Type := low | band.

(** The check [scipy.signal.butter] makes on the critical frequencies of a
    digital filter given [fs]: each [Wn] must satisfy [0 < Wn < fs/2]. *)
Definition critical_ok (Wn : list R) (fs : Z) : bool :=
  forallb (fun w => Rgtb w 0 && Rgtb (IZR fs / 2) w) Wn.

Section WithDesign.

(** The Butterworth design itself (poles, zeros, pairing into sections). *)
Variable butter_design : Z -> list R -> btype -> Z -> list sos_section.

(** [scipy.signal.butter(N, Wn, btype=..., fs=fs, output='sos')] *)
Definition butter (N : Z) (Wn : list R) (bt : btype) (fs : Z)
  : result (list sos_section) :=
  if critical_ok Wn fs then Ok (butter_design N Wn bt fs)
  else Raise (ValueError
         "Digital filter critical frequencies must be 0 < Wn < fs/2").

End WithDesign.

(** [librosa.util.fix_length(y, size=n)]: cut to [n] samples, or pad with
    zeros up to [n]. *)
Definition fix_length (y : list R) (n : nat) : list R :=
  firstn n y ++ repeat 0 (n - length y).

(** [p / q] rounded up. *)
Definition ceil_div (p q : Z) : Z := (- ((- p) / q))%Z.

(** Python floats, where their rounding decides an integer: IEEE 754
    binary64 as [SpecFloat] specifies it (53 digits, round to nearest,
    ties to even). *)
Definition float : Type := SpecFloat.spec_float.

(** [float(n)] of an [int], also the conversion of the [int] operand of a
    mixed operation. *)
Definition float_of_int (n : Z) : result float :=
  match SpecFloat.binary_normalize 53 1024 n 0 false with
  | SpecFloat.S754_infinity _ =>
      Raise (OverflowError "int too large to convert to float")
  | x => Ok x
  end.

(** [int(np.ceil(x))] *)
Definition int_ceil (x : float) : result Z :=
  match x with
  | SpecFloat.S754_zero _ => Ok 0%Z
  | SpecFloat.S754_finite s m e =>
      let m' := if s then Zneg m else Zpos m in
      Ok (if (0 <=? e)%Z then (m' * 2 ^ e)%Z else ceil_div m' (2 ^ (- e)))
  | SpecFloat.S754_infinity _ =>
      Raise (OverflowError "cannot convert float infinity to integer")
  | SpecFloat.S754_nan =>
      Raise (ValueError "cannot convert float NaN to integer")
  end.

(** [ratio = float(target_sr) / orig_sr] and
    [n_samples = int(np.ceil(n * ratio))] of [librosa.resample], for a
    signal of [n] samples. *)
Definition n_samples (n : nat) (orig_sr target_sr : Z) : result Z :=
  t <- float_of_int target_sr ;;
  o <- float_of_int orig_sr ;;
  if (orig_sr =? 0)%Z then Raise (ZeroDivisionError "float division by zero")
  else
    let ratio := SpecFloat.SFdiv 53 1024 t o in
    len <- float_of_int (Z.of_nat n) ;;
    int_ceil (SpecFloat.SFmul 53 1024 len ratio).

Section WithKernel.

(** The resampling kernel ([soxr.resample], the default [res_type]) on
    positive rates. *)
Variable resample_kernel : list R -> Z -> Z -> list R.

(** [librosa.resample(y, orig_sr=..., target_sr=...)]: equal rates return
    [y]; otherwise [n_samples] is computed, the kernel refuses a rate that
    is not positive, and its output is brought to [n_samples] samples by
    [fix_length] (the default [fix=True]). *)
Definition librosa_resample (y : list R) (orig_sr target_sr : Z)
  : result (list R) :=
  if (orig_sr =? target_sr)%Z then Ok y
  else
    n <- n_samples (length y) orig_sr target_sr ;;
    if ((orig_sr <=? 0) || (target_sr <=? 0))%Z
    then Raise (ValueError "Sample rate should be over 0")
    else Ok (fix_length (resample_kernel y orig_sr target_sr) (Z.to_nat n)).

End WithKernel.

End Signal.

(* ================================================================= *)
(** ** other_environments/over_the_air_simulation.py *)

Module Air.

Open Scope R_scope.

Import Signal.

Record AirEnvironmentSimulator : Type := mkAir {
  reverb_delays : list (R * R);
  noise_level : R;
  lowpass_freq : R;
  filter_order : Z
}.

Definition default_reverb_delays : list (R * R) :=
  [(3 / 100, 6 / 10); (6 / 100, 3 / 10); (1 / 10, 1 / 10)].

(** [__init__]: [reverb_delays or [...]] takes the default for [None] and
    for the empty list. *)
Definition init (reverb : option (list (R * R))) (noise lowpass : R)
           (order : Z) : AirEnvironmentSimulator :=
  mkAir (match reverb with
         | None | Some [] => default_reverb_delays
         | Some l => l
         end) noise lowpass order.

Definition default : AirEnvironmentSimulator :=
  init None (5 / 1000) 4000 4.

Section WithExternals.

Variable butter_design : Z -> list R -> btype -> Z -> list sos_section.
(** The standard normal draws of one [np.random.normal] call. *)
Variable standard_normal : nat -> R.

(** [np.random.normal(loc, scale, size)] *)
Definition np_random_normal (loc scale : R) (size : nat) : result (list R) :=
  if Rlt_dec scale 0 then Raise (ValueError "scale < 0")
  else Ok (map (fun i => loc + scale * standard_normal i) (seq 0 size)).

(** The loop over [self.reverb_delays]. *)
Fixpoint add_reflections (room_ir : list R) (delays : list (R * R)) (sr : Z)
  : result (list R) :=
  match delays with
  | [] => Ok room_ir
  | (delay, amplitude) :: rest =>
      let delay_samples := py_int (delay * IZR sr) in
      room_ir' <- np_setitem room_ir delay_samples amplitude ;;
      add_reflections room_ir' rest sr
  end.

Definition simulate (self : AirEnvironmentSimulator) (audio : list R)
           (sr : Z) : result (list R) :=
  room_ir <- np_zeros sr ;;
  room_ir <- np_setitem room_ir 0 1 ;;
  room_ir <- add_reflections room_ir (reverb_delays self) sr ;;
  full <- np_convolve audio room_ir ;;
  let reverb := firstn (length audio) full in
  noise <- np_random_normal 0 (noise_level self) (length audio) ;;
  let noisy := zip_with Rplus reverb noise in
  sos <- butter butter_design (filter_order self) [lowpass_freq self] low sr ;;
  degraded <- sosfilt sos noisy ;;
  Ok degraded.

End WithExternals.

End Air.

(* ================================================================= *)
(** ** other_environments/over_the_line_simulation.py *)

Module Line.

Open Scope R_scope.

Import Signal.

Record EnvironmentConfig : Type := mkConfig {
  name : string;
  sample_rate : Z;
  down_sample_rate : option Z;
  bandpass_freqs : option (R * R);
  filter_order : Z
}.

Record EnvironmentSimulator : Type := mkSimulator {
  output_dir : string;
  environments : dict EnvironmentConfig
}.

Definition phone : EnvironmentConfig :=
  mkConfig "phone" 16000 (Some 8000%Z) (Some (300, 3400)) 10.

Definition voip : EnvironmentConfig :=
  mkConfig "voip" 16000 (Some 8000%Z) (Some (300, 3400)) 10.

(** [__init__] *)
Definition init (dir : string) : EnvironmentSimulator :=
  mkSimulator dir [("phone"%string, phone); ("voip"%string, voip)].

(** [add_environment] *)
Definition add_environment (self : EnvironmentSimulator)
           (config : EnvironmentConfig) : EnvironmentSimulator :=
  mkSimulator (output_dir self)
              (dict_set (environments self) (name config) config).

(** [audio: Union[str, np.ndarray]],
    [environment: Union[str, EnvironmentConfig]] *)
Inductive audio_arg : Type :=
| AudioPath (path : string)
| AudioData (samples : list R).

Inductive environment_arg : Type :=
| EnvName (n : string)
| EnvConfig (c : EnvironmentConfig).

(** The last character of a string, if it has one. *)
Fixpoint last_char (s : string) : option ascii :=
  match s with
  | EmptyString => None
  | String c EmptyString => Some c
  | String _ rest => last_char rest
  end.

(** [p.startswith("/")], [p.endswith("/")] *)
Definition starts_with_sep (p : string) : bool :=
  match p with
  | String c _ => Ascii.eqb c "/"%char
  | EmptyString => false
  end.

Definition ends_with_sep (p : string) : bool :=
  match last_char p with
  | Some c => Ascii.eqb c "/"%char
  | None => false
  end.

(** [os.path.join(a, b)] (POSIX): a [b] that starts with the separator
    replaces [a]; no separator is added after an empty [a] or one that
    ends with it. *)
Definition path_join (a b : string) : string :=
  if starts_with_sep b then b
  else if String.eqb a "" || ends_with_sep a then (a ++ b)%string
  else (a ++ "/" ++ b)%string.

Section WithExternals.

Variable butter_design : Z -> list R -> btype -> Z -> list sos_section.
Variable resample_kernel : list R -> Z -> Z -> list R.
(** [librosa.load(path, sr=sr)]: the samples of the file at rate [sr]. *)
Variable librosa_load : string -> Z -> list R.

Definition _load_audio (path : string) (sr : Z) : list R * Z :=
  (librosa_load path sr, sr).

Definition _apply_bandpass_filter (audio : list R) (sr : Z)
           (freqs : R * R) (order : Z) : result (list R) :=
  sos <- butter butter_design order [fst freqs; snd freqs] band sr ;;
  sosfilt sos audio.

Definition simulate_environment (self : EnvironmentSimulator)
           (audio : audio_arg) (environment : environment_arg)
           (output_filename : option string)
  : result (list R * option string) :=
  config <- match environment with
            | EnvName n =>
                match dict_get (environments self) n with
                | None => Raise (ValueError ("Unknown environment: " ++ n))
                | Some c => Ok c
                end
            | EnvConfig c => Ok c
            end ;;
  let '(audio_data, sr) :=
    match audio with
    | AudioPath path => _load_audio path (sample_rate config)
    | AudioData samples => (samples, sample_rate config)
    end in
  audio_up <- match down_sample_rate config with
              | Some down =>
                  if (down =? 0)%Z then Ok audio_data
                  else
                    audio_down <- librosa_resample resample_kernel
                                    audio_data sr down ;;
                    librosa_resample resample_kernel audio_down down sr
              | None => Ok audio_data
              end ;;
  processed_audio <- match bandpass_freqs config with
                     | Some freqs =>
                         _apply_bandpass_filter audio_up sr freqs
                                                (filter_order config)
                     | None => Ok audio_up
                     end ;;
  let output_path :=
    match output_filename with
    | Some f => if String.eqb f "" then None
                else Some (path_join (output_dir self) f)
    | None => None
    end in
  Ok (processed_audio, output_path).

End WithExternals.

End Line.

(* ================================================================= *)
(** ** attack.py *)

Module Attack.

Open Scope R_scope.

Import Backend Tasks.

Inductive cloner_kind : Type := fishspeech | openvoice.
Inductive auth_model_kind : Type := deep_speaker | xvector.
Inductive task_kind : Type := verification | csi | osi.
Inductive environment_kind : Type := air | line.

Record AttackConfig : Type := mkAttackConfig {
  dataset : string;
  cloner : cloner_kind;
  auth_model : auth_model_kind;
  task : task_kind;
  environment : option environment_kind;
  threshold : R;
  num_enrollment_files : Z;
  num_test_files : Z;
  num_attack_files : Z
}.

Inductive auth_system_t : Type :=
| SpeakerVerification (v : verifier)
| ClosedSetIdentification (s : ident)
| OpenSetIdentification (s : ident).

Inductive env_simulator_t : Type :=
| AirSim (a : Air.AirEnvironmentSimulator)
| LineSim (l : Line.EnvironmentSimulator).

(** What [run_attack] does to the world outside its own variables, in the
    order it does it. *)
Inductive event : Type :=
| EnrollCall (speaker_id : string) (wav_files : list string)
| TestCall (path : string)
| WriteAudio (path : string)
| CloneCall (text : string) (output : string).

Record AttackFramework : Type := mkFramework {
  config : AttackConfig;
  files : dict (list string);
  auth_system : auth_system_t;
  env_simulator : option env_simulator_t;
  trace : list event
}.

(** The attributes [__init__] has set when it returns; [files] is what
    [DataLoader(dataset).get_files()] gives, [kw_threshold] the
    ["threshold"] entry of [**kwargs].  When [__init__] returns and when it
    raises is [DataLoader.attack_framework]. *)
Definition init (cfg : AttackConfig) (dataset_files : dict (list string))
           (kw_threshold : option R) : AttackFramework :=
  mkFramework cfg dataset_files
    (match task cfg with
     | verification =>
         SpeakerVerification
           (Backend.init (match kw_threshold with Some t => t | None => 5 / 10 end))
     | csi => ClosedSetIdentification (ident_init (threshold cfg))
     | osi => OpenSetIdentification (ident_init (threshold cfg))
     end)
    (match environment cfg with
     | Some air => Some (AirSim Air.default)
     | Some line => Some (LineSim (Line.init "simulated_environments"))
     | None => None
     end)
    [].

Inductive decision : Type :=
| Verified (is_verified : bool)
| IdentifiedSpeaker (speaker_id : option string).

Record test_result : Type := mkTestResult {
  file : string;
  outcome : decision;
  score : pyfloat
}.

Record attack_results : Type := mkResults {
  enrollment_success : bool;
  real_test_results : list test_result;
  attack_results_of : list test_result
}.

(** A method of [AttackFramework]: it returns or raises, and leaves the
    object in a new state either way. *)
Definition M (A : Type) : Type := AttackFramework -> result A * AttackFramework.

Definition ret {A : Type} (a : A) : M A := fun self => (Ok a, self).
Definition raise {A : Type} (e : exn) : M A := fun self => (Raise e, self).
Definition bindM {A B : Type} (m : M A) (k : A -> M B) : M B :=
  fun self =>
    match m self with
    | (Ok a, self') => k a self'
    | (Raise e, self') => (Raise e, self')
    end.
Definition lift {A : Type} (c : result A) : M A := fun self => (c, self).
Definition get : M AttackFramework := fun self => (Ok self, self).
Definition set_auth (a : auth_system_t) : M unit :=
  fun self =>
    (Ok tt, mkFramework (config self) (files self) a (env_simulator self)
                        (trace self)).
Definition log (e : event) : M unit :=
  fun self =>
    (Ok tt, mkFramework (config self) (files self) (auth_system self)
                        (env_simulator self) (trace self ++ [e])).

Declare Scope attack_scope.
Delimit Scope attack_scope with attack.
Notation "x <~ c ;; k" := (bindM c (fun x => k))
  (at level 61, c at next level, right associativity) : attack_scope.
Notation "c ;;; k" := (bindM c (fun _ => k))
  (at level 61, right associativity) : attack_scope.
Open Scope attack_scope.

(** [os.path.basename]: what follows the last ['/']. *)
Fixpoint basename_from (s acc : string) : string :=
  match s with
  | EmptyString => acc
  | String c rest =>
      if Ascii.eqb c "/"%char then basename_from rest EmptyString
      else basename_from rest (acc ++ String c EmptyString)%string
  end.

Definition basename (path : string) : string := basename_from path EmptyString.

(** [for x in xs: body(x)], collecting what the bodies append. *)
Fixpoint for_each {A B : Type} (xs : list A) (body : A -> M B) : M (list B) :=
  match xs with
  | [] => ret []
  | x :: rest =>
      y <~ body x ;;
      ys <~ for_each rest body ;;
      ret (y :: ys)
  end.

Section WithExternals.

Variable _get_embedding : string -> option (list R).
Variable butter_design :
  Z -> list R -> Signal.btype -> Z -> list Signal.sos_section.
Variable standard_normal : nat -> R.
Variable resample_kernel : list R -> Z -> Z -> list R.
(** [librosa.load(path, sr=None)]: samples and native rate;
    [librosa.load(path, sr=sr)]: samples at rate [sr]. *)
Variable librosa_load_native : string -> list R * Z.
Variable librosa_load : string -> Z -> list R.
(** The cloners: [FishSpeechCloner.create_model], [.generate_audio] and
    [OpenVoiceCloner.generate_audio], each returning an id or a path. *)
Variable fish_create_model : list string -> string -> string.
Variable fish_generate_audio : string -> string -> string -> string.
Variable openvoice_generate_audio : string -> string -> string -> string.

Definition _prepare_audio (audio_path : string) : M string :=
  self <~ get ;;
  match env_simulator self with
  | None => ret audio_path
  | Some sim =>
      let '(audio, sr) := librosa_load_native audio_path in
      processed_audio <~
        lift (match sim with
              | AirSim a =>
                  Air.simulate butter_design standard_normal a audio sr
              | LineSim l =>
                  '(processed, _) <-
                    Line.simulate_environment butter_design resample_kernel
                      librosa_load l (Line.AudioData audio)
                      (Line.EnvName "phone") None ;;
                  Ok processed
              end) ;;
      let output_path := ("processed_" ++ basename audio_path)%string in
      log (WriteAudio output_path) ;;;
      ret output_path
  end.

(** [self.auth_system.enroll_speaker(speaker_id=..., wav_files=...)];
    [SpeakerVerification] has no method of that name. *)
Definition call_enroll_speaker (speaker_id : string)
           (wav_files : list string) : M bool :=
  self <~ get ;;
  match auth_system self with
  | SpeakerVerification _ =>
      raise (AttributeError
        "'SpeakerVerification' object has no attribute 'enroll_speaker'")
  | ClosedSetIdentification s =>
      log (EnrollCall speaker_id wav_files) ;;;
      r <~ lift (enroll_speaker _get_embedding s speaker_id wav_files) ;;
      set_auth (ClosedSetIdentification (snd r)) ;;;
      ret (fst r)
  | OpenSetIdentification s =>
      log (EnrollCall speaker_id wav_files) ;;;
      r <~ lift (enroll_speaker _get_embedding s speaker_id wav_files) ;;
      set_auth (OpenSetIdentification (snd r)) ;;;
      ret (fst r)
  end.

(** The body shared by the two test loops: [verify] or [identify] on the
    processed file, by [self.config.task]. *)
Definition submit (processed_file : string) : M (decision * pyfloat) :=
  self <~ get ;;
  match task (config self), auth_system self with
  | verification, SpeakerVerification v =>
      log (TestCall processed_file) ;;;
      r <~ lift (sv_verify _get_embedding v processed_file) ;;
      ret (Verified (fst r), snd r)
  | verification, _ =>
      raise (AttributeError "object has no attribute 'verify'")
  | _, ClosedSetIdentification s =>
      log (TestCall processed_file) ;;;
      r <~ lift (csi_identify _get_embedding s processed_file) ;;
      ret (IdentifiedSpeaker (Some (fst r)), snd r)
  | _, OpenSetIdentification s =>
      log (TestCall processed_file) ;;;
      r <~ lift (osi_identify _get_embedding s processed_file) ;;
      ret (IdentifiedSpeaker (fst r), snd r)
  | _, SpeakerVerification _ =>
      raise (AttributeError
        "'SpeakerVerification' object has no attribute 'identify'")
  end.

Definition test_real (test_file : string) : M test_result :=
  processed_file <~ _prepare_audio test_file ;;
  r <~ submit processed_file ;;
  ret (mkTestResult test_file (fst r) (snd r)).

Definition test_attack (target_speaker_id attack_text : string)
           (enrollment_files : list string) (_ : nat) : M test_result :=
  self <~ get ;;
  let output := ("attack_" ++ target_speaker_id ++ ".wav")%string in
  attack_file <~
    match cloner (config self) with
    | fishspeech =>
        let model_id :=
          fish_create_model enrollment_files
                            ("attack_" ++ target_speaker_id)%string in
        log (CloneCall attack_text output) ;;;
        ret (fish_generate_audio attack_text model_id output)
    | openvoice =>
        match enrollment_files with
        | [] => raise (IndexError "list index out of range")
        | reference :: _ =>
            log (CloneCall attack_text output) ;;;
            ret (openvoice_generate_audio attack_text reference output)
        end
    end ;;
  processed_attack <~ _prepare_audio attack_file ;;
  r <~ submit processed_attack ;;
  ret (mkTestResult attack_file (fst r) (snd r)).

Definition run_attack (target_speaker_id attack_text : string)
  : M attack_results :=
  self <~ get ;;
  match dict_get (files self) target_speaker_id with
  | None =>
      raise (ValueError
        ("Speaker " ++ target_speaker_id ++ " not found in dataset"))
  | Some speaker_files =>
      let n_enroll := num_enrollment_files (config self) in
      let n_test := num_test_files (config self) in
      if (Z.of_nat (length speaker_files) <? n_enroll + n_test)%Z then
        raise (ValueError
          ("Not enough files for speaker " ++ target_speaker_id))
      else
        let enrollment_files := slice_to speaker_files n_enroll in
        let test_files := slice speaker_files n_enroll (n_enroll + n_test) in
        success <~ call_enroll_speaker target_speaker_id enrollment_files ;;
        real <~ for_each test_files test_real ;;
        attacks <~
          for_each (seq 0 (Z.to_nat (num_attack_files (config self))))
                   (test_attack target_speaker_id attack_text
                                enrollment_files) ;;
        ret (mkResults success real attacks)
  end.

End WithExternals.

End Attack.

(* ================================================================= *)
(** ** dataloaders/dataloader.py

    The loader walks a directory tree.  [node] is what [Path.exists],
    [Path.is_dir] and [Path.iterdir] see of it, the entries of a directory
    in the order in which [iterdir] yields them; a path is the string
    [str(path)]; [glob.glob(pattern, recursive=True)] is a [Variable]. *)

Module DataLoader.

Local Open Scope string_scope.

#[warnings="-register-all"] Inductive node : Type :=
| File (name : string)
| Dir (name : string) (entries : list node).

(** [path.name], [path.is_dir()] *)
Definition name (n : node) : string :=
  match n with
  | File name => name
  | Dir name _ => name
  end.

Definition is_dir (n : node) : bool :=
  match n with
  | Dir _ _ => true
  | File _ => false
  end.

(** How a call of the loader ends: with its value, with the [ValueError]
    of [__init__], or with the [NotADirectoryError] of [iterdir]. *)
Inductive loaded (A : Type) : Type :=
| Loaded (a : A)
| RaiseValueError (msg : string)
| RaiseNotADirectoryError (path : string).

Arguments Loaded {A} a.
Arguments RaiseValueError {A} msg.
Arguments RaiseNotADirectoryError {A} path.

(** The components [AttackFramework.__init__] builds after the loader, and
    how the construction of a framework ends: with the framework, with an
    exception of the loader, with the [TypeError] of a keyword given twice,
    or with whatever the constructor of a component raised. *)
Inductive component : Type := Cloner | Backend | Simulator.

Inductive built : Type :=
| Built (framework : Attack.AttackFramework)
| BuildValueError (msg : string)
| BuildNotADirectoryError (path : string)
| BuildTypeError (msg : string)
| BuildComponentError (c : component).

Definition VALID_DATASETS : list string :=
  ["VoxCeleb1"; "VoxCeleb2"; "LibriSpeech"].

(** [p / name] of [pathlib] for an absolute path [p] and a relative
    [name], as a string. *)
Definition path_div (p name : string) : string :=
  if String.eqb p "/" then p ++ name else p ++ "/" ++ name.

(** [key in d] *)
Definition dict_mem {V : Type} (d : dict V) (k : string) : bool :=
  match dict_get d k with
  | Some _ => true
  | None => false
  end.

(** [d[k].extend(more)], for a key that is present. *)
Fixpoint dict_extend (d : dict (list string)) (k : string)
         (more : list string) : dict (list string) :=
  match d with
  | [] => []
  | (k', v) :: rest =>
      if String.eqb k' k then (k', (v ++ more)%list) :: rest
      else (k', v) :: dict_extend rest k more
  end.

Record DataLoader : Type := mkDataLoader {
  dataset : string;
  dataset_folder : string;
  base_path : string;
  mode : string;
  gender_metadata : option string;
  _files : dict (list string)
}.

Section WithFileSystem.

(** What is at an absolute path, and the matches of a recursive glob. *)
Variable fs : string -> option node.
Variable glob : string -> list string.

(** [str(user_id / "**" / f"*.{ext}")] *)
Definition pattern (user_id ext : string) : string :=
  path_div (path_div user_id "**") ("*." ++ ext).

(** The body of the loop over [subset.iterdir()] (LibriSpeech). *)
Definition libri_user_step (subset ext : string) (files : dict (list string))
           (entry : node) : dict (list string) :=
  if is_dir entry then
    let user_id := path_div subset (name entry) in
    let uid := name entry in
    let files := if dict_mem files uid then files else dict_set files uid [] in
    dict_extend files uid (glob (pattern user_id ext))
  else files.

(** The body of the loop over [self.base_path.iterdir()] (LibriSpeech). *)
Definition libri_subset_step (base ext : string) (files : dict (list string))
           (entry : node) : dict (list string) :=
  match entry with
  | Dir subset users =>
      fold_left (libri_user_step (path_div base subset) ext) users files
  | File _ => files
  end.

(** The body of the loop over [self.base_path.iterdir()] (VoxCeleb). *)
Definition vox_user_step (base ext : string) (files : dict (list string))
           (entry : node) : dict (list string) :=
  if is_dir entry then
    let user_id := path_div base (name entry) in
    let uid := name entry in
    dict_set files uid (glob (pattern user_id ext))
  else files.

Definition _collect_files (dataset dataset_folder base_path : string)
  : loaded (dict (list string)) :=
  match fs base_path with
  | None => Loaded []
  | Some at_base =>
      let ext :=
        if String.eqb dataset_folder "aac" then "m4a"
        else if String.eqb dataset_folder "wav" then "wav" else "flac" in
      match at_base with
      | File _ => RaiseNotADirectoryError base_path
      | Dir _ entries =>
          if String.eqb dataset "LibriSpeech"
          then Loaded (fold_left (libri_subset_step base_path ext) entries [])
          else Loaded (fold_left (vox_user_step base_path ext) entries [])
      end
  end.

(** [__init__]; [root] is [Path(__file__).resolve().parent.parent.parent]. *)
Definition init (root dataset : string) (gender_metadata : option string)
           (mode : string) : loaded DataLoader :=
  if existsb (String.eqb dataset) VALID_DATASETS then
    let dataset_folder :=
      if String.eqb dataset "LibriSpeech" then "LibriSpeech/LibriSpeech"
      else if String.eqb dataset "VoxCeleb1" then "VoxCeleb1/wav"
      else "VoxCeleb2/aac" in
    let base_path := path_div (path_div root "data") dataset_folder in
    match _collect_files dataset dataset_folder base_path with
    | Loaded files =>
        Loaded (mkDataLoader dataset dataset_folder base_path mode
                             gender_metadata files)
    | RaiseValueError msg => RaiseValueError msg
    | RaiseNotADirectoryError path => RaiseNotADirectoryError path
    end
  else
    RaiseValueError
      ("Dataset must be one of ['VoxCeleb1', 'VoxCeleb2', 'LibriSpeech'], got "
       ++ dataset).

(** [get_files] *)
Definition get_files (self : DataLoader) : dict (list string) := _files self.

(** Whether the constructor of a component returns: the cloner and the
    backend load networks or open a session, the line simulator makes its
    output directory. *)
Variable constructed : component -> bool.

(** [AttackFramework(config, **kwargs)], in the order of [__init__]: the
    data loader, the cloner, the authentication system, the simulator.
    For the two identification tasks [threshold=config.threshold] is passed
    beside [**kwargs], which Python refuses with [TypeError] when [kwargs]
    holds ["threshold"] too; the constructors of [csi.py] and [osi.py] then
    build the backend. *)
Definition attack_framework (root : string) (cfg : Attack.AttackConfig)
           (kw_threshold : option R) : built :=
  match init root (Attack.dataset cfg) None "intergender" with
  | Loaded data_loader =>
      if negb (constructed Cloner) then BuildComponentError Cloner
      else
        match Attack.task cfg, kw_threshold with
        | (Attack.csi | Attack.osi), Some _ =>
            BuildTypeError
              "got multiple values for keyword argument 'threshold'"
        | _, _ =>
            if negb (constructed Backend) then BuildComponentError Backend
            else
              match Attack.environment cfg with
              | Some Attack.line =>
                  if constructed Simulator
                  then Built (Attack.init cfg (get_files data_loader)
                                          kw_threshold)
                  else BuildComponentError Simulator
              | _ => Built (Attack.init cfg (get_files data_loader)
                                        kw_threshold)
              end
        end
  | RaiseValueError msg => BuildValueError msg
  | RaiseNotADirectoryError path => BuildNotADirectoryError path
  end.

End WithFileSystem.

End DataLoader.

(* ================================================================= *)
(** ** authentication_models/azure_sv.py

    The remote backend.  The speaker-recognition service and the files on
    disk are outside the repository: the answer of the service to a request,
    given the requests made before it, and the content of a file are
    [Variable]s.  A value that comes out of a JSON body has whatever type
    the body gave it: [pyval].  An exception is known by its class. *)

Module Azure.

Local Open Scope string_scope.

#[warnings="-register-all"] Inductive pyval : Type :=
| PyNone
| PyBool (b : bool)
| PyInt (n : Z)
| PyFloat (x : pyfloat)
| PyStr (s : string)
| PyList (items : list pyval)
| PyDict (fields : list (string * pyval)).

(** [bool(v)] *)
Definition truthy (v : pyval) : bool :=
  match v with
  | PyNone => false
  | PyBool b => b
  | PyInt n => negb (n =? 0)%Z
  | PyFloat (Fin x) => negb (Reqb x 0)
  | PyFloat _ => true
  | PyStr s => negb (String.eqb s "")
  | PyList items => match items with [] => false | _ => true end
  | PyDict fields => match fields with [] => false | _ => true end
  end.

Inductive error : Type :=
| TypeError
| ValueError
| KeyError
| JSONDecodeError
| OSError
| RequestException.

Inductive outcome (A : Type) : Type :=
| Return (a : A)
| Throw (e : error).

Arguments Return {A} a.
Arguments Throw {A} e.

(** [v[key]] for a string [key] *)
Definition subscript (v : pyval) (key : string) : outcome pyval :=
  match v with
  | PyDict fields =>
      match dict_get fields key with
      | Some x => Return x
      | None => Throw KeyError
      end
  | _ => Throw TypeError
  end.

(** The four requests of the class, by endpoint:
    [POST .../profiles], [GET .../profiles/{id}],
    [POST .../profiles/{id}/enrollments], [POST .../profiles/{id}/verify]. *)
Inductive request : Type :=
| CreateProfile
| GetProfile (profile_id : pyval)
| PostEnrollment (profile_id : pyval) (audio_data : string)
| PostVerify (profile_id : pyval) (audio_data : string).

(** [response.status_code], and [response.json()] when the body is JSON. *)
Record response : Type := mkResponse {
  status_code : Z;
  json : option pyval
}.

Record AzureSpeakerVerification : Type := mkAzure {
  subscription_key : option string;
  region : string;
  profile_id : pyval
}.

(** [__init__] *)
Definition init (subscription_key : option string) (region : string)
  : AzureSpeakerVerification :=
  mkAzure subscription_key region PyNone.

(** The object and the requests made so far, oldest first. *)
Record state : Type := mkState {
  this : AzureSpeakerVerification;
  sent : list request
}.

Section WithService.

(** [requests.post]/[requests.get]: the answer to a request after the
    requests in the list, [None] when the transport raises. *)
Variable service : list request -> request -> option response.
(** [open(path, 'rb').read()], [None] when it raises. *)
Variable read_file : string -> option string.

Definition send (req : request) (st : state) : outcome response * state :=
  let st' := mkState (this st) (sent st ++ [req]) in
  match service (sent st) req with
  | Some r => (Return r, st')
  | None => (Throw RequestException, st')
  end.

(** [response.json()] *)
Definition response_json (r : response) : outcome pyval :=
  match json r with
  | Some body => Return body
  | None => Throw JSONDecodeError
  end.

Definition _create_profile (st : state) : outcome pyval * state :=
  match send CreateProfile st with
  | (Return r, st') =>
      if (status_code r =? 201)%Z then
        match response_json r with
        | Return body => (subscript body "profileId", st')
        | Throw e => (Throw e, st')
        end
      else (Return PyNone, st')
  | (Throw e, st') => (Throw e, st')
  end.

Definition _get_profile_status (profile_id : pyval) (st : state)
  : outcome pyval * state :=
  match send (GetProfile profile_id) st with
  | (Return r, st') =>
      if (status_code r =? 200)%Z then
        match response_json r with
        | Return profile => (subscript profile "enrollmentStatus", st')
        | Throw e => (Throw e, st')
        end
      else (Return PyNone, st')
  | (Throw e, st') => (Throw e, st')
  end.

(** [_enroll_single_file]: whatever is raised inside is caught. *)
Definition _enroll_single_file (wav_file_path : string) (st : state)
  : bool * state :=
  match read_file wav_file_path with
  | Some audio_data =>
      match send (PostEnrollment (profile_id (this st)) audio_data) st with
      | (Return r, st') => ((status_code r =? 200)%Z, st')
      | (Throw _, st') => (false, st')
      end
  | None => (false, st)
  end.

(** The loop of [enroll], on [successful_enrollments]. *)
Fixpoint enroll_files (wav_files : list string) (successful_enrollments : nat)
         (st : state) : nat * state :=
  match wav_files with
  | [] => (successful_enrollments, st)
  | wav_file :: rest =>
      let '(ok, st') := _enroll_single_file wav_file st in
      enroll_files rest
        (if ok then S successful_enrollments else successful_enrollments) st'
  end.

Definition set_profile_id (v : pyval) (st : state) : state :=
  mkState (mkAzure (subscription_key (this st)) (region (this st)) v) (sent st).

Definition enroll_with_profile (wav_files : list string) (st : state)
  : outcome pyval * state :=
  let '(successful_enrollments, st') := enroll_files wav_files 0 st in
  if (0 <? successful_enrollments)%nat
  then _get_profile_status (profile_id (this st')) st'
  else (Return PyNone, st').

Definition enroll (wav_files : Backend.wav_arg) (st : state)
  : outcome pyval * state :=
  let wav_files := Backend.as_list wav_files in
  match wav_files with
  | [] => (Return PyNone, st)
  | _ =>
      if negb (truthy (profile_id (this st))) then
        match _create_profile st with
        | (Return created, st') =>
            let st' := set_profile_id created st' in
            if negb (truthy (profile_id (this st')))
            then (Return PyNone, st')
            else enroll_with_profile wav_files st'
        | (Throw e, st') => (Throw e, st')
        end
      else enroll_with_profile wav_files st
  end.

Definition verify (wav_file_path : string) (st : state)
  : outcome pyval * state :=
  if negb (truthy (profile_id (this st))) then (Return (PyBool false), st)
  else
    match read_file wav_file_path with
    | None => (Throw OSError, st)
    | Some audio_data =>
        match send (PostVerify (profile_id (this st)) audio_data) st with
        | (Return r, st') =>
            if (status_code r =? 200)%Z then
              match response_json r with
              | Return result => (subscript result "recognitionResult", st')
              | Throw e => (Throw e, st')
              end
            else (Return (PyBool false), st')
        | (Throw e, st') => (Throw e, st')
        end
    end.

End WithService.

End Azure.

(* ================================================================= *)
(** ** The identification tasks on the remote backend

    [SpeakerVerification] with [backend="azure"] forwards [enroll] and
    [verify] to [AzureSpeakerVerification]; [ClosedSetIdentification] and
    [OpenSetIdentification] run the same text as on a local backend, on the
    values that this backend returns. *)

Module AzureTasks.

Local Open Scope string_scope.

Import Azure.

Record ident : Type := mkIdent {
  enrolled_speakers : dict pyval;
  ident_threshold : R
}.

(** [a, b = v] *)
Definition unpack2 (v : pyval) : outcome (pyval * pyval) :=
  match v with
  | PyStr s =>
      match s with
      | String a (String b EmptyString) =>
          Return (PyStr (String a EmptyString), PyStr (String b EmptyString))
      | _ => Throw ValueError
      end
  | PyList items =>
      match items with
      | [a; b] => Return (a, b)
      | _ => Throw ValueError
      end
  | PyDict fields =>
      match fields with
      | [(a, _); (b, _)] => Return (PyStr a, PyStr b)
      | _ => Throw ValueError
      end
  | PyNone | PyBool _ | PyInt _ | PyFloat _ => Throw TypeError
  end.

(** The number that a value is in a comparison with a float. *)
Definition to_number (v : pyval) : option pyfloat :=
  match v with
  | PyBool b => Some (Fin (if b then 1 else 0))
  | PyInt n => Some (Fin (IZR n))
  | PyFloat x => Some x
  | _ => None
  end.

(** [a > b] where [b] is a number. *)
Definition py_gt (a b : pyval) : outcome bool :=
  match to_number a, to_number b with
  | Some x, Some y => Return (gt x y)
  | _, _ => Throw TypeError
  end.

Section WithService.

Variable service : list request -> request -> option response.
Variable read_file : string -> option string.

(** [enroll_speaker], the same in [csi.py] and [osi.py]. *)
Definition enroll_speaker (self : ident) (speaker_id : string)
           (wav_files : list string) (st : state)
  : outcome (pyval * ident) * state :=
  match enroll service read_file (Backend.FileList wav_files) st with
  | (Return success, st') =>
      (Return (success,
               mkIdent (dict_set (enrolled_speakers self) speaker_id success)
                       (ident_threshold self)), st')
  | (Throw e, st') => (Throw e, st')
  end.

(** The loop of [OpenSetIdentification.identify]. *)
Definition first_truthy (roster : dict pyval) : option string :=
  option_map fst (find (fun item : string * pyval => truthy (snd item)) roster).

Definition osi_identify (self : ident) (wav_file_path : string) (st : state)
  : outcome (option string * pyval) * state :=
  match enrolled_speakers self with
  | [] => (Return (None, PyFloat (Fin 0)), st)
  | _ =>
      match verify service read_file wav_file_path st with
      | (Return r, st') =>
          match unpack2 r with
          | Return (is_verified, similarity) =>
              if truthy is_verified then
                match py_gt similarity (PyFloat (Fin (ident_threshold self))) with
                | Return true =>
                    match first_truthy (enrolled_speakers self) with
                    | Some speaker_id => (Return (Some speaker_id, similarity), st')
                    | None => (Return (None, similarity), st')
                    end
                | Return false => (Return (None, similarity), st')
                | Throw e => (Throw e, st')
                end
              else (Return (None, similarity), st')
          | Throw e => (Throw e, st')
          end
      | (Throw e, st') => (Throw e, st')
      end
  end.

(** The loop of [ClosedSetIdentification.identify], on the pair
    [(best_speaker, best_score)]. *)
Fixpoint csi_loop (similarity : pyval) (roster : dict pyval)
         (best : option string * pyval) : outcome (option string * pyval) :=
  match roster with
  | [] => Return best
  | (speaker_id, enrolled) :: rest =>
      if truthy enrolled then
        match py_gt similarity (snd best) with
        | Return true => csi_loop similarity rest (Some speaker_id, similarity)
        | Return false => csi_loop similarity rest best
        | Throw e => Throw e
        end
      else csi_loop similarity rest best
  end.

Definition csi_identify (self : ident) (wav_file_path : string) (st : state)
  : outcome (string * pyval) * state :=
  match enrolled_speakers self with
  | [] => (Throw ValueError, st)
  | first :: _ =>
      match verify service read_file wav_file_path st with
      | (Return r, st') =>
          match unpack2 r with
          | Return (is_verified, similarity) =>
              match csi_loop similarity (enrolled_speakers self)
                             (None, PyFloat (Fin (-1))) with
              | Return (Some speaker_id, best_score) =>
                  (Return (speaker_id, best_score), st')
              | Return (None, _) => (Return (fst first, PyFloat (Fin 0)), st')
              | Throw e => (Throw e, st')
              end
          | Throw e => (Throw e, st')
          end
      | (Throw e, st') => (Throw e, st')
      end
  end.

(** [get_enrolled_speakers] *)
Definition get_enrolled_speakers (self : ident) : list string :=
  map fst (filter (fun item : string * pyval => truthy (snd item))
                  (enrolled_speakers self)).

End WithService.

End AzureTasks.


(* ================================================================= *)
(** * Properties *)

(** A vector with an entry that is not zero. *)
Definition nonzero (v : list R) : Prop := Exists (fun x => x <> 0%R) v.

(** Shapes [(1, n)] and [(1, m)] that NumPy combines without raising. *)
Definition broadcastable (a b : list R) : Prop :=
  length a = length b \/ length a = 1%nat \/ length b = 1%nat.

(** The embeddings of the files that [_get_embedding] could process, in the
    order of the files. *)
Definition embed_all (_get_embedding : string -> option (list R))
           (wav_files : list string) : list (list R) :=
  flat_map (fun f => match _get_embedding f with
                     | Some e => [e]
                     | None => []
                     end) wav_files.

(** The arithmetic mean of vectors of dimension [d], entry by entry. *)
Definition col_sum (rows : list (list R)) (j : nat) : R :=
  np_sum (map (fun r => nth j r 0%R) rows).

Definition arith_mean (d : nat) (rows : list (list R)) : list R :=
  map (fun j => (col_sum rows j / INR (length rows))%R) (seq 0 d).

(** The most recent call of a sequence of [enroll_speaker] calls that had a
    usable sample. *)
Fixpoint last_success (_get_embedding : string -> option (list R))
         (calls : list (string * list string)) : option (string * list string) :=
  match calls with
  | [] => None
  | c :: rest =>
      match last_success _get_embedding rest with
      | Some c' => Some c'
      | None => match embed_all _get_embedding (snd c) with
                | [] => None
                | _ => Some c
                end
      end
  end.

(** The profile [enroll] stores for a list of files with a usable sample. *)
Definition profile_of (_get_embedding : string -> option (list R))
           (wav_files : list string) : option (list R) :=
  match np_mean (embed_all _get_embedding wav_files) with
  | Ok mean => Some mean
  | Raise _ => None
  end.

(** The first speaker of the roster, in insertion order, whose status is
    [True]. *)
Definition first_enrolled (roster : dict bool) : option string :=
  option_map fst (find (fun item : string * bool => snd item) roster).

(** The score an [identify] call returns, when it returns. *)
Definition score_of {A : Type} (r : result (A * pyfloat)) : result pyfloat :=
  x <- r ;; Ok (snd x).

(** The length [librosa.resample] gives a signal of [n] samples, when it
    returns. *)
Definition resampled_length (n : nat) (orig_sr target_sr : Z) : result nat :=
  if (orig_sr =? target_sr)%Z then Ok n
  else k <- Signal.n_samples n orig_sr target_sr ;; Ok (Z.to_nat k).

(** The length of what [simulate_environment] returns for [n] samples, when
    it returns. *)
Definition line_length (c : Line.EnvironmentConfig) (n : nat) : result nat :=
  match Line.down_sample_rate c with
  | Some down =>
      if (down =? 0)%Z then Ok n
      else
        n_down <- resampled_length n (Line.sample_rate c) down ;;
        resampled_length n_down down (Line.sample_rate c)
  | None => Ok n
  end.

(** A network for the examples: three files it can process, with embeddings
    of dimension one or two, and no other. *)
Definition demo_network (path : string) : option (list R) :=
  if String.eqb path "good.wav" then Some [1%R]
  else if String.eqb path "other.wav" then Some [(-1)%R]
  else if String.eqb path "a.wav" then Some [1%R; 2%R]
  else if String.eqb path "b.wav" then Some [3%R; 4%R]
  else None.

(** The mantissa of [float(n)] for [0 < n < 2^53]: [n] shifted to 53
    digits. *)
Definition mantissa53 (p : positive) : positive :=
  match (53 - Zpos (SpecFloat.digits2_pos p))%Z with
  | Zpos k => Pos.iter xO p k
  | _ => p
  end.

(** For the examples: every component can be constructed. *)
Definition demo_constructed (c : DataLoader.component) : bool := true.

(** A network for the examples of a decision: the embedding of
    ["probe.wav"] has cosine similarity 0.3 with that of ["enrol.wav"]; and
    the verifier after ["enrol.wav"] was enrolled. *)
Definition demo_network_scored (path : string) : option (list R) :=
  if String.eqb path "enrol.wav" then Some [1%R; 0%R; 0%R; 0%R]
  else if String.eqb path "probe.wav" then Some [3%R; 9%R; 3%R; 1%R]
  else None.

Definition demo_scored_verifier (thr : R) : Backend.verifier :=
  Backend.mkVerifier thr (Some [1%R; 0%R; 0%R; 0%R]).

(** The identification system after ["good.wav"] was enrolled at threshold
    [1/2], with a given roster. *)
Definition demo_profile : list R := [(1 / INR 1)%R].

Definition demo_enrolled (roster : dict bool) : Tasks.ident :=
  Tasks.mkIdent (Backend.mkVerifier (1 / 2) (Some demo_profile)) roster (1 / 2).

(** Stand-ins for the external parts in the examples: a filter design with
    no section, a resampling kernel that hands its input back, a silent
    noise source, and loaders that read three samples at 16 kHz. *)
Definition demo_butter_design (N : Z) (Wn : list R) (bt : Signal.btype)
           (fs : Z) : list Signal.sos_section := [].
Definition demo_resample_kernel (y : list R) (orig_sr target_sr : Z)
  : list R := y.
Definition demo_standard_normal (i : nat) : R := 0%R.
Definition demo_load_native (path : string) : list R * Z :=
  ([0%R; 0%R; 0%R], 16000%Z).
Definition demo_load (path : string) (sr : Z) : list R := [0%R; 0%R; 0%R].

(** An attack set-up for the examples: closed-set identification, three
    enrollment and two test files, and a dataset in which the one speaker has
    two files. *)
Definition demo_config : Attack.AttackConfig :=
  Attack.mkAttackConfig "VoxCeleb1" Attack.openvoice Attack.deep_speaker
                        Attack.csi None (1 / 2) 3 2 1.

Definition demo_dataset : dict (list string) :=
  [("id10001"%string, ["a.wav"%string; "b.wav"%string])].

(** The same set-up for the verification task, on a speaker with five
    files. *)
Definition demo_config_verification : Attack.AttackConfig :=
  Attack.mkAttackConfig "VoxCeleb1" Attack.openvoice Attack.deep_speaker
                        Attack.verification None (1 / 2) 3 2 1.

Definition demo_dataset_five : dict (list string) :=
  [("id10001"%string,
    ["good.wav"; "a.wav"; "b.wav"; "c.wav"; "d.wav"]%string)].

Definition demo_create_model (voice_paths : list string) (model_name : string)
  : string := model_name.
Definition demo_generate_audio (text : string) (reference : string)
           (output : string) : string := output.

(** Whether the network embeds a file of the list. *)
Definition usable (_get_embedding : string -> option (list R))
           (wav_files : list string) : bool :=
  match embed_all _get_embedding wav_files with
  | [] => false
  | _ => true
  end.

(** The files of the most recent call for [speaker_id] in a sequence of
    [enroll_speaker] calls. *)
Fixpoint last_call (calls : list (string * list string)) (speaker_id : string)
  : option (list string) :=
  match calls with
  | [] => None
  | (id, wav_files) :: rest =>
      match last_call rest speaker_id with
      | Some f => Some f
      | None => if String.eqb id speaker_id then Some wav_files else None
      end
  end.

(** The strings of [l] that are not in [seen], each once, in the order of
    their first occurrence. *)
Fixpoint first_occurrences (seen l : list string) : list string :=
  match l with
  | [] => []
  | x :: rest =>
      if existsb (String.eqb x) seen then first_occurrences seen rest
      else x :: first_occurrences (seen ++ [x]) rest
  end.

(** Whether a character occurs in a string. *)
Fixpoint contains_char (c : ascii) (s : string) : bool :=
  match s with
  | EmptyString => false
  | String c' rest => Ascii.eqb c' c || contains_char c rest
  end.

(** The directories among the entries of a directory, by name. *)
Definition dir_names (entries : list DataLoader.node) : list string :=
  map DataLoader.name (filter DataLoader.is_dir entries).

(** LibriSpeech: the speaker directories, each with the path of its subset,
    in the order in which the two loops reach them. *)
Definition libri_speaker_dirs (base : string) (entries : list DataLoader.node)
  : list (string * string) :=
  flat_map (fun e => match e with
                     | DataLoader.Dir subset users =>
                         map (fun uid => (DataLoader.path_div base subset, uid))
                             (dir_names users)
                     | DataLoader.File _ => []
                     end) entries.

(** The matches that the speaker directories of one name contribute. *)
Definition libri_matches (glob : string -> list string) (ext : string)
           (dirs : list (string * string)) (uid : string) : list string :=
  flat_map (fun d => if String.eqb (snd d) uid
                     then glob (DataLoader.pattern
                                  (DataLoader.path_div (fst d) (snd d)) ext)
                     else []) dirs.

(** What the two LibriSpeech loops do for one speaker directory. *)
Definition libri_dir_step (glob : string -> list string) (ext : string)
           (files : dict (list string)) (d : string * string)
  : dict (list string) :=
  DataLoader.dict_extend
    (if DataLoader.dict_mem files (snd d) then files
     else dict_set files (snd d) [])
    (snd d)
    (glob (DataLoader.pattern (DataLoader.path_div (fst d) (snd d)) ext)).

(** Calls on one [AzureSpeakerVerification] object and the state they leave
    it in; a call that raises leaves the object to the next call. *)
Inductive azure_call : Type :=
| CallEnroll (wav_files : Backend.wav_arg)
| CallVerify (wav_file_path : string).

Fixpoint azure_run (service : list Azure.request -> Azure.request
                              -> option Azure.response)
         (read_file : string -> option string)
         (calls : list azure_call) (st : Azure.state) : Azure.state :=
  match calls with
  | [] => st
  | CallEnroll wav_files :: rest =>
      azure_run service read_file rest
                (snd (Azure.enroll service read_file wav_files st))
  | CallVerify wav_file_path :: rest =>
      azure_run service read_file rest
                (snd (Azure.verify service read_file wav_file_path st))
  end.

(** The profile that a request addresses. *)
Definition addressed (req : Azure.request) : option Azure.pyval :=
  match req with
  | Azure.CreateProfile => None
  | Azure.GetProfile p => Some p
  | Azure.PostEnrollment p _ => Some p
  | Azure.PostVerify p _ => Some p
  end.

(** Every request made so far that addresses a profile addresses the one
    that the object holds. *)
Definition one_profile (st : Azure.state) : Prop :=
  forall req p,
    In req (Azure.sent st) -> addressed req = Some p ->
    p = Azure.profile_id (Azure.this st) /\ Azure.truthy p = true.

(** The impulse response that [simulate] builds, which does not depend on
    the audio. *)
Definition room_response (self : Air.AirEnvironmentSimulator) (sr : Z)
  : result (list R) :=
  room_ir <- Signal.np_zeros sr ;;
  room_ir <- Signal.np_setitem room_ir 0 1%R ;;
  Air.add_reflections room_ir (Air.reverb_delays self) sr.

(** An open-set set-up for the examples, and a speaker whose first three
    files the network embeds and whose other files it does not. *)
Definition demo_config_osi : Attack.AttackConfig :=
  Attack.mkAttackConfig "VoxCeleb1" Attack.openvoice Attack.deep_speaker
                        Attack.osi None (1 / 2) 3 2 1.

Definition demo_dataset_quiet : dict (list string) :=
  [("id10001"%string,
    ["good.wav"; "good.wav"; "good.wav"; "c.wav"; "d.wav"]%string)].

(** A data directory for the examples: VoxCeleb1 with two speakers and a
    stray file, LibriSpeech with a speaker in two subsets. *)
Definition demo_fs (path : string) : option DataLoader.node :=
  if String.eqb path "/repo/data/VoxCeleb1/wav" then
    Some (DataLoader.Dir "wav"
            [DataLoader.Dir "id10001" []; DataLoader.File "README.txt";
             DataLoader.Dir "id10002" []])
  else if String.eqb path "/repo/data/LibriSpeech/LibriSpeech" then
    Some (DataLoader.Dir "LibriSpeech"
            [DataLoader.Dir "dev-clean"
               [DataLoader.Dir "84" []; DataLoader.Dir "174" []];
             DataLoader.File "README.TXT";
             DataLoader.Dir "test-clean" [DataLoader.Dir "84" []]])
  else None.

Definition demo_glob (pattern : string) : list string :=
  if String.eqb pattern "/repo/data/VoxCeleb1/wav/id10001/**/*.flac"
  then ["/repo/data/VoxCeleb1/wav/id10001/a/1.flac"%string]
  else if String.eqb pattern
            "/repo/data/LibriSpeech/LibriSpeech/dev-clean/84/**/*.flac"
  then ["dev/84/1.flac"%string]
  else if String.eqb pattern
            "/repo/data/LibriSpeech/LibriSpeech/test-clean/84/**/*.flac"
  then ["test/84/2.flac"%string]
  else [].

(** A service for the examples: it creates the profile ["p1"], takes every
    enrollment, reports the status ["Enrolled"] and answers every
    verification with ["Reject"]; and a disk on which every file reads as
    ["RIFF"]. *)
Definition demo_service (before : list Azure.request) (req : Azure.request)
  : option Azure.response :=
  match req with
  | Azure.CreateProfile =>
      Some (Azure.mkResponse 201
              (Some (Azure.PyDict [("profileId"%string, Azure.PyStr "p1")])))
  | Azure.GetProfile _ =>
      Some (Azure.mkResponse 200
              (Some (Azure.PyDict
                       [("enrollmentStatus"%string, Azure.PyStr "Enrolled")])))
  | Azure.PostEnrollment _ _ => Some (Azure.mkResponse 200 None)
  | Azure.PostVerify _ _ =>
      Some (Azure.mkResponse 200
              (Some (Azure.PyDict
                       [("recognitionResult"%string, Azure.PyStr "Reject")])))
  end.

(** A service that refuses to create a profile. *)
Definition demo_service_down (before : list Azure.request)
           (req : Azure.request) : option Azure.response :=
  Some (Azure.mkResponse 401 None).

Definition demo_read_file (path : string) : option string := Some "RIFF"%string.

(** The identification system after a first enrollment without files, and
    an open-set set-up that asks for no enrollment file. *)
Definition unenrolled (thr : R) (id : string) : Tasks.ident :=
  Tasks.mkIdent (Backend.init thr) [(id, false)] thr.

Definition demo_config_no_enrollment : Attack.AttackConfig :=
  Attack.mkAttackConfig "VoxCeleb1" Attack.openvoice Attack.deep_speaker
                        Attack.osi None (1 / 2) 0 2 1.

(* ================================================================= *)
(** ** Facts on the NumPy primitives *)

Section NumpyFacts.

Open Scope R_scope.

Lemma Rgtb_true (x y : R) : Rgtb x y = true <-> y < x.
Proof. unfold Rgtb. destruct (Rlt_dec y x); split; auto; discriminate. Qed.

Lemma Rgtb_false (x y : R) : Rgtb x y = false <-> x <= y.
Proof.
  unfold Rgtb. destruct (Rlt_dec y x); split; auto; try discriminate; lra.
Qed.

Lemma Reqb_true (x y : R) : Reqb x y = true <-> x = y.
Proof. unfold Reqb. destruct (Req_dec_T x y); split; auto; discriminate. Qed.

Lemma Reqb_false (x y : R) : Reqb x y = false <-> x <> y.
Proof.
  unfold Reqb. destruct (Req_dec_T x y); split; auto; try discriminate.
  intros H; contradiction.
Qed.

Lemma np_divide_zero_zero : np_divide 0 0 = NaN.
Proof.
  unfold np_divide.
  assert (E : Reqb 0 0 = true) by (apply Reqb_true; reflexivity).
  rewrite E. reflexivity.
Qed.

Lemma np_divide_fin (x y : R) : y <> 0 -> np_divide x y = Fin (x / y).
Proof.
  intros H. unfold np_divide.
  assert (E : Reqb y 0 = false) by (apply Reqb_false; exact H).
  rewrite E. reflexivity.
Qed.

Lemma sum_squares_nonneg (v : list R) : 0 <= np_sum (map (fun x => x * x) v).
Proof.
  induction v as [|x v IH]; simpl.
  - lra.
  - pose proof (Rle_0_sqr x) as Hx. unfold Rsqr in Hx. lra.
Qed.

Lemma sum_squares_zero (v : list R) :
  np_sum (map (fun x => x * x) v) = 0 -> Forall (fun x => x = 0) v.
Proof.
  induction v as [|x v IH]; simpl; intros H.
  - constructor.
  - pose proof (sum_squares_nonneg v) as Hv.
    pose proof (Rle_0_sqr x) as Hx. unfold Rsqr in Hx.
    constructor.
    + assert (Hxx : x * x = 0) by lra.
      destruct (Rmult_integral _ _ Hxx); assumption.
    + apply IH. lra.
Qed.

Lemma sum_squares_pos (v : list R) :
  nonzero v -> 0 < np_sum (map (fun x => x * x) v).
Proof.
  intros H.
  destruct (Rle_lt_or_eq_dec _ _ (sum_squares_nonneg v)) as [Hlt | Heq]; auto.
  exfalso. symmetry in Heq. apply sum_squares_zero in Heq.
  unfold nonzero in H. rewrite Exists_exists in H. destruct H as (x & Hin & Hx).
  rewrite Forall_forall in Heq. apply Hx, Heq, Hin.
Qed.

Lemma np_norm_pos (v : list R) : nonzero v -> 0 < np_norm v.
Proof. intros H. apply sqrt_lt_R0, sum_squares_pos, H. Qed.

Lemma np_norm_zero (v : list R) : np_norm v = 0 -> Forall (fun x => x = 0) v.
Proof.
  intros H. apply sum_squares_zero.
  apply sqrt_eq_0; [apply sum_squares_nonneg | exact H].
Qed.

Lemma np_norm_square (v : list R) :
  np_norm v * np_norm v = np_sum (map (fun x => x * x) v).
Proof. apply sqrt_sqrt, sum_squares_nonneg. Qed.

Lemma np_sum_zeros (v : list R) : Forall (fun x => x = 0) v -> np_sum v = 0.
Proof.
  induction 1 as [|x v Hx _ IH]; simpl; [reflexivity | lra].
Qed.

Lemma zip_with_Rmult_comm (a b : list R) :
  zip_with Rmult a b = zip_with Rmult b a.
Proof.
  revert b. induction a as [|x a IH]; intros [|y b]; simpl; try reflexivity.
  rewrite IH. f_equal. lra.
Qed.

Lemma zip_with_self (a : list R) :
  zip_with Rmult a a = map (fun x => x * x) a.
Proof. induction a as [|x a IH]; simpl; [reflexivity | now rewrite IH]. Qed.

Lemma zip_with_zeros_l (f : R -> R -> R) (a b : list R) :
  (forall y, f 0 y = 0) ->
  Forall (fun x => x = 0) a -> Forall (fun x => x = 0) (zip_with f a b).
Proof.
  intros Hf Ha. revert b.
  induction Ha as [|x a Hx _ IH]; intros [|y b]; simpl; constructor.
  - subst x. apply Hf.
  - apply IH.
Qed.

Lemma zip_with_length (f : R -> R -> R) (a b : list R) :
  length a = length b -> length (zip_with f a b) = length a.
Proof.
  revert b. induction a as [|x a IH]; intros [|y b]; simpl; intros H;
    try reflexivity; try discriminate.
  f_equal. apply IH. now injection H.
Qed.

(** The product of the two rows, whenever NumPy forms it. *)
Lemma np_multiply_broadcastable (a b : list R) :
  broadcastable a b -> exists ab, np_multiply a b = Ok ab.
Proof.
  unfold broadcastable, np_multiply. intros H.
  destruct (Nat.eqb_spec (length a) (length b)) as [E | NE]; [eauto |].
  destruct H as [H | [H | H]]; [contradiction | |].
  - destruct a as [|x [|x' a]]; try discriminate. eauto.
  - destruct b as [|y [|y' b]]; try discriminate.
    destruct a as [|x [|x' a]]; eauto.
Qed.

Lemma np_multiply_not_broadcastable (a b : list R) :
  ~ broadcastable a b ->
  np_multiply a b = Raise (ValueError "operands could not be broadcast together").
Proof.
  unfold broadcastable, np_multiply. intros H.
  destruct (Nat.eqb_spec (length a) (length b)) as [E | NE]; [tauto |].
  destruct a as [|x [|x' a]]; destruct b as [|y [|y' b]]; simpl in *;
    try reflexivity; exfalso; apply H; auto.
Qed.

Lemma np_multiply_comm (a b ab : list R) :
  np_multiply a b = Ok ab -> np_multiply b a = Ok ab.
Proof.
  unfold np_multiply. rewrite (Nat.eqb_sym (length b) (length a)).
  destruct (Nat.eqb_spec (length a) (length b)) as [E | NE].
  - intros H. injection H as <-. now rewrite zip_with_Rmult_comm.
  - destruct a as [|x [|x' a]]; destruct b as [|y [|y' b]]; simpl in *;
      try discriminate; try congruence;
      intros H; injection H as <-; apply (f_equal Ok);
      try reflexivity;
      match goal with
      | |- _ :: _ :: ?l = _ :: _ :: ?r =>
          replace l with r; [repeat (f_equal; try lra) |]
      end;
      apply map_ext; intros; lra.
Qed.

Lemma np_multiply_zero_l (a b ab : list R) :
  np_multiply a b = Ok ab ->
  Forall (fun x => x = 0) a -> Forall (fun x => x = 0) ab.
Proof.
  unfold np_multiply.
  destruct (length a =? length b)%nat.
  - intros H Ha. injection H as <-.
    apply zip_with_zeros_l; [intros; lra | exact Ha].
  - destruct a as [|x [|x' a]]; destruct b as [|y [|y' b]];
      try discriminate; intros H Ha; injection H as <-;
      rewrite Forall_forall in *; intros z Hz;
      repeat match goal with
        | H : In _ (map _ _) |- _ =>
            apply in_map_iff in H; destruct H as (? & <- & ?)
        | H : In _ (_ :: _) |- _ => destruct H as [<- | H]
        | H : In _ [] |- _ => destruct H
        end;
      match goal with
      | |- ?w * _ = 0 => rewrite (Ha w) by (simpl; auto); lra
      end.
Qed.

Lemma np_multiply_zero (a b ab : list R) :
  np_multiply a b = Ok ab ->
  Forall (fun x => x = 0) a \/ Forall (fun x => x = 0) b ->
  np_sum ab = 0.
Proof.
  intros Hm [Ha | Hb]; apply np_sum_zeros.
  - eapply np_multiply_zero_l; eauto.
  - apply np_multiply_comm in Hm. eapply np_multiply_zero_l; eauto.
Qed.

Lemma cosine_similarity_same_length (a b : list R) :
  length a = length b ->
  cosine_similarity a b =
    Ok (np_divide (np_sum (zip_with Rmult a b)) (np_norm a * np_norm b)).
Proof.
  intros H. unfold cosine_similarity, np_multiply.
  apply Nat.eqb_eq in H. rewrite H. reflexivity.
Qed.

End NumpyFacts.

(* ================================================================= *)
(** ** The similarity metric ([cosine_similarity]) *)

Section Similarity.

Open Scope R_scope.

Lemma np_norm_zero_iff (v : list R) :
  np_norm v = 0 <-> Forall (fun x => x = 0) v.
Proof.
  split; [apply np_norm_zero |].
  intros H. unfold np_norm.
  rewrite np_sum_zeros; [apply sqrt_0 |].
  rewrite Forall_forall in *. intros y Hy.
  apply in_map_iff in Hy. destruct Hy as (x & <- & Hx).
  rewrite (H x Hx). lra.
Qed.

Lemma cosine_similarity_returns (a b : list R) :
  broadcastable a b -> exists s, cosine_similarity a b = Ok s.
Proof.
  intros H. destruct (np_multiply_broadcastable H) as (ab & Hab).
  unfold cosine_similarity. rewrite Hab. simpl. eauto.
Qed.

Lemma cosine_similarity_zero_norm (a b : list R) :
  broadcastable a b -> np_norm a = 0 \/ np_norm b = 0 ->
  cosine_similarity a b = Ok NaN.
Proof.
  intros H Hz. destruct (np_multiply_broadcastable H) as (ab & Hab).
  unfold cosine_similarity. rewrite Hab. simpl.
  rewrite (np_multiply_zero Hab).
  - replace (np_norm a * np_norm b) with 0.
    + now rewrite np_divide_zero_zero.
    + destruct Hz as [-> | ->]; lra.
  - destruct Hz as [Hz | Hz]; apply np_norm_zero_iff in Hz; auto.
Qed.

(** C8, as the code has it.  [cosine_similarity] validates nothing.  When
    NumPy can combine the two shapes (equal lengths, or one of the rows has
    a single entry) the call returns, and if either vector has zero norm
    what it returns is [nan], the value of [0/0]; only shapes that cannot be
    broadcast raise, with NumPy's [ValueError]. *)
Theorem cosine_similarity_unvalidated (a b : list R) :
  (broadcastable a b -> exists s, cosine_similarity a b = Ok s) /\
  (broadcastable a b -> np_norm a = 0 \/ np_norm b = 0 ->
   cosine_similarity a b = Ok NaN) /\
  (~ broadcastable a b ->
   cosine_similarity a b =
     Raise (ValueError "operands could not be broadcast together")).
Proof.
  split; [| split].
  - apply cosine_similarity_returns.
  - apply cosine_similarity_zero_norm.
  - intros H. unfold cosine_similarity.
    now rewrite (np_multiply_not_broadcastable H).
Qed.

Lemma cosine_similarity_unvalidated_witness :
  broadcastable [0; 0] [1; 0] /\
  (np_norm [0; 0] = 0 \/ np_norm [1; 0] = 0) /\
  cosine_similarity [0; 0] [1; 0] = Ok NaN /\
  ~ broadcastable [1; 2] [1; 2; 3] /\
  cosine_similarity [1; 2] [1; 2; 3] =
    Raise (ValueError "operands could not be broadcast together").
Proof.
  assert (Hb : broadcastable [0; 0] [1; 0]) by (left; reflexivity).
  assert (Hz : np_norm [0; 0] = 0 \/ np_norm [1; 0] = 0).
  { left. apply np_norm_zero_iff. repeat constructor. }
  assert (Hn : ~ broadcastable [1; 2] [1; 2; 3]).
  { unfold broadcastable. simpl. intros [H | [H | H]]; discriminate. }
  split; [exact Hb |]. split; [exact Hz |].
  split; [exact (proj1 (proj2 (cosine_similarity_unvalidated [0; 0] [1; 0]))
                   Hb Hz) |].
  split; [exact Hn |].
  exact (proj2 (proj2 (cosine_similarity_unvalidated [1; 2] [1; 2; 3])) Hn).
Defined.

(** C8, as stated, fails: a zero vector gives a normal return (of [nan]),
    and rows of lengths 1 and 2 give a number. *)
Lemma cosine_similarity_zero_norm_returns :
  np_norm [0; 0] = 0 /\
  cosine_similarity [0; 0] [1; 0] = Ok NaN /\
  length [1] <> length [3; 4] /\
  cosine_similarity [1] [3; 4] = Ok (Fin (7 / 5)).
Proof.
  assert (Hz : np_norm [0; 0] = 0).
  { apply np_norm_zero_iff. repeat constructor. }
  split; [exact Hz |]. split; [| split].
  - apply cosine_similarity_zero_norm.
    + left. reflexivity.
    + left. exact Hz.
  - simpl. discriminate.
  - unfold cosine_similarity, np_norm. simpl.
    replace (1 * 1 + 0) with 1 by lra.
    replace (3 * 3 + (4 * 4 + 0)) with (5 * 5) by lra.
    rewrite sqrt_1, sqrt_square by lra.
    rewrite np_divide_fin by lra.
    do 2 f_equal. lra.
Qed.

(** C10.  For non-zero vectors of one length, [cosine_similarity] is the dot
    product divided by the product of the L2 norms, it is symmetric, and
    the similarity of a vector with itself is 1. *)
Theorem cosine_similarity_symmetric_self (a b : list R) :
  nonzero a -> nonzero b -> length a = length b ->
  cosine_similarity a b =
    Ok (Fin (np_sum (zip_with Rmult a b) / (np_norm a * np_norm b))) /\
  cosine_similarity b a = cosine_similarity a b /\
  cosine_similarity a a = Ok (Fin 1).
Proof.
  intros Ha Hb Hlen.
  pose proof (np_norm_pos Ha) as Pa. pose proof (np_norm_pos Hb) as Pb.
  assert (Hab : np_norm a * np_norm b <> 0) by nra.
  split; [| split].
  - rewrite (cosine_similarity_same_length _ _ Hlen).
    now rewrite np_divide_fin.
  - rewrite (cosine_similarity_same_length _ _ Hlen).
    rewrite (cosine_similarity_same_length _ _ (eq_sym Hlen)).
    rewrite (zip_with_Rmult_comm b a), (Rmult_comm (np_norm b)).
    reflexivity.
  - rewrite (cosine_similarity_same_length _ _ eq_refl).
    rewrite zip_with_self, <- np_norm_square.
    rewrite np_divide_fin by nra.
    do 2 f_equal. field. lra.
Qed.

Lemma cosine_similarity_symmetric_self_witness :
  nonzero [3; 4] /\ nonzero [4; 3] /\ length [3; 4] = length [4; 3] /\
  cosine_similarity [3; 4] [4; 3] =
    Ok (Fin (np_sum (zip_with Rmult [3; 4] [4; 3])
             / (np_norm [3; 4] * np_norm [4; 3]))) /\
  cosine_similarity [4; 3] [3; 4] = cosine_similarity [3; 4] [4; 3] /\
  cosine_similarity [3; 4] [3; 4] = Ok (Fin 1).
Proof.
  assert (H1 : nonzero [3; 4]) by (left; lra).
  assert (H2 : nonzero [4; 3]) by (left; lra).
  split; [exact H1 |]. split; [exact H2 |]. split; [reflexivity |].
  exact (cosine_similarity_symmetric_self H1 H2 eq_refl).
Defined.

End Similarity.

(* ================================================================= *)
(** ** Enrollment on a local-embedding backend *)

Section Enrollment.

Open Scope R_scope.

Import Backend.

Variable E : string -> option (list R).

Lemma enroll_loop (files : list string) (acc : list (list R)) (n : nat) :
  fold_left (enroll_step E) files (acc, n) =
    (acc ++ embed_all E files, (n + length (embed_all E files))%nat).
Proof.
  revert acc n. induction files as [|f files IH]; intros acc n; simpl.
  - now rewrite app_nil_r, Nat.add_0_r.
  - unfold enroll_step at 2. destruct (E f) as [e|]; simpl.
    + rewrite IH, <- app_assoc. simpl. f_equal. lia.
    + apply IH.
Qed.

(** [enroll] in one equation: no usable sample, or the mean of the usable
    ones. *)
Lemma enroll_eq (v : verifier) (files : list string) :
  enroll E v (FileList files) =
    match embed_all E files with
    | [] => Ok (false, v)
    | rows => mean <- np_mean rows ;;
              Ok (true, mkVerifier (threshold v) (Some mean))
    end.
Proof.
  unfold enroll. simpl as_list. destruct files as [|f files]; [reflexivity |].
  rewrite enroll_loop.
  generalize (embed_all E (f :: files)). intros [|r rows]; reflexivity.
Qed.

Lemma nth_map_in (A B : Type) (f : A -> B) (l : list A) (da : A) (db : B)
      (j : nat) :
  (j < length l)%nat -> nth j (map f l) db = f (nth j l da).
Proof.
  revert j. induction l as [|x l IH]; intros [|j]; simpl; intros H;
    try lia; try reflexivity.
  apply IH. lia.
Qed.

Lemma vec_add_length (a b : list R) :
  length a = length b -> length (vec_add a b) = length a.
Proof. apply zip_with_length. Qed.

Lemma vec_add_nth (a b : list R) (j : nat) :
  length a = length b -> nth j (vec_add a b) 0 = nth j a 0 + nth j b 0.
Proof.
  revert b j. induction a as [|x a IH]; intros [|y b] [|j]; simpl;
    intros H; try discriminate; try lra.
  apply IH. now injection H.
Qed.

Lemma fold_vec_add_length (rest : list (list R)) (r : list R) :
  Forall (fun x => length x = length r) rest ->
  length (fold_left vec_add rest r) = length r.
Proof.
  revert r. induction rest as [|x rest IH]; intros r H; simpl; [reflexivity |].
  inversion H as [|? ? Hx Hrest]; subst.
  rewrite IH.
  - apply vec_add_length. now symmetry.
  - rewrite vec_add_length by now symmetry. exact Hrest.
Qed.

Lemma fold_vec_add_nth (rest : list (list R)) (r : list R) (j : nat) :
  Forall (fun x => length x = length r) rest ->
  nth j (fold_left vec_add rest r) 0 = nth j r 0 + col_sum rest j.
Proof.
  revert r. induction rest as [|x rest IH]; intros r H; simpl.
  - unfold col_sum. simpl. lra.
  - inversion H as [|? ? Hx Hrest]; subst.
    rewrite IH.
    + rewrite vec_add_nth by now symmetry. unfold col_sum. simpl. lra.
    + rewrite vec_add_length by now symmetry. exact Hrest.
Qed.

(** [np.mean] of vectors of one dimension is their arithmetic mean. *)
Lemma np_mean_arith_mean (d : nat) (rows : list (list R)) :
  rows <> [] -> Forall (fun e => length e = d) rows ->
  np_mean rows = Ok (arith_mean d rows).
Proof.
  intros Hne Hd. destruct rows as [|r rest]; [contradiction |].
  inversion Hd as [|? ? Hr Hrest]; subst.
  unfold np_mean.
  assert (Hall : forallb (fun x => (length x =? length r)%nat) rest = true).
  { apply forallb_forall. intros x Hx. apply Nat.eqb_eq.
    rewrite Forall_forall in Hrest. now apply Hrest. }
  rewrite Hall. f_equal.
  apply (nth_ext _ _ 0 0).
  - unfold arith_mean. rewrite !length_map, length_seq.
    now apply fold_vec_add_length.
  - intros j Hj. rewrite length_map, fold_vec_add_length in Hj by assumption.
    unfold arith_mean.
    rewrite (nth_map_in _ _ 0) by (rewrite fold_vec_add_length; assumption).
    rewrite (nth_map_in _ _ 0%nat) by (rewrite length_seq; assumption).
    rewrite seq_nth by assumption.
    rewrite fold_vec_add_nth by assumption.
    unfold col_sum. simpl. reflexivity.
Qed.

Lemma np_sum_permutation (l l' : list R) :
  Permutation l l' -> np_sum l = np_sum l'.
Proof.
  induction 1; simpl; lra.
Qed.

Lemma arith_mean_permutation (d : nat) (rows rows' : list (list R)) :
  Permutation rows rows' -> arith_mean d rows = arith_mean d rows'.
Proof.
  intros H. unfold arith_mean. apply map_ext. intros j.
  rewrite (Permutation_length H). f_equal.
  unfold col_sum. apply np_sum_permutation, Permutation_map, H.
Qed.

Lemma embed_all_permutation (files files' : list string) :
  Permutation files files' -> Permutation (embed_all E files) (embed_all E files').
Proof. intros H. unfold embed_all. now rewrite H. Qed.

Lemma enroll_mean (v : verifier) (files : list string) (d : nat) :
  embed_all E files <> [] ->
  Forall (fun e => length e = d) (embed_all E files) ->
  enroll E v (FileList files) =
    Ok (true, mkVerifier (threshold v)
                         (Some (arith_mean d (embed_all E files)))).
Proof.
  intros Hne Hd. rewrite enroll_eq.
  pose proof (np_mean_arith_mean Hne Hd) as Hm.
  destruct (embed_all E files) as [|r rows]; [contradiction |].
  rewrite Hm. reflexivity.
Qed.

End Enrollment.

(* ================================================================= *)
(** ** Enrollment: the stored profile and the roster *)

Section EnrollmentClaims.

Open Scope R_scope.

Import Backend Tasks.

Lemma dict_get_set_same (V : Type) (d : dict V) (k : string) (v : V) :
  dict_get (dict_set d k v) k = Some v.
Proof.
  induction d as [|[k' v'] d IH]; simpl.
  - now rewrite String.eqb_refl.
  - destruct (String.eqb k' k) eqn:Hk; simpl; rewrite Hk; [reflexivity | exact IH].
Qed.

Lemma dict_set_nonempty (V : Type) (d : dict V) (k : string) (v : V) :
  dict_set d k v <> [].
Proof.
  destruct d as [|[k' v'] d]; simpl; [discriminate |].
  destruct (String.eqb k' k); discriminate.
Qed.

Lemma three_sample_mean (d : nat) (ea eb ec : list R) :
  length ea = d -> length eb = d -> length ec = d ->
  arith_mean d [ea; eb; ec] = map (fun s => s / 3) (vec_add (vec_add ea eb) ec).
Proof.
  intros Ha Hb Hc.
  assert (Hm : np_mean [ea; eb; ec] = Ok (arith_mean d [ea; eb; ec])).
  { apply np_mean_arith_mean; [discriminate | repeat constructor; assumption]. }
  unfold np_mean in Hm. simpl forallb in Hm.
  rewrite Hb, Hc, Ha, Nat.eqb_refl in Hm. simpl in Hm.
  injection Hm as <-. apply map_ext. intros s. f_equal. lra.
Qed.

(** C4.  With at least one sample that the network embeds, and embeddings
    of one dimension [d], [enroll] succeeds and stores the arithmetic mean
    of the embeddings of the samples that were embedded, the others being
    left out; for three samples it is [(e_a + e_b + e_c) / 3]; and the
    result does not depend on the order of the samples. *)
Theorem enroll_stores_mean (E : string -> option (list R)) (v : verifier)
        (files : list string) (d : nat) :
  embed_all E files <> [] ->
  Forall (fun e => length e = d) (embed_all E files) ->
  enroll E v (FileList files) =
    Ok (true, mkVerifier (threshold v)
                         (Some (arith_mean d (embed_all E files)))) /\
  (forall a b c ea eb ec,
      files = [a; b; c] ->
      E a = Some ea -> E b = Some eb -> E c = Some ec ->
      arith_mean d (embed_all E files) =
        map (fun s => s / 3) (vec_add (vec_add ea eb) ec)) /\
  (forall files', Permutation files files' ->
      enroll E v (FileList files') = enroll E v (FileList files)).
Proof.
  intros Hne Hd. split; [| split].
  - now apply enroll_mean.
  - intros a b c ea eb ec -> Ha Hb Hc.
    unfold embed_all in *. simpl in *. rewrite Ha, Hb, Hc in *. simpl in *.
    inversion Hd as [|? ? H1 Hd1]; subst.
    inversion Hd1 as [|? ? H2 Hd2]; subst.
    inversion Hd2 as [|? ? H3 _]; subst.
    now apply three_sample_mean.
  - intros files' Hp.
    pose proof (embed_all_permutation E Hp) as Hpe.
    rewrite (enroll_mean E v files Hne Hd).
    rewrite (@enroll_mean E v files' d).
    + now rewrite (arith_mean_permutation d Hpe).
    + intros Hnil. rewrite Hnil in Hpe.
      apply Permutation_sym, Permutation_nil in Hpe. contradiction.
    + eapply Permutation_Forall; eauto.
Qed.

Lemma enroll_stores_mean_witness :
  embed_all demo_network ["a.wav"; "bad.wav"; "b.wav"]%string <> [] /\
  Forall (fun e => length e = 2%nat)
         (embed_all demo_network ["a.wav"; "bad.wav"; "b.wav"]%string) /\
  enroll demo_network (Backend.init (1 / 2))
         (FileList ["a.wav"; "bad.wav"; "b.wav"]%string) =
    Ok (true, mkVerifier (1 / 2)
          (Some (arith_mean 2 (embed_all demo_network
                                 ["a.wav"; "bad.wav"; "b.wav"]%string)))).
Proof.
  assert (H1 : embed_all demo_network ["a.wav"; "bad.wav"; "b.wav"]%string <> [])
    by (simpl; discriminate).
  assert (H2 : Forall (fun e => length e = 2%nat)
                 (embed_all demo_network ["a.wav"; "bad.wav"; "b.wav"]%string))
    by (simpl; repeat constructor).
  split; [exact H1 |]. split; [exact H2 |].
  exact (proj1 (enroll_stores_mean demo_network (Backend.init (1 / 2))
                  ["a.wav"; "bad.wav"; "b.wav"]%string H1 H2)).
Defined.

Lemma enroll_speaker_unusable (E : string -> option (list R)) (self : ident)
      (speaker_id : string) (wav_files : list string) :
  embed_all E wav_files = [] ->
  enroll_speaker E self speaker_id wav_files =
    Ok (false, mkIdent (verifier_of self)
                       (dict_set (enrolled_speakers self) speaker_id false)
                       (ident_threshold self)).
Proof.
  intros H. unfold enroll_speaker, sv_enroll.
  rewrite enroll_eq, H. reflexivity.
Qed.

(** C5, as the code has it.  When no sample of the list yields an
    embedding, [enroll_speaker] returns [False] (nothing is raised), leaves
    the verifier as it was, and records the speaker in the roster with
    status [False]. *)
Theorem enroll_speaker_records_failure (E : string -> option (list R))
        (self : ident) (speaker_id : string) (wav_files : list string) :
  embed_all E wav_files = [] ->
  exists self',
    enroll_speaker E self speaker_id wav_files = Ok (false, self') /\
    verifier_of self' = verifier_of self /\
    dict_get (enrolled_speakers self') speaker_id = Some false /\
    In speaker_id (keys (enrolled_speakers self')).
Proof.
  intros H. eexists. split; [apply enroll_speaker_unusable, H |].
  simpl. split; [reflexivity |]. split; [apply dict_get_set_same |].
  generalize (enrolled_speakers self). intros d.
  induction d as [|[k b] d IH]; simpl.
  - now left.
  - destruct (String.eqb_spec k speaker_id); simpl; auto.
Qed.

Lemma enroll_speaker_records_failure_witness :
  embed_all demo_network ["bad.wav"]%string = [] /\
  exists self',
    enroll_speaker demo_network (ident_init (1 / 2)) "alice" ["bad.wav"]%string
      = Ok (false, self') /\
    verifier_of self' = verifier_of (ident_init (1 / 2)) /\
    dict_get (enrolled_speakers self') "alice" = Some false /\
    In "alice"%string (keys (enrolled_speakers self')).
Proof.
  split; [reflexivity |].
  exact (enroll_speaker_records_failure demo_network (ident_init (1 / 2))
           "alice" ["bad.wav"]%string eq_refl).
Defined.

(** C5, as stated, fails: the call returns, with [False]. *)
Lemma enroll_speaker_returns_false :
  embed_all demo_network ["bad.wav"]%string = [] /\
  enroll_speaker demo_network (ident_init (1 / 2)) "alice" ["bad.wav"]%string =
    Ok (false, mkIdent (Backend.init (1 / 2)) [("alice"%string, false)] (1 / 2)).
Proof.
  split; [reflexivity |].
  now rewrite enroll_speaker_unusable.
Qed.

End EnrollmentClaims.

(* ================================================================= *)
(** ** Verification and identification: facts *)

Section Decision.

Open Scope R_scope.

Import Backend Tasks.

Variable E : string -> option (list R).

Lemma gt_irrefl (x : pyfloat) : gt x x = false.
Proof.
  destruct x; simpl; try reflexivity. apply Rgtb_false. lra.
Qed.

Lemma cosine_similarity_1d_pos (x y : R) :
  0 < x -> 0 < y -> cosine_similarity [x] [y] = Ok (Fin 1).
Proof.
  intros Hx Hy. rewrite cosine_similarity_same_length by reflexivity.
  unfold np_norm. simpl.
  replace (x * x + 0) with (x * x) by lra.
  replace (y * y + 0) with (y * y) by lra.
  rewrite !sqrt_square by lra.
  rewrite np_divide_fin by nra.
  do 2 f_equal. field. lra.
Qed.

(** [verify] once a similarity was computed: the format spec of the log
    line is applied to the array and raises. *)
Lemma verify_scored (thr : R) (enrolled test : list R) (probe : string)
      (s : pyfloat) :
  E probe = Some test -> cosine_similarity test enrolled = Ok s ->
  verify E (mkVerifier thr (Some enrolled)) probe =
    Raise (TypeError
             "unsupported format string passed to numpy.ndarray.__format__").
Proof.
  intros Hp Hs. unfold verify. simpl. rewrite Hp, Hs. reflexivity.
Qed.

(** [verify] returns through its two guards only. *)
Lemma verify_returns (v : verifier) (probe : string) (b : bool) (s : pyfloat) :
  verify E v probe = Ok (b, s) ->
  b = false /\ s = Fin 0 /\
  (enrollment_embedding v = None \/ E probe = None).
Proof.
  unfold verify.
  destruct (enrollment_embedding v) as [enrolled|].
  - destruct (E probe) as [test|].
    + destruct (cosine_similarity test enrolled) as [sim | e]; simpl;
        discriminate.
    + intros H. injection H as <- <-. auto.
  - intros H. injection H as <- <-. auto.
Qed.

(** The loop of [ClosedSetIdentification.identify]. *)
Lemma csi_loop_stable (sim : pyfloat) (roster : dict bool) (id : string) :
  fold_left (csi_step sim) roster (Some id, sim) = (Some id, sim).
Proof.
  induction roster as [|[k b] roster IH]; simpl; [reflexivity |].
  rewrite gt_irrefl, andb_false_r. exact IH.
Qed.

Lemma csi_loop (sim : pyfloat) (roster : dict bool) :
  fold_left (csi_step sim) roster (None, Fin (-1)) =
    match first_enrolled roster with
    | Some id => if gt sim (Fin (-1)) then (Some id, sim) else (None, Fin (-1))
    | None => (None, Fin (-1))
    end.
Proof.
  unfold first_enrolled.
  induction roster as [|[k b] roster IH]; simpl; [reflexivity |].
  destruct b; simpl.
  - destruct (gt sim (Fin (-1))) eqn:Hg.
    + apply csi_loop_stable.
    + rewrite IH. destruct (find _ roster); reflexivity.
  - exact IH.
Qed.

Lemma csi_identify_eq (self : ident) (probe : string) (first : string * bool)
      (rest : dict bool) :
  enrolled_speakers self = first :: rest ->
  csi_identify E self probe =
    (r <- sv_verify E (verifier_of self) probe ;;
     match first_enrolled (enrolled_speakers self) with
     | Some id =>
         if gt (snd r) (Fin (-1)) then Ok (id, snd r) else Ok (fst first, Fin 0)
     | None => Ok (fst first, Fin 0)
     end).
Proof.
  intros Hr. unfold csi_identify. rewrite Hr.
  destruct (sv_verify E (verifier_of self) probe) as [[b sim] | e];
    [| reflexivity].
  cbn [bind snd]. rewrite csi_loop.
  destruct (first_enrolled (first :: rest)); [| reflexivity].
  destruct (gt sim (Fin (-1))); reflexivity.
Qed.

Lemma osi_identify_eq (self : ident) (probe : string) :
  enrolled_speakers self <> [] ->
  osi_identify E self probe =
    (r <- sv_verify E (verifier_of self) probe ;;
     if fst r && gt (snd r) (Fin (ident_threshold self))
     then Ok (first_enrolled (enrolled_speakers self), snd r)
     else Ok (None, snd r)).
Proof.
  intros Hr. unfold osi_identify.
  destruct (enrolled_speakers self) as [|first rest] eqn:Hroster;
    [contradiction |].
  destruct (sv_verify E (verifier_of self) probe) as [[b sim] | e];
    [| reflexivity].
  cbn [bind fst snd].
  destruct (b && gt sim (Fin (ident_threshold self))); [| reflexivity].
  unfold first_enrolled.
  destruct (find _ (first :: rest)) as [[id st]|]; reflexivity.
Qed.

(** What one [enroll] call does to the verifier. *)
Lemma enroll_cases (v : verifier) (files : list string) (ok : bool)
      (v' : verifier) :
  enroll E v (FileList files) = Ok (ok, v') ->
  (ok = false /\ embed_all E files = [] /\ v' = v) \/
  (ok = true /\ embed_all E files <> [] /\
   v' = mkVerifier (threshold v) (profile_of E files)).
Proof.
  rewrite enroll_eq. unfold profile_of.
  destruct (embed_all E files) as [|r rows] eqn:He.
  - intros H. injection H as <- <-. left. auto.
  - destruct (np_mean (r :: rows)) as [m | e]; simpl; [| discriminate].
    intros H. injection H as <- <-. right.
    split; [reflexivity |]. split; [discriminate | reflexivity].
Qed.

Lemma enroll_speaker_cases (self self' : ident) (id : string)
      (files : list string) (ok : bool) :
  enroll_speaker E self id files = Ok (ok, self') ->
  enrolled_speakers self' = dict_set (enrolled_speakers self) id ok /\
  ident_threshold self' = ident_threshold self /\
  threshold (verifier_of self') = threshold (verifier_of self) /\
  ((ok = false /\ embed_all E files = [] /\ verifier_of self' = verifier_of self)
   \/
   (ok = true /\ embed_all E files <> [] /\
    verifier_of self' =
      mkVerifier (threshold (verifier_of self)) (profile_of E files))).
Proof.
  unfold enroll_speaker, sv_enroll.
  destruct (enroll E (verifier_of self) (FileList files)) as [[b v] | e] eqn:He;
    simpl; [| discriminate].
  intros H. injection H as <- <-. simpl.
  apply enroll_cases in He.
  split; [reflexivity |]. split; [reflexivity |].
  destruct He as [(-> & Hn & ->) | (-> & Hn & ->)]; split; auto.
Qed.

(** After a sequence of [enroll_speaker] calls the verifier holds the
    profile of the last call that had a usable sample, if there was one. *)
Lemma enroll_all_verifier (calls : list (string * list string))
      (self self' : ident) :
  enroll_all E self calls = Ok self' ->
  ident_threshold self' = ident_threshold self /\
  threshold (verifier_of self') = threshold (verifier_of self) /\
  verifier_of self' =
    match last_success E calls with
    | Some c => mkVerifier (threshold (verifier_of self)) (profile_of E (snd c))
    | None => verifier_of self
    end.
Proof.
  revert self. induction calls as [|[id files] calls IH]; intros self; simpl.
  - intros H. injection H as <-. auto.
  - destruct (enroll_speaker E self id files) as [[ok s1] | e] eqn:H1;
      simpl; [| discriminate].
    intros H. apply IH in H. destruct H as (Ht & Hv & Hp).
    apply enroll_speaker_cases in H1.
    destruct H1 as (_ & Ht1 & Hv1 & Hcase).
    split; [congruence |]. split; [congruence |].
    rewrite Hp. destruct (last_success E calls) as [c|].
    + now rewrite Hv1.
    + destruct Hcase as [(_ & Hn & ->) | (_ & Hn & ->)].
      * now rewrite Hn.
      * destruct (embed_all E files); [contradiction | reflexivity].
Qed.

Lemma enroll_all_roster_nonempty (calls : list (string * list string))
      (self self' : ident) :
  enroll_all E self calls = Ok self' ->
  calls <> [] \/ enrolled_speakers self <> [] ->
  enrolled_speakers self' <> [].
Proof.
  revert self. induction calls as [|[id files] calls IH]; intros self; simpl.
  - intros H. injection H as <-. intros [Hc | Hr]; [contradiction | exact Hr].
  - destruct (enroll_speaker E self id files) as [[ok s1] | e] eqn:H1;
      simpl; [| discriminate].
    intros H _. apply (IH s1 H). right.
    apply enroll_speaker_cases in H1. destruct H1 as (-> & _).
    apply dict_set_nonempty.
Qed.

Lemma last_success_nonempty (calls : list (string * list string))
      (c : string * list string) :
  last_success E calls = Some c -> calls <> [].
Proof. destruct calls; simpl; [discriminate | intros _; discriminate]. Qed.

End Decision.

(* ================================================================= *)
(** ** Verification and identification: the claims *)

Section DecisionClaims.

Open Scope R_scope.
Open Scope string_scope.

Import Backend Tasks.

Lemma demo_scored_enroll (thr : R) :
  enroll demo_network_scored (Backend.init thr) (FileList ["enrol.wav"]) =
    Ok (true, demo_scored_verifier thr).
Proof.
  cbv -[Rdiv Rplus Rmult INR IZR Rinv demo_scored_verifier].
  unfold demo_scored_verifier. do 4 f_equal.
  repeat (apply (f_equal2 cons); [simpl; field |]). reflexivity.
Qed.

Lemma demo_scored_similarity :
  cosine_similarity [3; 9; 3; 1] [1; 0; 0; 0] = Ok (Fin (3 / 10)) /\
  cosine_similarity [1; 0; 0; 0] [1; 0; 0; 0] = Ok (Fin 1).
Proof.
  split; rewrite cosine_similarity_same_length by reflexivity;
    unfold np_norm; simpl.
  - replace (3 * 3 + (9 * 9 + (3 * 3 + (1 * 1 + 0)))) with (10 * 10) by lra.
    replace (1 * 1 + (0 * 0 + (0 * 0 + (0 * 0 + 0)))) with (1 * 1) by lra.
    rewrite !sqrt_square by lra.
    rewrite np_divide_fin by lra. do 2 f_equal. field.
  - replace (1 * 1 + (0 * 0 + (0 * 0 + (0 * 0 + 0)))) with (1 * 1) by lra.
    rewrite !sqrt_square by lra.
    rewrite np_divide_fin by lra. do 2 f_equal. field.
Qed.

Lemma demo_scored_verify (thr : R) (probe : string) (test : list R)
      (s : pyfloat) :
  demo_network_scored probe = Some test ->
  cosine_similarity test [1; 0; 0; 0] = Ok s ->
  verify demo_network_scored (demo_scored_verifier thr) probe =
    Raise (TypeError
             "unsupported format string passed to numpy.ndarray.__format__").
Proof. intros Hp Hs. eapply verify_scored; eauto. Qed.


(** C1, as the code has it.  With an empty roster
    [ClosedSetIdentification.identify] raises [ValueError] for every probe;
    [OpenSetIdentification.identify] returns [(None, 0.0)]; and [verify],
    before any profile is stored, returns [(False, 0.0)]. *)
Theorem empty_roster_behaviour (E : string -> option (list R)) (v : verifier)
        (thr t : R) (probe : string) :
  csi_identify E (mkIdent v [] thr) probe =
    Raise (ValueError "No speakers enrolled in the system") /\
  osi_identify E (mkIdent v [] thr) probe = Ok (None, Fin 0) /\
  sv_verify E (mkVerifier t None) probe = Ok (false, Fin 0).
Proof. repeat split. Qed.

(** C1, as stated, fails: on the empty roster the open-set [identify] and
    [verify] return. *)
Lemma empty_roster_osi_returns :
  enrolled_speakers (ident_init (1 / 2)) = [] /\
  osi_identify demo_network (ident_init (1 / 2)) "good.wav" = Ok (None, Fin 0) /\
  sv_verify demo_network (Backend.init (1 / 2)) "good.wav" = Ok (false, Fin 0).
Proof. repeat split. Qed.

Lemma demo_history_enrolled :
  enroll_all demo_network (ident_init (1 / 2)) [("alice", ["good.wav"])] =
    Ok (demo_enrolled [("alice", true)]).
Proof. reflexivity. Qed.

(** C2: [identify] returns neither answer of the claim.  ["alice"] is
    enrolled from ["enrol.wav"] at threshold 0.5.  For ["probe.wav"]
    (similarity 0.3) the claim gives [(None, 0.3)], for ["enrol.wav"]
    (similarity 1.0) it gives ["alice"]; in both calls [identify] raises
    the [TypeError] of the log line of [verify]. *)
Theorem osi_identify_log_line_failure :
  enroll_all demo_network_scored (ident_init (5 / 10))
             [("alice", ["enrol.wav"])] =
    Ok (mkIdent (demo_scored_verifier (5 / 10)) [("alice", true)] (5 / 10)) /\
  cosine_similarity [3; 9; 3; 1] [1; 0; 0; 0] = Ok (Fin (3 / 10)) /\
  cosine_similarity [1; 0; 0; 0] [1; 0; 0; 0] = Ok (Fin 1) /\
  osi_identify demo_network_scored
    (mkIdent (demo_scored_verifier (5 / 10)) [("alice", true)] (5 / 10))
    "probe.wav" =
    Raise (TypeError
             "unsupported format string passed to numpy.ndarray.__format__") /\
  osi_identify demo_network_scored
    (mkIdent (demo_scored_verifier (5 / 10)) [("alice", true)] (5 / 10))
    "enrol.wav" =
    Raise (TypeError
             "unsupported format string passed to numpy.ndarray.__format__").
Proof.
  destruct demo_scored_similarity as (H3 & H1).
  split.
  { unfold enroll_all, enroll_speaker, sv_enroll. cbn [ident_init verifier_of].
    rewrite demo_scored_enroll. reflexivity. }
  split; [exact H3 |]. split; [exact H1 |].
  split; rewrite osi_identify_eq by discriminate; unfold sv_verify;
    cbn [verifier_of];
    (erewrite demo_scored_verify; [reflexivity | reflexivity | eassumption]).
Qed.

End DecisionClaims.

(* ================================================================= *)
(** ** Identification rests on one stored profile *)

Section SingleProfile.

Open Scope R_scope.
Open Scope string_scope.

Import Backend Tasks.

Lemma score_of_csi (E : string -> option (list R)) (self : ident)
      (probe : string) :
  enrolled_speakers self <> [] ->
  score_of (csi_identify E self probe) =
    (r <- sv_verify E (verifier_of self) probe ;;
     match first_enrolled (enrolled_speakers self) with
     | Some _ => if gt (snd r) (Fin (-1)) then Ok (snd r) else Ok (Fin 0)
     | None => Ok (Fin 0)
     end).
Proof.
  intros Hr. destruct (enrolled_speakers self) as [|first rest] eqn:Hroster;
    [contradiction |].
  rewrite (csi_identify_eq E self probe Hroster). rewrite Hroster.
  destruct (sv_verify E (verifier_of self) probe) as [[b sim] | e];
    [| reflexivity].
  cbn [bind fst snd].
  destruct (first_enrolled (first :: rest)); [| reflexivity].
  destruct (gt sim (Fin (-1))); reflexivity.
Qed.

(** The outcome of the open-set [identify] depends on the roster only
    through its being empty or not. *)
Lemma osi_identify_roster (E : string -> option (list R)) (v : verifier)
      (r1 r2 : dict bool) (thr : R) (probe : string) :
  r1 <> [] -> r2 <> [] ->
  osi_identify E (mkIdent v r1 thr) probe =
    osi_identify E (mkIdent v r2 thr) probe.
Proof.
  intros H1 H2. rewrite !osi_identify_eq by assumption.
  cbn [verifier_of ident_threshold enrolled_speakers].
  destruct (sv_verify E v probe) as [[b sim] | e] eqn:Hv; [| reflexivity].
  apply verify_returns in Hv. destruct Hv as (-> & -> & _). reflexivity.
Qed.

Lemma score_of_csi_roster (E : string -> option (list R)) (v : verifier)
      (r1 r2 : dict bool) (thr : R) (probe : string) :
  r1 <> [] -> r2 <> [] ->
  score_of (csi_identify E (mkIdent v r1 thr) probe) =
    score_of (csi_identify E (mkIdent v r2 thr) probe).
Proof.
  intros H1 H2. rewrite !score_of_csi by assumption.
  cbn [verifier_of enrolled_speakers].
  destruct (sv_verify E v probe) as [[b sim] | e] eqn:Hv; [| reflexivity].
  apply verify_returns in Hv. destruct Hv as (-> & -> & _).
  cbn [bind snd].
  assert (Hg : gt (Fin 0) (Fin (-1)) = true) by (simpl; apply Rgtb_true; lra).
  rewrite Hg.
  destruct (first_enrolled r1), (first_enrolled r2); reflexivity.
Qed.

Lemma osi_identify_decide (E : string -> option (list R)) (self : ident)
      (probe : string) :
  enrolled_speakers self <> [] ->
  osi_identify E self probe =
    (r <- sv_verify E (verifier_of self) probe ;; osi_decide self r).
Proof.
  intros Hr. unfold osi_identify.
  destruct (enrolled_speakers self) as [|first rest] eqn:Hroster;
    [contradiction |].
  destruct (sv_verify E (verifier_of self) probe) as [[b sim] | e];
    [| reflexivity].
  cbn [bind]. unfold osi_decide. now rewrite Hroster.
Qed.

Lemma osi_decide_accepts (self : ident) (similarity : pyfloat) :
  gt similarity (Fin (ident_threshold self)) = true ->
  osi_decide self (true, similarity) =
    Ok (first_enrolled (enrolled_speakers self), similarity).
Proof.
  intros Hg. unfold osi_decide, first_enrolled. rewrite Hg. cbn [andb].
  destruct (find _ (enrolled_speakers self)) as [[id st]|]; reflexivity.
Qed.

(** C3, as the code has it.  After any two sequences of [enroll_speaker]
    calls whose last call with a usable sample is the same call [c], the
    verifier holds the profile of [c] (a call without a usable sample leaves
    the stored profile alone), so for every probe the one [verify] call has
    the same outcome in both states, [OpenSetIdentification.identify] has
    the same outcome, and [ClosedSetIdentification.identify] the same score,
    whatever else the rosters hold.  What the open-set [identify] does with
    an accepting result of [verify] is to return the first roster entry, in
    insertion order, with status [True], whatever the probe. *)
Theorem identify_single_profile (E : string -> option (list R)) (thr : R)
        (h1 h2 : list (string * list string)) (s1 s2 : ident)
        (c : string * list string) (probe : string) :
  enroll_all E (ident_init thr) h1 = Ok s1 ->
  enroll_all E (ident_init thr) h2 = Ok s2 ->
  last_success E h1 = Some c ->
  last_success E h2 = Some c ->
  verifier_of s1 = mkVerifier thr (profile_of E (snd c)) /\
  verifier_of s2 = verifier_of s1 /\
  sv_verify E (verifier_of s1) probe = sv_verify E (verifier_of s2) probe /\
  osi_identify E s1 probe = osi_identify E s2 probe /\
  score_of (csi_identify E s1 probe) = score_of (csi_identify E s2 probe) /\
  osi_identify E s1 probe =
    (r <- sv_verify E (verifier_of s1) probe ;; osi_decide s1 r) /\
  (forall similarity,
      gt similarity (Fin thr) = true ->
      osi_decide s1 (true, similarity) =
        Ok (first_enrolled (enrolled_speakers s1), similarity)).
Proof.
  intros H1 H2 L1 L2.
  pose proof (@enroll_all_verifier E h1 _ _ H1) as (T1 & _ & V1).
  pose proof (@enroll_all_verifier E h2 _ _ H2) as (T2 & _ & V2).
  rewrite L1 in V1. rewrite L2 in V2. simpl in V1, V2, T1, T2.
  assert (R1 : enrolled_speakers s1 <> []).
  { apply (@enroll_all_roster_nonempty E h1 _ _ H1). left.
    eapply last_success_nonempty; eauto. }
  assert (R2 : enrolled_speakers s2 <> []).
  { apply (@enroll_all_roster_nonempty E h2 _ _ H2). left.
    eapply last_success_nonempty; eauto. }
  assert (Ho : osi_identify E s1 probe = osi_identify E s2 probe).
  { destruct s1 as [v1 r1 t1], s2 as [v2 r2 t2]. simpl in *. subst.
    now apply osi_identify_roster. }
  assert (Hc : score_of (csi_identify E s1 probe) =
               score_of (csi_identify E s2 probe)).
  { destruct s1 as [v1 r1 t1], s2 as [v2 r2 t2]. simpl in *. subst.
    now apply score_of_csi_roster. }
  split; [exact V1 |]. split; [congruence |].
  split; [now rewrite V1, V2 |].
  split; [exact Ho |]. split; [exact Hc |].
  split; [now apply osi_identify_decide |].
  intros similarity Hg. apply osi_decide_accepts. now rewrite T1.
Qed.

Lemma identify_single_profile_witness :
  enroll_all demo_network (ident_init (1 / 2)) [("alice", ["good.wav"])] =
    Ok (demo_enrolled [("alice", true)]) /\
  enroll_all demo_network (ident_init (1 / 2))
             [("bob", ["bad.wav"]); ("alice", ["good.wav"]);
              ("alice", ["bad.wav"])] =
    Ok (demo_enrolled [("bob", false); ("alice", false)]) /\
  last_success demo_network [("alice", ["good.wav"])] =
    Some ("alice", ["good.wav"]) /\
  last_success demo_network
               [("bob", ["bad.wav"]); ("alice", ["good.wav"]);
                ("alice", ["bad.wav"])] =
    Some ("alice", ["good.wav"]) /\
  csi_identify demo_network (demo_enrolled [("alice", true)]) "bad.wav" =
    Ok ("alice", Fin 0) /\
  csi_identify demo_network
    (demo_enrolled [("bob", false); ("alice", false)]) "bad.wav" =
    Ok ("bob", Fin 0) /\
  osi_identify demo_network (demo_enrolled [("alice", true)]) "bad.wav" =
    Ok (None, Fin 0) /\
  osi_identify demo_network (demo_enrolled [("alice", true)]) "bad.wav" =
    osi_identify demo_network
      (demo_enrolled [("bob", false); ("alice", false)]) "bad.wav" /\
  score_of (csi_identify demo_network (demo_enrolled [("alice", true)])
                         "bad.wav") =
    score_of (csi_identify demo_network
                (demo_enrolled [("bob", false); ("alice", false)]) "bad.wav").
Proof.
  assert (H1 : enroll_all demo_network (ident_init (1 / 2))
                 [("alice", ["good.wav"])] =
               Ok (demo_enrolled [("alice", true)])) by reflexivity.
  assert (H2 : enroll_all demo_network (ident_init (1 / 2))
                 [("bob", ["bad.wav"]); ("alice", ["good.wav"]);
                  ("alice", ["bad.wav"])] =
               Ok (demo_enrolled [("bob", false); ("alice", false)]))
    by reflexivity.
  assert (L1 : last_success demo_network [("alice", ["good.wav"])] =
               Some ("alice", ["good.wav"])) by reflexivity.
  assert (L2 : last_success demo_network
                 [("bob", ["bad.wav"]); ("alice", ["good.wav"]);
                  ("alice", ["bad.wav"])] =
               Some ("alice", ["good.wav"])) by reflexivity.
  split; [exact H1 |]. split; [exact H2 |].
  split; [exact L1 |]. split; [exact L2 |].
  split.
  { unfold csi_identify, sv_verify. cbn. 
    assert (Hg : Rgtb 0 (-1) = true) by (apply Rgtb_true; lra).
    rewrite Hg. reflexivity. }
  split; [reflexivity |]. split; [reflexivity |].
  destruct (@identify_single_profile demo_network (1 / 2) _ _ _ _ _
              "bad.wav" H1 H2 L1 L2) as (_ & _ & _ & Ho & Hc & _).
  split; [exact Ho | exact Hc].
Defined.


(** C3, as stated, fails: an [enroll_speaker] call without a usable sample
    does not overwrite the stored embedding. *)
Lemma enroll_speaker_keeps_profile :
  exists s1 s2,
    enroll_all demo_network (ident_init (1 / 2)) [("alice", ["good.wav"])]
      = Ok s1 /\
    embed_all demo_network ["bad.wav"] = [] /\
    enroll_speaker demo_network s1 "bob" ["bad.wav"] = Ok (false, s2) /\
    enrollment_embedding (verifier_of s1) = Some demo_profile /\
    enrollment_embedding (verifier_of s2) = Some demo_profile.
Proof.
  exists (demo_enrolled [("alice", true)]),
         (demo_enrolled [("alice", true); ("bob", false)]).
  split; [apply demo_history_enrolled |]. split; [reflexivity |].
  split; [now rewrite enroll_speaker_unusable |].
  split; reflexivity.
Qed.

End SingleProfile.

(* ================================================================= *)
(** ** Sample counts in double precision *)

Section SampleCounts.

Import Signal SpecFloat.

Open Scope Z_scope.

Lemma digits2_pos_bounds (p : positive) :
  2 ^ (Zpos (digits2_pos p) - 1) <= Zpos p < 2 ^ Zpos (digits2_pos p).
Proof.
  induction p as [p IH | p IH |]; cbn [digits2_pos].
  - rewrite Pos2Z.inj_succ.
    replace (Z.succ (Zpos (digits2_pos p)) - 1)
      with (Z.succ (Zpos (digits2_pos p) - 1)) by lia.
    rewrite !Z.pow_succ_r by lia. lia.
  - rewrite Pos2Z.inj_succ.
    replace (Z.succ (Zpos (digits2_pos p)) - 1)
      with (Z.succ (Zpos (digits2_pos p) - 1)) by lia.
    rewrite !Z.pow_succ_r by lia. lia.
  - simpl. lia.
Qed.

Lemma digits2_pos_le (p : positive) (k : Z) :
  0 <= k -> Zpos p < 2 ^ k -> Zpos (digits2_pos p) <= k.
Proof.
  intros Hk Hp. destruct (digits2_pos_bounds p) as [Hlo _].
  destruct (Z_le_gt_dec (Zpos (digits2_pos p)) k) as [H | H]; [exact H |].
  exfalso.
  assert (2 ^ k <= 2 ^ (Zpos (digits2_pos p) - 1))
    by (apply Z.pow_le_mono_r; lia).
  lia.
Qed.

Lemma iter_xO_digits (k p : positive) :
  digits2_pos (Pos.iter xO p k) = (digits2_pos p + k)%positive.
Proof.
  induction k as [|k IH] using Pos.peano_ind.
  - simpl. now rewrite Pos.add_1_r.
  - rewrite Pos.iter_succ. cbn [digits2_pos]. rewrite IH. lia.
Qed.

Lemma iter_xO_value (k p : positive) :
  Zpos (Pos.iter xO p k) = Zpos p * 2 ^ Zpos k.
Proof.
  induction k as [|k IH] using Pos.peano_ind.
  - simpl. lia.
  - rewrite Pos.iter_succ, Pos2Z.inj_xO, IH, Pos2Z.inj_succ, Z.pow_succ_r by lia.
    lia.
Qed.

(** A mantissa of 53 digits with an exponent in range is its own rounding. *)
Lemma binary_round_aux_canonical (s : bool) (m : positive) (e : Z) :
  Zpos (digits2_pos m) = 53 -> -1074 <= e <= 971 ->
  binary_round_aux 53 1024 s (Zpos m) e loc_Exact = S754_finite s m e.
Proof.
  intros Hd He. unfold binary_round_aux, shr_fexp.
  cbn [Zdigits2 shr_record_of_loc]. rewrite Hd.
  assert (E : fexp 53 1024 (53 + e) - e = 0) by (unfold fexp, emin; lia).
  rewrite E.
  cbn [shr shr_m loc_of_shr_record round_nearest_even Zdigits2
       shr_record_of_loc].
  rewrite Hd, E. cbn [shr shr_m].
  assert (L : (e <=? 1024 - 53) = true) by (apply Z.leb_le; lia).
  now rewrite L.
Qed.

Lemma mantissa53_digits (p : positive) :
  Zpos p < 2 ^ 53 -> Zpos (digits2_pos (mantissa53 p)) = 53.
Proof.
  intros Hp. pose proof (@digits2_pos_le p 53 ltac:(lia) Hp) as Hd.
  unfold mantissa53.
  destruct (53 - Zpos (digits2_pos p)) as [|k|k] eqn:E; try lia.
  rewrite iter_xO_digits. lia.
Qed.

Lemma mantissa53_value (p : positive) :
  Zpos p < 2 ^ 53 ->
  Zpos (mantissa53 p) = Zpos p * 2 ^ (53 - Zpos (digits2_pos p)).
Proof.
  intros Hp. pose proof (@digits2_pos_le p 53 ltac:(lia) Hp) as Hd.
  unfold mantissa53.
  destruct (53 - Zpos (digits2_pos p)) as [|k|k] eqn:E; try lia.
  apply iter_xO_value.
Qed.

Lemma float_of_int_pos (p : positive) :
  Zpos p < 2 ^ 53 ->
  float_of_int (Zpos p) =
    Ok (S754_finite false (mantissa53 p) (Zpos (digits2_pos p) - 53)).
Proof.
  intros Hp. pose proof (@digits2_pos_le p 53 ltac:(lia) Hp) as Hd.
  pose proof (@mantissa53_digits p Hp) as Hm.
  unfold float_of_int, binary_normalize, binary_round, shl_align.
  assert (E : fexp 53 1024 (Zpos (digits2_pos p) + 0) - 0
              = - (53 - Zpos (digits2_pos p))) by (unfold fexp, emin; lia).
  assert (E' : fexp 53 1024 (Zpos (digits2_pos p) + 0)
              = Zpos (digits2_pos p) - 53) by (unfold fexp, emin; lia).
  rewrite E. unfold mantissa53 in *.
  destruct (53 - Zpos (digits2_pos p)) as [|k|k] eqn:Hk; try lia; cbn [Z.opp].
  - rewrite binary_round_aux_canonical by (try exact Hm; lia).
    do 2 f_equal. lia.
  - rewrite E'. rewrite binary_round_aux_canonical by (try exact Hm; lia).
    reflexivity.
Qed.

Lemma mul_pow52 (m : positive) :
  (m * 4503599627370496)%positive = Pos.iter xO m 52.
Proof. rewrite Pos.mul_comm. reflexivity. Qed.

(** The product of a 53-digit mantissa and [2^52] rounds to the mantissa:
    the 52 zeros are shifted out again. *)
Lemma binary_round_aux_shift52 (s : bool) (m : positive) (e : Z) :
  Zpos (digits2_pos m) = 53 -> -1074 <= e + 52 <= 971 ->
  binary_round_aux 53 1024 s (Zpos (m * 4503599627370496)) e loc_Exact =
    S754_finite s m (e + 52).
Proof.
  intros Hd He. rewrite mul_pow52.
  unfold binary_round_aux, shr_fexp. cbn [Zdigits2].
  rewrite iter_xO_digits, Pos2Z.inj_add, Hd.
  assert (E : fexp 53 1024 (53 + 52 + e) - e = 52)
    by (unfold fexp, emin; lia).
  rewrite E.
  cbn [Pos.iter shr_record_of_loc shr iter_pos shr_1 orb shr_m
       loc_of_shr_record round_nearest_even Zdigits2].
  rewrite Hd.
  assert (E2 : fexp 53 1024 (53 + (e + 52)) - (e + 52) = 0)
    by (unfold fexp, emin; lia).
  rewrite E2. cbn [shr shr_m].
  assert (L : (e + 52 <=? 1024 - 53) = true) by (apply Z.leb_le; lia).
  now rewrite L.
Qed.

Lemma ceil_div_mul_cancel (a b c : Z) :
  0 < c -> b <> 0 -> ceil_div (a * c) (b * c) = ceil_div a b.
Proof.
  intros Hc Hb. unfold ceil_div. f_equal.
  rewrite <- Z.mul_opp_l. apply Z.div_mul_cancel_r; lia.
Qed.

Lemma half_double_constants :
  float_of_int 8000 = Ok (S754_finite false 8796093022208000 (-40)) /\
  float_of_int 16000 = Ok (S754_finite false 8796093022208000 (-39)) /\
  SFdiv 53 1024 (S754_finite false 8796093022208000 (-40))
                (S754_finite false 8796093022208000 (-39)) =
    S754_finite false 4503599627370496 (-53) /\
  SFdiv 53 1024 (S754_finite false 8796093022208000 (-39))
                (S754_finite false 8796093022208000 (-40)) =
    S754_finite false 4503599627370496 (-51).
Proof. repeat split; vm_compute; reflexivity. Qed.

(** Halving the rate: [int(np.ceil(n * 0.5))]. *)
Lemma n_samples_half (n : nat) :
  Z.of_nat n < 2 ^ 53 ->
  n_samples n 16000 8000 = Ok (ceil_div (Z.of_nat n) 2).
Proof.
  intros Hn. destruct half_double_constants as (H8 & H16 & Hhalf & _).
  unfold n_samples. rewrite H8, H16. cbn [bind]. rewrite Hhalf.
  change (16000 =? 0) with false. cbv iota.
  destruct (Z.of_nat n) as [|p|p] eqn:E; [reflexivity | | lia].
  rewrite float_of_int_pos by exact Hn. cbn [bind SFmul xorb].
  pose proof (@digits2_pos_le p 53 ltac:(lia) Hn) as Hd.
  pose proof (digits2_pos_bounds p) as Hb.
  rewrite binary_round_aux_shift52
    by (try (apply mantissa53_digits; exact Hn); lia).
  cbn [int_ceil].
  assert (L : (0 <=? Zpos (digits2_pos p) - 53 + -53 + 52) = false)
    by (apply Z.leb_gt; lia).
  rewrite L. f_equal. rewrite mantissa53_value by exact Hn.
  replace (- (Zpos (digits2_pos p) - 53 + -53 + 52))
    with (1 + (53 - Zpos (digits2_pos p))) by lia.
  rewrite Z.pow_add_r by lia. change (2 ^ 1) with 2.
  apply ceil_div_mul_cancel; [apply Z.pow_pos_nonneg; lia | lia].
Qed.

(** Doubling the rate: [int(np.ceil(n * 2.0))]. *)
Lemma n_samples_double (n : nat) :
  Z.of_nat n < 2 ^ 53 ->
  n_samples n 8000 16000 = Ok (2 * Z.of_nat n).
Proof.
  intros Hn. destruct half_double_constants as (H8 & H16 & _ & Hdouble).
  unfold n_samples. rewrite H8, H16. cbn [bind]. rewrite Hdouble.
  change (8000 =? 0) with false. cbv iota.
  destruct (Z.of_nat n) as [|p|p] eqn:E; [reflexivity | | lia].
  rewrite float_of_int_pos by exact Hn. cbn [bind SFmul xorb].
  pose proof (@digits2_pos_le p 53 ltac:(lia) Hn) as Hd.
  pose proof (digits2_pos_bounds p) as Hb.
  rewrite binary_round_aux_shift52
    by (try (apply mantissa53_digits; exact Hn); lia).
  cbn [int_ceil]. f_equal. rewrite mantissa53_value by exact Hn.
  destruct (0 <=? Zpos (digits2_pos p) - 53 + -51 + 52) eqn:L.
  - apply Z.leb_le in L. rewrite <- Z.mul_assoc, <- Z.pow_add_r by lia.
    replace (53 - Zpos (digits2_pos p) + (Zpos (digits2_pos p) - 53 + -51 + 52))
      with 1 by lia.
    change (2 ^ 1) with 2. lia.
  - apply Z.leb_gt in L.
    replace (53 - Zpos (digits2_pos p))
      with (1 + - (Zpos (digits2_pos p) - 53 + -51 + 52)) by lia.
    rewrite Z.pow_add_r by lia. change (2 ^ 1) with 2.
    rewrite Z.mul_assoc.
    rewrite <- (Z.mul_1_l (2 ^ (- (Zpos (digits2_pos p) - 53 + -51 + 52)))) at 2.
    rewrite ceil_div_mul_cancel by (try (apply Z.pow_pos_nonneg; lia); lia).
    unfold ceil_div. rewrite Z.div_1_r. lia.
Qed.

End SampleCounts.

(* ================================================================= *)
(** ** Channel simulators: lengths *)

Section SignalFacts.

Open Scope R_scope.

Import Signal.

Lemma set_nth_length (l : list R) (i : nat) (v : R) :
  length (set_nth l i v) = length l.
Proof.
  revert i. induction l as [|x l IH]; intros [|i]; simpl; auto.
Qed.

Lemma np_setitem_length (arr arr' : list R) (i : Z) (v : R) :
  np_setitem arr i v = Ok arr' -> length arr' = length arr.
Proof.
  unfold np_setitem.
  destruct ((i <? - Z.of_nat (length arr)) || (Z.of_nat (length arr) <=? i))%Z;
    [discriminate |].
  intros H. injection H as <-. apply set_nth_length.
Qed.

Lemma np_setitem_in_range (arr : list R) (i : Z) (v : R) :
  (0 <= i < Z.of_nat (length arr))%Z -> exists arr', np_setitem arr i v = Ok arr'.
Proof.
  intros H. unfold np_setitem.
  assert (E : ((i <? - Z.of_nat (length arr))
               || (Z.of_nat (length arr) <=? i))%Z = false).
  { apply orb_false_iff. split; [apply Z.ltb_ge | apply Z.leb_gt]; lia. }
  rewrite E. eauto.
Qed.

Lemma add_padded_length (a b : list R) :
  length (add_padded a b) = Nat.max (length a) (length b).
Proof.
  revert b. induction a as [|x a IH]; intros [|y b]; simpl; auto.
Qed.

Lemma convolve_full_length (a v : list R) :
  a <> [] -> v <> [] ->
  length (convolve_full a v) = (length a + length v - 1)%nat.
Proof.
  intros Ha Hv. induction a as [|x a IH]; [contradiction |].
  simpl. rewrite add_padded_length, length_map. simpl.
  destruct a as [|x' a].
  - simpl. destruct v; [contradiction | simpl; lia].
  - rewrite IH by discriminate. simpl. lia.
Qed.

Lemma np_convolve_nonempty (a v : list R) :
  a <> [] -> v <> [] -> np_convolve a v = Ok (convolve_full a v).
Proof.
  intros Ha Hv. unfold np_convolve.
  destruct a as [|x a]; [contradiction |].
  destruct v as [|y v]; [contradiction |].
  destruct (length (x :: a) <? length (y :: v))%nat; reflexivity.
Qed.

Lemma np_convolve_empty (a v : list R) :
  a = [] \/ v = [] -> exists msg, np_convolve a v = Raise (ValueError msg).
Proof.
  unfold np_convolve.
  destruct a as [|x a], v as [|y v]; simpl; intros [H | H];
    try discriminate; eauto.
Qed.

Lemma np_convolve_length (a v full : list R) :
  np_convolve a v = Ok full ->
  length full = (length a + length v - 1)%nat /\ a <> [] /\ v <> [].
Proof.
  destruct a as [|x a].
  { destruct (@np_convolve_empty [] v (or_introl eq_refl)) as (msg & ->).
    discriminate. }
  destruct v as [|y v].
  { destruct (@np_convolve_empty (x :: a) [] (or_intror eq_refl)) as (msg & ->).
    discriminate. }
  rewrite np_convolve_nonempty by discriminate.
  intros H.
  replace full with (convolve_full (x :: a) (y :: v)) by congruence.
  split; [apply convolve_full_length; discriminate |].
  split; discriminate.
Qed.

Lemma sosfilt_nonempty (sos : list sos_section) (x : list R) :
  x <> [] -> sosfilt sos x = Ok (sos_cascade sos x).
Proof. destruct x; [contradiction | reflexivity]. Qed.

Lemma sosfilt_returns (sos : list sos_section) (x out : list R) :
  sosfilt sos x = Ok out -> out = sos_cascade sos x /\ x <> [].
Proof.
  destruct x; [discriminate |]. intros H. injection H as <-.
  split; [reflexivity | discriminate].
Qed.

(** The signal [simulate] hands to the filter is not empty. *)
Lemma noisy_nonempty (audio ir : list R) (f : nat -> R) :
  audio <> [] -> ir <> [] ->
  zip_with Rplus (firstn (length audio) (convolve_full audio ir))
           (map f (seq 0 (length audio))) <> [].
Proof.
  intros Ha Hi. destruct audio as [|x audio]; [contradiction |].
  destruct ir as [|y ir]; [contradiction |]. simpl. discriminate.
Qed.

Lemma biquad_length (c : sos_section) (z0 z1 : R) (x : list R) :
  length (biquad c z0 z1 x) = length x.
Proof.
  revert z0 z1. induction x as [|s x IH]; intros z0 z1; simpl; auto.
Qed.

Lemma sos_cascade_length (sos : list sos_section) (x : list R) :
  length (sos_cascade sos x) = length x.
Proof.
  unfold sos_cascade. revert x.
  induction sos as [|c sos IH]; intros x; simpl; [reflexivity |].
  now rewrite IH, biquad_length.
Qed.

Lemma fix_length_length (y : list R) (n : nat) : length (fix_length y n) = n.
Proof.
  unfold fix_length. rewrite length_app, length_firstn, repeat_length. lia.
Qed.

Lemma librosa_resample_length (kernel : list R -> Z -> Z -> list R)
      (y y' : list R) (orig_sr target_sr : Z) :
  librosa_resample kernel y orig_sr target_sr = Ok y' ->
  resampled_length (length y) orig_sr target_sr = Ok (length y').
Proof.
  unfold librosa_resample, resampled_length.
  destruct (orig_sr =? target_sr)%Z.
  - intros H. now injection H as <-.
  - destruct (n_samples (length y) orig_sr target_sr) as [k | e];
      cbn [bind]; [| discriminate].
    destruct ((orig_sr <=? 0) || (target_sr <=? 0))%Z; [discriminate |].
    intros H. injection H as <-. now rewrite fix_length_length.
Qed.

Lemma py_int_in_range (x : R) (n : Z) :
  0 <= x -> x < IZR n -> (0 <= py_int x < n)%Z.
Proof.
  intros H0 Hn. unfold py_int.
  destruct (Rlt_dec x 0) as [Hneg | _]; [lra |].
  destruct (base_Int_part x) as [Hle Hgt].
  split.
  - assert (H : (-1 < Int_part x)%Z) by (apply lt_IZR; simpl; lra). lia.
  - apply lt_IZR. lra.
Qed.

Lemma critical_ok_iff (Wn : list R) (fs : Z) :
  critical_ok Wn fs = true <-> Forall (fun w => 0 < w < IZR fs / 2) Wn.
Proof.
  unfold critical_ok. rewrite forallb_forall, Forall_forall.
  split; intros H w Hw; specialize (H w Hw).
  - apply andb_true_iff in H. rewrite !Rgtb_true in H. exact H.
  - apply andb_true_iff. rewrite !Rgtb_true. exact H.
Qed.

End SignalFacts.

Section AirFacts.

Open Scope R_scope.

Import Signal Air.

Variable butter_design : Z -> list R -> btype -> Z -> list sos_section.
Variable standard_normal : nat -> R.

Lemma add_reflections_length (delays : list (R * R)) (room_ir room_ir' : list R)
      (sr : Z) :
  add_reflections room_ir delays sr = Ok room_ir' ->
  length room_ir' = length room_ir.
Proof.
  revert room_ir. induction delays as [|[d a] delays IH]; intros room_ir; simpl.
  - intros H. now injection H as <-.
  - destruct (np_setitem room_ir (py_int (d * IZR sr)) a) as [r1 | e] eqn:H1;
      simpl; [| discriminate].
    intros H. apply IH in H. apply np_setitem_length in H1. congruence.
Qed.

Lemma add_reflections_returns (delays : list (R * R)) (room_ir : list R)
      (sr : Z) :
  length room_ir = Z.to_nat sr -> (0 < sr)%Z ->
  Forall (fun p => 0 <= fst p < 1) delays ->
  exists room_ir', add_reflections room_ir delays sr = Ok room_ir'.
Proof.
  intros Hlen Hsr Hd. revert room_ir Hlen.
  induction Hd as [|[d a] delays Hp _ IH]; intros room_ir Hlen; simpl.
  - eauto.
  - simpl in Hp.
    assert (Hpos : 0 < IZR sr) by (apply IZR_lt; lia).
    destruct (@np_setitem_in_range room_ir (py_int (d * IZR sr)) a)
      as (r1 & H1).
    { rewrite Hlen, Z2Nat.id by lia. apply py_int_in_range; nra. }
    rewrite H1. simpl. apply IH.
    apply np_setitem_length in H1. congruence.
Qed.

Lemma np_random_normal_length (loc scale : R) (size : nat) (noise : list R) :
  np_random_normal standard_normal loc scale size = Ok noise ->
  length noise = size.
Proof.
  unfold np_random_normal. destruct (Rlt_dec scale 0); [discriminate |].
  intros H. injection H as <-. now rewrite length_map, length_seq.
Qed.

Lemma simulate_length (self : AirEnvironmentSimulator) (audio out : list R)
      (sr : Z) :
  simulate butter_design standard_normal self audio sr = Ok out ->
  length out = length audio.
Proof.
  unfold simulate.
  destruct (np_zeros sr) as [ir0 | e]; simpl; [| discriminate].
  destruct (np_setitem ir0 0 1) as [ir1 | e]; simpl; [| discriminate].
  destruct (add_reflections ir1 (reverb_delays self) sr) as [ir | e] eqn:Hir;
    simpl; [| discriminate].
  destruct (np_convolve audio ir) as [full | e] eqn:Hc; simpl; [| discriminate].
  destruct (np_random_normal standard_normal 0 (noise_level self) (length audio))
    as [noise | e] eqn:Hn; simpl; [| discriminate].
  destruct (butter butter_design (filter_order self) [lowpass_freq self] low sr)
    as [sos | e]; simpl; [| discriminate].
  destruct (sosfilt sos (zip_with Rplus (firstn (length audio) full) noise))
    as [degraded | e] eqn:Hs; simpl; [| discriminate].
  intros H. injection H as <-.
  apply sosfilt_returns in Hs. destruct Hs as (-> & _).
  rewrite sos_cascade_length.
  apply np_random_normal_length in Hn.
  apply np_convolve_length in Hc. destruct Hc as (Hfull & Haudio & Hne).
  assert (Hrev : length (firstn (length audio) full) = length audio).
  { rewrite length_firstn. destruct ir; [contradiction | simpl in *; lia]. }
  rewrite zip_with_length; congruence.
Qed.

Lemma simulate_returns (self : AirEnvironmentSimulator) (audio : list R)
      (sr : Z) :
  audio <> [] -> (0 < sr)%Z ->
  Forall (fun p => 0 <= fst p < 1) (reverb_delays self) ->
  0 <= noise_level self ->
  0 < lowpass_freq self < IZR sr / 2 ->
  exists out, simulate butter_design standard_normal self audio sr = Ok out.
Proof.
  intros Ha Hsr Hd Hn Hf. unfold simulate, np_zeros.
  assert (E : (sr <? 0)%Z = false) by (apply Z.ltb_ge; lia).
  rewrite E. simpl.
  destruct (@np_setitem_in_range (repeat 0 (Z.to_nat sr)) 0%Z 1) as (ir1 & H1).
  { rewrite repeat_length. lia. }
  rewrite H1. simpl.
  destruct (@add_reflections_returns (reverb_delays self) ir1 sr)
    as (ir & Hir); auto.
  { apply np_setitem_length in H1. now rewrite H1, repeat_length. }
  rewrite Hir. simpl.
  assert (Hne : ir <> []).
  { apply add_reflections_length in Hir. apply np_setitem_length in H1.
    rewrite repeat_length in H1. intros ->. simpl in Hir. lia. }
  rewrite np_convolve_nonempty by assumption. cbn [bind].
  unfold np_random_normal.
  destruct (Rlt_dec (noise_level self) 0); [lra |]. cbn [bind].
  unfold butter.
  assert (Hc : critical_ok [lowpass_freq self] sr = true).
  { apply critical_ok_iff. constructor; [exact Hf | constructor]. }
  rewrite Hc. cbn [bind].
  rewrite sosfilt_nonempty; [cbn [bind]; eauto |].
  destruct audio as [|x audio]; [contradiction |].
  destruct ir as [|y ir]; [contradiction |]. simpl. discriminate.
Qed.

End AirFacts.

Section LineFacts.

Open Scope R_scope.

Import Signal Line.

Variable butter_design : Z -> list R -> btype -> Z -> list sos_section.
Variable resample_kernel : list R -> Z -> Z -> list R.
Variable librosa_load : string -> Z -> list R.

Lemma bandpass_length (audio out : list R) (sr : Z) (freqs : R * R) (order : Z) :
  _apply_bandpass_filter butter_design audio sr freqs order = Ok out ->
  length out = length audio.
Proof.
  unfold _apply_bandpass_filter.
  destruct (butter butter_design order [fst freqs; snd freqs] band sr)
    as [sos | e]; simpl; [| discriminate].
  intros H. apply sosfilt_returns in H. destruct H as (-> & _).
  apply sos_cascade_length.
Qed.

Lemma simulate_environment_length (self : EnvironmentSimulator)
      (audio out : list R) (c : EnvironmentConfig) (fname path : option string) :
  simulate_environment butter_design resample_kernel librosa_load self
                       (AudioData audio) (EnvConfig c) fname = Ok (out, path) ->
  line_length c (length audio) = Ok (length out).
Proof.
  unfold simulate_environment, line_length. cbn [bind].
  destruct (down_sample_rate c) as [down|].
  - destruct (down =? 0)%Z.
    + cbn [bind]. destruct (bandpass_freqs c) as [freqs|].
      * destruct (_apply_bandpass_filter butter_design audio (sample_rate c)
                    freqs (filter_order c)) as [p | e] eqn:Hb;
          cbn [bind]; [| discriminate].
        intros H. injection H as <- _. apply bandpass_length in Hb.
        now rewrite Hb.
      * cbn [bind]. intros H. now injection H as <- _.
    + destruct (librosa_resample resample_kernel audio (sample_rate c) down)
        as [dn | e] eqn:Hd; cbn [bind]; [| discriminate].
      destruct (librosa_resample resample_kernel dn down (sample_rate c))
        as [up | e] eqn:Hu; cbn [bind]; [| discriminate].
      apply librosa_resample_length in Hd, Hu. rewrite Hd. cbn [bind].
      rewrite Hu.
      destruct (bandpass_freqs c) as [freqs|].
      * destruct (_apply_bandpass_filter butter_design up (sample_rate c)
                    freqs (filter_order c)) as [p | e] eqn:Hb;
          cbn [bind]; [| discriminate].
        intros H. injection H as <- _. apply bandpass_length in Hb.
        now rewrite Hb.
      * cbn [bind]. intros H. now injection H as <- _.
  - cbn [bind]. destruct (bandpass_freqs c) as [freqs|].
    + destruct (_apply_bandpass_filter butter_design audio (sample_rate c)
                  freqs (filter_order c)) as [p | e] eqn:Hb;
        cbn [bind]; [| discriminate].
      intros H. injection H as <- _. apply bandpass_length in Hb.
      now rewrite Hb.
    + cbn [bind]. intros H. now injection H as <- _.
Qed.

Lemma simulate_environment_named (self : EnvironmentSimulator)
      (audio : audio_arg) (n : string) (c : EnvironmentConfig)
      (fname : option string) :
  dict_get (environments self) n = Some c ->
  simulate_environment butter_design resample_kernel librosa_load self
                       audio (EnvName n) fname =
  simulate_environment butter_design resample_kernel librosa_load self
                       audio (EnvConfig c) fname.
Proof. intros H. unfold simulate_environment. now rewrite H. Qed.

Lemma phone_critical_ok : critical_ok [300; 3400] 16000 = true.
Proof.
  apply critical_ok_iff. repeat constructor; simpl; lra.
Qed.

(** The two resamplings of the telephone profiles. *)
Lemma librosa_resample_half (y : list R) :
  (Z.of_nat (length y) < 2 ^ 53)%Z ->
  librosa_resample resample_kernel y 16000 8000 =
    Ok (fix_length (resample_kernel y 16000 8000)
                   (Z.to_nat (ceil_div (Z.of_nat (length y)) 2))).
Proof.
  intros H. unfold librosa_resample.
  change (16000 =? 8000)%Z with false. cbv iota.
  now rewrite n_samples_half.
Qed.

Lemma librosa_resample_double (y : list R) :
  (Z.of_nat (length y) < 2 ^ 53)%Z ->
  librosa_resample resample_kernel y 8000 16000 =
    Ok (fix_length (resample_kernel y 8000 16000)
                   (Z.to_nat (2 * Z.of_nat (length y)))).
Proof.
  intros H. unfold librosa_resample.
  change (8000 =? 16000)%Z with false. cbv iota.
  now rewrite n_samples_double.
Qed.

Lemma ceil_div_2 (n : nat) :
  Z.to_nat (2 * Z.of_nat (Z.to_nat (ceil_div (Z.of_nat n) 2))) =
    (n + n mod 2)%nat /\
  (0 <= ceil_div (Z.of_nat n) 2 <= Z.of_nat n)%Z.
Proof.
  unfold ceil_div.
  pose proof (Nat.mod_upper_bound n 2 ltac:(discriminate)) as Hm.
  pose proof (Nat.div_mod_eq n 2) as Hd.
  assert (H1 : (- (- Z.of_nat n / 2))%Z = Z.of_nat (n / 2 + n mod 2)).
  { apply Z.opp_inj. rewrite Z.opp_involutive. symmetry.
    apply (Z.div_unique_pos _ 2 _ (Z.of_nat (n mod 2))); lia. }
  rewrite H1, Nat2Z.id. split; lia.
Qed.

(** The telephone configuration returns for every non-empty signal (of
    fewer than [2^53] samples), and gives it an even length. *)
Lemma telephone_returns (self : EnvironmentSimulator) (c : EnvironmentConfig)
      (audio : list R) :
  sample_rate c = 16000%Z -> down_sample_rate c = Some 8000%Z ->
  bandpass_freqs c = Some (300, 3400) ->
  audio <> [] -> (Z.of_nat (length audio) < 2 ^ 53)%Z ->
  exists out,
    simulate_environment butter_design resample_kernel librosa_load self
      (AudioData audio) (EnvConfig c) None = Ok (out, None) /\
    length out = (length audio + length audio mod 2)%nat.
Proof.
  intros Hsr Hdown Hband Hne Hlen.
  destruct (ceil_div_2 (length audio)) as (Heven & Hhalf).
  unfold simulate_environment. cbn [bind]. rewrite Hsr, Hdown, Hband.
  change (8000 =? 0)%Z with false. cbv iota.
  rewrite librosa_resample_half by exact Hlen. cbn [bind].
  rewrite librosa_resample_double
    by (rewrite fix_length_length, Z2Nat.id; lia).
  cbn [bind]. rewrite fix_length_length.
  unfold _apply_bandpass_filter, butter. cbn [fst snd].
  rewrite phone_critical_ok. cbn [bind].
  rewrite sosfilt_nonempty.
  - cbn [bind]. eexists. split; [reflexivity |].
    now rewrite sos_cascade_length, fix_length_length.
  - intros E. apply (f_equal (@length R)) in E.
    rewrite fix_length_length, Heven in E.
    destruct audio; [contradiction | simpl in E; lia].
Qed.

(** It returns nothing for the empty signal: the band-pass filter refuses
    it. *)
Lemma telephone_empty (self : EnvironmentSimulator) (c : EnvironmentConfig)
      (fname : option string) :
  sample_rate c = 16000%Z -> down_sample_rate c = Some 8000%Z ->
  bandpass_freqs c = Some (300, 3400) ->
  exists e,
    simulate_environment butter_design resample_kernel librosa_load self
      (AudioData []) (EnvConfig c) fname = Raise e.
Proof.
  intros Hsr Hdown Hband.
  unfold simulate_environment. cbn [bind]. rewrite Hsr, Hdown, Hband.
  change (8000 =? 0)%Z with false. cbv iota.
  rewrite librosa_resample_half by (simpl; lia). cbn [bind].
  rewrite librosa_resample_double
    by (rewrite fix_length_length; simpl; lia).
  cbn [bind]. rewrite fix_length_length.
  unfold _apply_bandpass_filter, butter. cbn [fst snd].
  rewrite phone_critical_ok. cbn [bind length].
  change (ceil_div (Z.of_nat 0) 2) with 0%Z.
  cbn [Z.to_nat Z.of_nat Z.mul fix_length firstn Nat.sub repeat app
       sosfilt bind].
  eauto.
Qed.

End LineFacts.

(** The model agrees with what the libraries compute where exact arithmetic
    would not: 147 samples at 22050 Hz taken through 12000 Hz come back as
    149, because [147 * (12000 / 22050)] is just above 80 in double
    precision. *)
Lemma line_length_rounding :
  Signal.n_samples 147 22050 12000 = Ok 81%Z /\
  line_length (Line.mkConfig "narrow" 22050 (Some 12000%Z) None 10) 147 =
    Ok 149%nat.
Proof. split; vm_compute; reflexivity. Qed.

Section ChannelClaims.

Open Scope R_scope.

Import Signal.

(** C6, as the code has it.  Whenever the open-air simulator returns, its
    output is as long as its input, and with the default parameters it
    returns for every non-empty input at a sample rate above 8000 Hz.
    Whenever the transmission-line simulator returns, its output has the
    length that the two [librosa.resample] calls give, [line_length] (their
    sample counts are computed in double precision).  For the ["phone"] and
    ["voip"] profiles (16000 Hz, through 8000 Hz) it returns for every
    non-empty input of fewer than [2^53] samples, and the output length is
    the input length rounded up to an even number; for the empty input it
    does not return. *)
Theorem channel_output_length
        (butter_design : Z -> list R -> btype -> Z -> list sos_section)
        (standard_normal : nat -> R)
        (resample_kernel : list R -> Z -> Z -> list R)
        (librosa_load : string -> Z -> list R)
        (audio : list R) :
  (forall air sr out,
      Air.simulate butter_design standard_normal air audio sr = Ok out ->
      length out = length audio) /\
  (forall sr, audio <> [] -> (8000 < sr)%Z ->
      exists out,
        Air.simulate butter_design standard_normal Air.default audio sr = Ok out /\
        length out = length audio) /\
  (forall sim c fname out path,
      Line.simulate_environment butter_design resample_kernel librosa_load sim
        (Line.AudioData audio) (Line.EnvConfig c) fname = Ok (out, path) ->
      line_length c (length audio) = Ok (length out)) /\
  (forall dir profile,
      profile = "phone"%string \/ profile = "voip"%string ->
      (audio <> [] -> (Z.of_nat (length audio) < 2 ^ 53)%Z ->
       exists out,
         Line.simulate_environment butter_design resample_kernel librosa_load
           (Line.init dir) (Line.AudioData audio) (Line.EnvName profile) None
           = Ok (out, None) /\
         length out = (length audio + length audio mod 2)%nat) /\
      (audio = [] ->
       forall fname, exists e,
         Line.simulate_environment butter_design resample_kernel librosa_load
           (Line.init dir) (Line.AudioData audio) (Line.EnvName profile) fname
           = Raise e)).
Proof.
  split; [| split; [| split]].
  - intros air sr out. apply simulate_length.
  - intros sr Ha Hsr.
    destruct (@simulate_returns butter_design standard_normal Air.default
                audio sr) as (out & Hout); auto; try lia.
    + unfold Air.default, Air.init, Air.default_reverb_delays. simpl.
      repeat constructor; simpl; lra.
    + simpl. lra.
    + simpl. assert (H : 8000 < IZR sr) by (apply IZR_lt; exact Hsr). lra.
    + exists out. split; [exact Hout |]. eapply simulate_length; eauto.
  - intros sim c fname out path. apply simulate_environment_length.
  - intros dir profile Hp.
    assert (Hc : exists c,
               dict_get (Line.environments (Line.init dir)) profile = Some c /\
               Line.sample_rate c = 16000%Z /\
               Line.down_sample_rate c = Some 8000%Z /\
               Line.bandpass_freqs c = Some (300, 3400)).
    { destruct Hp as [-> | ->]; eexists; repeat split. }
    destruct Hc as (c & Hget & Hsr & Hdown & Hband). split.
    + intros Hne Hlen.
      rewrite (@simulate_environment_named butter_design resample_kernel
                 librosa_load (Line.init dir) (Line.AudioData audio) profile
                 c None Hget).
      now apply telephone_returns.
    + intros -> fname.
      rewrite (@simulate_environment_named butter_design resample_kernel
                 librosa_load (Line.init dir) (Line.AudioData []) profile
                 c fname Hget).
      now apply telephone_empty.
Qed.

Lemma channel_output_length_witness :
  [0; 0; 0] <> [] /\ (8000 < 16000)%Z /\
  (Z.of_nat (length [0; 0; 0]) < 2 ^ 53)%Z /\
  (exists out,
      Air.simulate demo_butter_design demo_standard_normal Air.default
                   [0; 0; 0] 16000 = Ok out /\
      length out = length [0; 0; 0]) /\
  (exists out,
      Line.simulate_environment demo_butter_design demo_resample_kernel
        demo_load (Line.init "simulated_environments")
        (Line.AudioData [0; 0; 0]) (Line.EnvName "phone") None
        = Ok (out, None) /\
      length out = 4%nat).
Proof.
  assert (H1 : [0; 0; 0] <> []) by discriminate.
  assert (H2 : (8000 < 16000)%Z) by lia.
  assert (H3 : (Z.of_nat (length [0; 0; 0]) < 2 ^ 53)%Z) by (simpl; lia).
  split; [exact H1 |]. split; [exact H2 |]. split; [exact H3 |].
  destruct (channel_output_length demo_butter_design demo_standard_normal
              demo_resample_kernel demo_load [0; 0; 0])
    as (_ & Hair & _ & Hline).
  split; [exact (Hair 16000%Z H1 H2) |].
  exact (proj1 (Hline "simulated_environments"%string "phone"%string
                      (or_introl eq_refl)) H1 H3).
Defined.

(** C6, as stated, fails for the transmission line: three samples in, four
    samples out. *)
Lemma phone_line_lengthens_odd_input :
  length [0; 0; 0] = 3%nat /\
  Line.simulate_environment demo_butter_design demo_resample_kernel demo_load
    (Line.init "simulated_environments") (Line.AudioData [0; 0; 0])
    (Line.EnvName "phone") None = Ok ([0; 0; 0; 0], None) /\
  length [0; 0; 0; 0] = 4%nat.
Proof.
  split; [reflexivity |]. split; [| reflexivity].
  rewrite (@simulate_environment_named demo_butter_design demo_resample_kernel
             demo_load (Line.init "simulated_environments")
             (Line.AudioData [0; 0; 0]) "phone" Line.phone None)
    by reflexivity.
  unfold Line.simulate_environment, Line._apply_bandpass_filter, butter,
    Line.phone.
  cbn [bind Line.down_sample_rate Line.sample_rate Line.bandpass_freqs
       Line.filter_order fst snd].
  change (8000 =? 0)%Z with false. cbv iota.
  rewrite librosa_resample_half by (simpl; lia). cbn [bind].
  rewrite librosa_resample_double by (simpl; lia). cbn [bind].
  rewrite phone_critical_ok. reflexivity.
Qed.

End ChannelClaims.

(* ================================================================= *)
(** ** The attack orchestrator: preconditions *)

Section AttackClaims.

Open Scope string_scope.

Import Attack.

Variable _get_embedding : string -> option (list R).
Variable butter_design :
  Z -> list R -> Signal.btype -> Z -> list Signal.sos_section.
Variable standard_normal : nat -> R.
Variable resample_kernel : list R -> Z -> Z -> list R.
Variable librosa_load_native : string -> list R * Z.
Variable librosa_load : string -> Z -> list R.
Variable fish_create_model : list string -> string -> string.
Variable fish_generate_audio : string -> string -> string -> string.
Variable openvoice_generate_audio : string -> string -> string -> string.

(** C7.  [run_attack] raises the "not found" error when the target speaker
    is no key of the dataset's file mapping, and the "not enough files"
    error when the speaker has fewer than
    [num_enrollment_files + num_test_files] files (both are [ValueError]s,
    told apart by their message); in both cases the framework is left as it
    was: the authentication system is unchanged and the trace has no new
    event, so nothing was enrolled, tested or cloned. *)
Theorem run_attack_preconditions (self : AttackFramework)
        (target_speaker_id attack_text : string) :
  (dict_get (files self) target_speaker_id = None ->
   run_attack _get_embedding butter_design standard_normal resample_kernel
              librosa_load_native librosa_load fish_create_model
              fish_generate_audio openvoice_generate_audio
              target_speaker_id attack_text self =
     (Raise (ValueError
               ("Speaker " ++ target_speaker_id ++ " not found in dataset")),
      self)) /\
  (forall speaker_files,
      dict_get (files self) target_speaker_id = Some speaker_files ->
      (Z.of_nat (length speaker_files) <
       num_enrollment_files (config self) + num_test_files (config self))%Z ->
      run_attack _get_embedding butter_design standard_normal resample_kernel
                 librosa_load_native librosa_load fish_create_model
                 fish_generate_audio openvoice_generate_audio
                 target_speaker_id attack_text self =
        (Raise (ValueError
                  ("Not enough files for speaker " ++ target_speaker_id)),
         self)).
Proof.
  split.
  - intros H. unfold run_attack, bindM, get. rewrite H. reflexivity.
  - intros speaker_files H Hlen. unfold run_attack, bindM, get. rewrite H.
    apply Z.ltb_lt in Hlen. rewrite Hlen. reflexivity.
Qed.

End AttackClaims.

Lemma run_attack_preconditions_witness :
  dict_get (Attack.files (Attack.init demo_config demo_dataset None)) "ghost"
    = None /\
  Attack.run_attack demo_network demo_butter_design demo_standard_normal
    demo_resample_kernel demo_load_native demo_load demo_create_model
    demo_generate_audio demo_generate_audio "ghost" "Hello"
    (Attack.init demo_config demo_dataset None) =
    (Raise (ValueError "Speaker ghost not found in dataset"),
     Attack.init demo_config demo_dataset None) /\
  dict_get (Attack.files (Attack.init demo_config demo_dataset None)) "id10001"
    = Some ["a.wav"%string; "b.wav"%string] /\
  (Z.of_nat (length ["a.wav"%string; "b.wav"%string]) < 3 + 2)%Z /\
  Attack.run_attack demo_network demo_butter_design demo_standard_normal
    demo_resample_kernel demo_load_native demo_load demo_create_model
    demo_generate_audio demo_generate_audio "id10001" "Hello"
    (Attack.init demo_config demo_dataset None) =
    (Raise (ValueError "Not enough files for speaker id10001"),
     Attack.init demo_config demo_dataset None).
Proof.
  pose proof (run_attack_preconditions demo_network demo_butter_design
                demo_standard_normal demo_resample_kernel demo_load_native
                demo_load demo_create_model demo_generate_audio
                demo_generate_audio
                (Attack.init demo_config demo_dataset None) "ghost" "Hello")
    as [Hghost _].
  pose proof (run_attack_preconditions demo_network demo_butter_design
                demo_standard_normal demo_resample_kernel demo_load_native
                demo_load demo_create_model demo_generate_audio
                demo_generate_audio
                (Attack.init demo_config demo_dataset None) "id10001" "Hello")
    as [_ Hfew].
  split; [reflexivity |]. split; [exact (Hghost eq_refl) |].
  split; [reflexivity |]. split; [reflexivity |].
  exact (Hfew _ eq_refl eq_refl).
Defined.

(* ================================================================= *)
(** ** Further properties of the code *)

Section Further.

Open Scope string_scope.

Import Backend Tasks.

(** X1.  On a local-embedding backend [verify] returns through its two
    guards only, with [(False, 0.0)]: when a profile is stored, the network
    embeds the probe and NumPy can combine the two shapes, the format spec
    [.3f] in its log line is applied to the array that [cosine_similarity]
    returned, and NumPy raises [TypeError]. *)
Theorem verify_log_line_raises (E : string -> option (list R)) (v : verifier)
        (probe : string) :
  (forall enrolled test,
      enrollment_embedding v = Some enrolled -> E probe = Some test ->
      broadcastable test enrolled ->
      verify E v probe =
        Raise (TypeError
                 "unsupported format string passed to numpy.ndarray.__format__"))
  /\
  (forall accepted score,
      verify E v probe = Ok (accepted, score) ->
      accepted = false /\ score = Fin 0 /\
      (enrollment_embedding v = None \/ E probe = None)).
Proof.
  split.
  - intros enrolled test Hv Hp Hb.
    destruct (cosine_similarity_returns Hb) as (s & Hs).
    destruct v as [thr profile]. simpl in Hv. subst profile.
    eapply verify_scored; eauto.
  - intros accepted score. apply verify_returns.
Qed.

Lemma verify_log_line_raises_witness :
  enrollment_embedding (mkVerifier (1 / 2) (Some [1%R])) = Some [1%R] /\
  demo_network "good.wav" = Some [1%R] /\
  broadcastable [1%R] [1%R] /\
  verify demo_network (mkVerifier (1 / 2) (Some [1%R])) "good.wav" =
    Raise (TypeError
             "unsupported format string passed to numpy.ndarray.__format__").
Proof.
  assert (Hb : broadcastable [1%R] [1%R]) by (left; reflexivity).
  split; [reflexivity |]. split; [reflexivity |]. split; [exact Hb |].
  exact (proj1 (verify_log_line_raises demo_network
                  (mkVerifier (1 / 2) (Some [1%R])) "good.wav")
               [1%R] [1%R] eq_refl eq_refl Hb).
Defined.

(** X2.  On a non-empty roster, whenever [verify] returns,
    [ClosedSetIdentification.identify] returns a speaker of the roster: the
    first entry with status [True] together with the score of [verify], when
    there is such an entry and the score is above -1, and the first roster
    key with score 0.0 otherwise. *)
Theorem csi_identify_decision (E : string -> option (list R)) (self : ident)
        (probe : string) (accepted : bool) (score : pyfloat)
        (first : string * bool) (rest : dict bool) :
  enrolled_speakers self = first :: rest ->
  sv_verify E (verifier_of self) probe = Ok (accepted, score) ->
  csi_identify E self probe =
    match first_enrolled (enrolled_speakers self) with
    | Some id =>
        if gt score (Fin (-1)) then Ok (id, score) else Ok (fst first, Fin 0)
    | None => Ok (fst first, Fin 0)
    end /\
  exists id sc, csi_identify E self probe = Ok (id, sc) /\
                In id (keys (enrolled_speakers self)).
Proof.
  intros Hr Hv.
  assert (Heq : csi_identify E self probe =
                match first_enrolled (enrolled_speakers self) with
                | Some id =>
                    if gt score (Fin (-1)) then Ok (id, score)
                    else Ok (fst first, Fin 0)
                | None => Ok (fst first, Fin 0)
                end).
  { rewrite (csi_identify_eq E self probe Hr), Hv. reflexivity. }
  split; [exact Heq |]. rewrite Heq.
  assert (Hfirst : In (fst first) (keys (enrolled_speakers self))).
  { rewrite Hr. simpl. now left. }
  destruct (first_enrolled (enrolled_speakers self)) as [id|] eqn:Hf.
  - destruct (gt score (Fin (-1))); [| eauto].
    exists id, score. split; [reflexivity |].
    unfold first_enrolled in Hf.
    destruct (find (fun item : string * bool => snd item)
                   (enrolled_speakers self)) as [[k b]|] eqn:Hfind;
      [| discriminate].
    injection Hf as <-. apply find_some in Hfind. destruct Hfind as [Hin _].
    unfold keys. apply in_map_iff. exists (k, b). auto.
  - eauto.
Qed.

Lemma csi_identify_decision_witness :
  enrolled_speakers (demo_enrolled [("bob", false); ("alice", true)]) =
    ("bob", false) :: [("alice", true)] /\
  sv_verify demo_network
            (verifier_of (demo_enrolled [("bob", false); ("alice", true)]))
            "bad.wav" = Ok (false, Fin 0) /\
  exists id sc,
    csi_identify demo_network
                 (demo_enrolled [("bob", false); ("alice", true)]) "bad.wav"
      = Ok (id, sc) /\
    In id (keys (enrolled_speakers
                   (demo_enrolled [("bob", false); ("alice", true)]))).
Proof.
  split; [reflexivity |]. split; [reflexivity |].
  exact (proj2 (@csi_identify_decision demo_network
                  (demo_enrolled [("bob", false); ("alice", true)]) "bad.wav"
                  false (Fin 0) ("bob", false) [("alice", true)]
                  eq_refl eq_refl)).
Defined.

(** X3.  A transmission-line profile that is not registered raises the "unknown
    environment" [ValueError]; [add_environment] registers a profile under
    its name. *)
Theorem simulate_environment_unknown_profile
        (butter_design :
           Z -> list R -> Signal.btype -> Z -> list Signal.sos_section)
        (resample_kernel : list R -> Z -> Z -> list R)
        (librosa_load : string -> Z -> list R)
        (self : Line.EnvironmentSimulator) (audio : Line.audio_arg)
        (n : string) (fname : option string) (c : Line.EnvironmentConfig) :
  (dict_get (Line.environments self) n = None ->
   Line.simulate_environment butter_design resample_kernel librosa_load self
     audio (Line.EnvName n) fname =
     Raise (ValueError ("Unknown environment: " ++ n))) /\
  dict_get (Line.environments (Line.add_environment self c)) (Line.name c)
    = Some c.
Proof.
  split.
  - intros H. unfold Line.simulate_environment. rewrite H. reflexivity.
  - apply dict_get_set_same.
Qed.

Lemma simulate_environment_unknown_profile_witness :
  dict_get (Line.environments (Line.init "out")) "radio" = None /\
  Line.simulate_environment demo_butter_design demo_resample_kernel demo_load
    (Line.init "out") (Line.AudioData [0%R]) (Line.EnvName "radio") None =
    Raise (ValueError "Unknown environment: radio").
Proof.
  split; [reflexivity |].
  exact (proj1 (simulate_environment_unknown_profile demo_butter_design
                  demo_resample_kernel demo_load (Line.init "out")
                  (Line.AudioData [0%R]) "radio" None Line.phone) eq_refl).
Defined.

End Further.

Section AttackFurther.

Open Scope string_scope.

Import Attack.

Variable _get_embedding : string -> option (list R).
Variable butter_design :
  Z -> list R -> Signal.btype -> Z -> list Signal.sos_section.
Variable standard_normal : nat -> R.
Variable resample_kernel : list R -> Z -> Z -> list R.
Variable librosa_load_native : string -> list R * Z.
Variable librosa_load : string -> Z -> list R.
Variable fish_create_model : list string -> string -> string.
Variable fish_generate_audio : string -> string -> string -> string.
Variable openvoice_generate_audio : string -> string -> string -> string.

(** X4.  With the verification task the authentication system is a
    [SpeakerVerification], which has no [enroll_speaker]: once the file
    checks pass, [run_attack] raises [AttributeError] at the enrollment
    step, before any test or cloning. *)
Theorem run_attack_verification_task (self : AttackFramework)
        (v : Backend.verifier) (target_speaker_id attack_text : string)
        (speaker_files : list string) :
  auth_system self = SpeakerVerification v ->
  dict_get (files self) target_speaker_id = Some speaker_files ->
  (num_enrollment_files (config self) + num_test_files (config self)
   <= Z.of_nat (length speaker_files))%Z ->
  run_attack _get_embedding butter_design standard_normal resample_kernel
             librosa_load_native librosa_load fish_create_model
             fish_generate_audio openvoice_generate_audio
             target_speaker_id attack_text self =
    (Raise (AttributeError
              "'SpeakerVerification' object has no attribute 'enroll_speaker'"),
     self).
Proof.
  intros Ha Hf Hlen. unfold run_attack, bindM, get. rewrite Hf.
  apply Z.ltb_ge in Hlen. rewrite Hlen.
  unfold call_enroll_speaker, bindM, get, raise. rewrite Ha. reflexivity.
Qed.

End AttackFurther.

Lemma run_attack_verification_task_witness :
  Attack.auth_system
    (Attack.init demo_config_verification demo_dataset_five None) =
    Attack.SpeakerVerification (Backend.init (5 / 10)) /\
  (3 + 2 <= Z.of_nat (length ["good.wav"; "a.wav"; "b.wav"; "c.wav";
                              "d.wav"]%string))%Z /\
  Attack.run_attack demo_network demo_butter_design demo_standard_normal
    demo_resample_kernel demo_load_native demo_load demo_create_model
    demo_generate_audio demo_generate_audio "id10001" "Hello"
    (Attack.init demo_config_verification demo_dataset_five None) =
    (Raise (AttributeError
              "'SpeakerVerification' object has no attribute 'enroll_speaker'"),
     Attack.init demo_config_verification demo_dataset_five None).
Proof.
  assert (Hlen : (3 + 2 <= Z.of_nat (length ["good.wav"; "a.wav"; "b.wav";
                                             "c.wav"; "d.wav"]%string))%Z)
    by (simpl; lia).
  split; [reflexivity |]. split; [exact Hlen |].
  exact (@run_attack_verification_task demo_network demo_butter_design
           demo_standard_normal demo_resample_kernel demo_load_native
           demo_load demo_create_model demo_generate_audio
           demo_generate_audio
           (Attack.init demo_config_verification demo_dataset_five None)
           (Backend.init (5 / 10)) "id10001" "Hello"
           ["good.wav"; "a.wav"; "b.wav"; "c.wav"; "d.wav"]%string
           eq_refl eq_refl Hlen).
Defined.

(* ================================================================= *)
(** ** The similarity metric: scale *)

Section SimilarityFurther.

Open Scope R_scope.

Lemma sqr_nonneg (t : R) : 0 <= t * t.
Proof. pose proof (Rle_0_sqr t) as H. unfold Rsqr in H. exact H. Qed.

Lemma np_sum_scale (k : R) (v : list R) :
  np_sum (map (fun x => k * x) v) = k * np_sum v.
Proof. induction v as [|x v IH]; simpl; [lra | rewrite IH; lra]. Qed.

Lemma np_norm_scale (k : R) (v : list R) :
  0 <= k -> np_norm (map (fun x => k * x) v) = k * np_norm v.
Proof.
  intros Hk. unfold np_norm. rewrite map_map.
  replace (map (fun x => k * x * (k * x)) v)
    with (map (fun y => (k * k) * y) (map (fun x => x * x) v)).
  - rewrite np_sum_scale, sqrt_mult_alt by (apply sqr_nonneg).
    now rewrite sqrt_square.
  - rewrite map_map. apply map_ext. intros x. lra.
Qed.

Lemma zip_with_scale_l (k : R) (a b : list R) :
  zip_with Rmult (map (fun x => k * x) a) b =
    map (fun x => k * x) (zip_with Rmult a b).
Proof.
  revert b. induction a as [|x a IH]; intros [|y b]; simpl; try reflexivity.
  rewrite IH. f_equal. lra.
Qed.

Lemma np_multiply_scale_l (k : R) (a b : list R) :
  np_multiply (map (fun x => k * x) a) b =
    (ab <- np_multiply a b ;; Ok (map (fun x => k * x) ab)).
Proof.
  unfold np_multiply. rewrite length_map.
  destruct (length a =? length b)%nat.
  - simpl. now rewrite zip_with_scale_l.
  - destruct a as [|x [|x' a]]; destruct b as [|y [|y' b]]; simpl;
      try reflexivity; apply (f_equal Ok); rewrite ?map_map;
      repeat (apply (f_equal2 cons); [lra |]);
      try reflexivity; apply map_ext; intros; lra.
Qed.

Lemma np_divide_scale (k x y : R) :
  0 < k -> np_divide (k * x) (k * y) = np_divide x y.
Proof.
  intros Hk. unfold np_divide.
  destruct (Req_dec_T y 0) as [-> | Hy].
  - rewrite Rmult_0_r.
    assert (E : Reqb 0 0 = true) by (apply Reqb_true; reflexivity).
    rewrite E.
    destruct (Req_dec_T x 0) as [-> | Hx].
    + now rewrite Rmult_0_r, E.
    + assert (E1 : Reqb x 0 = false) by (apply Reqb_false; exact Hx).
      assert (E2 : Reqb (k * x) 0 = false) by (apply Reqb_false; nra).
      rewrite E1, E2.
      destruct (Rgtb x 0) eqn:G.
      * apply Rgtb_true in G.
        assert (G' : Rgtb (k * x) 0 = true) by (apply Rgtb_true; nra).
        now rewrite G'.
      * apply Rgtb_false in G.
        assert (G' : Rgtb (k * x) 0 = false) by (apply Rgtb_false; nra).
        now rewrite G'.
  - assert (E1 : Reqb y 0 = false) by (apply Reqb_false; exact Hy).
    assert (E2 : Reqb (k * y) 0 = false) by (apply Reqb_false; nra).
    rewrite E1, E2. f_equal. field. split; lra.
Qed.

Lemma cosine_similarity_scale_l (k : R) (a b : list R) :
  0 < k ->
  cosine_similarity (map (fun x => k * x) a) b = cosine_similarity a b.
Proof.
  intros Hk. unfold cosine_similarity.
  rewrite np_multiply_scale_l.
  destruct (np_multiply a b) as [ab | e]; simpl; [| reflexivity].
  rewrite np_sum_scale, np_norm_scale by lra.
  rewrite Rmult_assoc. now rewrite np_divide_scale.
Qed.

Lemma np_multiply_raises (a b : list R) (e : exn) :
  np_multiply a b = Raise e ->
  e = ValueError "operands could not be broadcast together".
Proof.
  unfold np_multiply. destruct (length a =? length b)%nat; [discriminate |].
  destruct a as [|x [|x' a]]; destruct b as [|y [|y' b]];
    try discriminate; intros H; now injection H.
Qed.

Lemma cosine_similarity_comm (a b : list R) :
  cosine_similarity b a = cosine_similarity a b.
Proof.
  unfold cosine_similarity.
  destruct (np_multiply a b) as [ab | e] eqn:Hab.
  - rewrite (@np_multiply_comm a b ab Hab). simpl.
    now rewrite (Rmult_comm (np_norm b)).
  - destruct (np_multiply b a) as [ba | e'] eqn:Hba.
    + apply np_multiply_comm in Hba. congruence.
    + apply np_multiply_raises in Hab, Hba. simpl. congruence.
Qed.

(** X6.  Scaling either vector by a positive factor leaves the result of
    [cosine_similarity] as it is, whatever the two shapes are. *)
Theorem cosine_similarity_scale_invariant (k : R) (a b : list R) :
  0 < k ->
  cosine_similarity (map (fun x => k * x) a) b = cosine_similarity a b /\
  cosine_similarity a (map (fun x => k * x) b) = cosine_similarity a b.
Proof.
  intros Hk. split.
  - now apply cosine_similarity_scale_l.
  - rewrite (cosine_similarity_comm (map (fun x => k * x) b) a).
    rewrite (@cosine_similarity_scale_l k b a Hk).
    apply cosine_similarity_comm.
Qed.

Lemma cosine_similarity_scale_invariant_witness :
  0 < 2 /\
  cosine_similarity (map (fun x => 2 * x) [3; 4]) [4; 3] =
    cosine_similarity [3; 4] [4; 3].
Proof.
  assert (Hk : 0 < 2) by lra.
  split; [exact Hk |].
  exact (proj1 (@cosine_similarity_scale_invariant 2 [3; 4] [4; 3] Hk)).
Defined.

End SimilarityFurther.

(* ================================================================= *)
(** ** The roster of the identification tasks *)

Section RosterFurther.

Import Backend Tasks.

Lemma dict_get_set_other (V : Type) (d : dict V) (k k' : string) (v : V) :
  k <> k' -> dict_get (dict_set d k v) k' = dict_get d k'.
Proof.
  intros Hk. induction d as [|[k0 v0] d IH]; simpl.
  - destruct (String.eqb_spec k k'); [contradiction | reflexivity].
  - destruct (String.eqb_spec k0 k) as [-> | Hne]; simpl.
    + destruct (String.eqb_spec k k'); [contradiction | reflexivity].
    + destruct (String.eqb_spec k0 k'); [reflexivity | exact IH].
Qed.

Lemma keys_dict_set (V : Type) (d : dict V) (k : string) (v : V) :
  keys (dict_set d k v) =
    if existsb (String.eqb k) (keys d) then keys d else keys d ++ [k].
Proof.
  unfold keys. induction d as [|[k0 v0] d IH]; simpl; [reflexivity |].
  rewrite (String.eqb_sym k k0).
  destruct (String.eqb k0 k); simpl; [reflexivity |].
  rewrite IH. destruct (existsb (String.eqb k) (map fst d)); reflexivity.
Qed.

Lemma existsb_eqb_In (x : string) (l : list string) :
  existsb (String.eqb x) l = true <-> In x l.
Proof.
  rewrite existsb_exists. split.
  - intros (y & Hy & Heq). apply String.eqb_eq in Heq. now subst.
  - intros H. exists x. split; [exact H | apply String.eqb_refl].
Qed.

Lemma first_occurrences_spec (l seen : list string) :
  NoDup seen ->
  NoDup (seen ++ first_occurrences seen l) /\
  (forall x, In x (seen ++ first_occurrences seen l) <-> In x seen \/ In x l).
Proof.
  revert seen. induction l as [|x l IH]; intros seen Hs; simpl.
  - rewrite app_nil_r. split; [exact Hs | tauto].
  - destruct (existsb (String.eqb x) seen) eqn:Hx.
    + apply existsb_eqb_In in Hx. destruct (IH seen Hs) as (Hn & Hin).
      split; [exact Hn |]. intros y. rewrite Hin.
      split; [tauto |]. intros [H | [<- | H]]; auto.
    + assert (Hnx : ~ In x seen).
      { intros Hin. apply existsb_eqb_In in Hin. congruence. }
      assert (Hs' : NoDup (seen ++ [x])).
      { apply NoDup_app; [exact Hs | repeat constructor; auto | ].
        intros y Hy [<- | []]. contradiction. }
      destruct (IH (seen ++ [x]) Hs') as (Hn & Hin).
      rewrite <- app_assoc in Hn, Hin. simpl in Hn, Hin.
      split; [exact Hn |]. intros y. rewrite Hin, in_app_iff. simpl. tauto.
Qed.

Lemma enroll_speaker_status (E : string -> option (list R))
      (self self' : ident) (id : string) (files : list string) (ok : bool) :
  enroll_speaker E self id files = Ok (ok, self') -> ok = usable E files.
Proof.
  intros H. apply enroll_speaker_cases in H.
  destruct H as (_ & _ & _ & [(-> & Hn & _) | (-> & Hn & _)]); unfold usable.
  - now rewrite Hn.
  - destruct (embed_all E files); [contradiction | reflexivity].
Qed.

Lemma enroll_all_roster (E : string -> option (list R))
      (calls : list (string * list string)) (self self' : ident) :
  enroll_all E self calls = Ok self' ->
  keys (enrolled_speakers self') =
    keys (enrolled_speakers self)
      ++ first_occurrences (keys (enrolled_speakers self)) (map fst calls) /\
  (forall id,
      dict_get (enrolled_speakers self') id =
        match last_call calls id with
        | Some files => Some (usable E files)
        | None => dict_get (enrolled_speakers self) id
        end).
Proof.
  revert self. induction calls as [|[id0 files0] calls IH]; intros self; simpl.
  - intros H. injection H as <-. split; [now rewrite app_nil_r | reflexivity].
  - destruct (enroll_speaker E self id0 files0) as [[ok s1] | e] eqn:H1;
      simpl; [| discriminate].
    intros H. apply IH in H. destruct H as (Hkeys & Hget).
    pose proof (@enroll_speaker_status E self s1 id0 files0 ok H1) as Hok.
    apply enroll_speaker_cases in H1. destruct H1 as (Hr & _).
    rewrite Hr in Hkeys, Hget. split.
    + rewrite Hkeys, keys_dict_set.
      destruct (existsb (String.eqb id0) (keys (enrolled_speakers self)));
        [reflexivity |].
      now rewrite <- app_assoc.
    + intros id. rewrite Hget.
      destruct (last_call calls id) as [f|]; [reflexivity |].
      destruct (String.eqb_spec id0 id) as [-> | Hne].
      * now rewrite dict_get_set_same, Hok.
      * now apply dict_get_set_other.
Qed.

Lemma dict_get_true_In (d : dict bool) (id : string) :
  NoDup (keys d) ->
  (In id (map fst (filter (fun item : string * bool => snd item) d))
   <-> dict_get d id = Some true).
Proof.
  unfold keys. induction d as [|[k b] d IH]; simpl; intros Hn.
  - split; [tauto | discriminate].
  - inversion Hn as [|? ? Hk Hd]; subst.
    destruct (String.eqb_spec k id) as [-> | Hne].
    + destruct b; simpl.
      * split; auto.
      * split; [| discriminate]. intros Hin. exfalso. apply Hk.
        apply in_map_iff in Hin. destruct Hin as ([k' b'] & <- & Hin).
        apply filter_In in Hin. apply in_map_iff. exists (k', b'). tauto.
    + rewrite <- (IH Hd). destruct b; simpl; [| tauto].
      split; [intros [H | H]; [contradiction | exact H] | auto].
Qed.

(** X7.  After any sequence of [enroll_speaker] calls on a new
    identification system, the roster holds each speaker id of the calls
    once, in the order of first enrollment, with the outcome of the most
    recent call for that id; [get_enrolled_speakers] lists exactly the ids
    whose most recent call had a sample that the network embeds. *)
Theorem roster_tracks_latest_call (E : string -> option (list R)) (thr : R)
        (calls : list (string * list string)) (self : ident) :
  enroll_all E (ident_init thr) calls = Ok self ->
  keys (enrolled_speakers self) = first_occurrences [] (map fst calls) /\
  NoDup (keys (enrolled_speakers self)) /\
  (forall id,
      dict_get (enrolled_speakers self) id =
        option_map (usable E) (last_call calls id)) /\
  (forall id,
      In id (get_enrolled_speakers self) <->
      exists files, last_call calls id = Some files /\ usable E files = true).
Proof.
  intros H. apply enroll_all_roster in H. simpl in H.
  destruct H as (Hkeys & Hget).
  assert (Hnd : NoDup (keys (enrolled_speakers self))).
  { rewrite Hkeys.
    exact (proj1 (@first_occurrences_spec (map fst calls) [] (NoDup_nil _))). }
  assert (Hget' : forall id,
             dict_get (enrolled_speakers self) id =
               option_map (usable E) (last_call calls id)).
  { intros id. rewrite Hget. destruct (last_call calls id); reflexivity. }
  split; [exact Hkeys |]. split; [exact Hnd |]. split; [exact Hget' |].
  intros id. unfold get_enrolled_speakers.
  rewrite (@dict_get_true_In (enrolled_speakers self) id Hnd), Hget'.
  destruct (last_call calls id) as [files|]; simpl.
  - split.
    + intros Hs. exists files. split; [reflexivity | congruence].
    + intros (f & Hf & Hu). injection Hf as <-. now rewrite Hu.
  - split; [discriminate | intros (f & Hf & _); discriminate].
Qed.

Lemma roster_tracks_latest_call_witness :
  enroll_all demo_network (ident_init (1 / 2))
    [("alice", ["good.wav"]); ("bob", ["bad.wav"]); ("alice", ["bad.wav"]);
     ("bob", ["good.wav"])]%string =
    Ok (demo_enrolled [("alice", false); ("bob", true)]%string) /\
  keys (enrolled_speakers (demo_enrolled [("alice", false); ("bob", true)]%string))
    = first_occurrences [] ["alice"; "bob"; "alice"; "bob"]%string /\
  dict_get (enrolled_speakers
              (demo_enrolled [("alice", false); ("bob", true)]%string))
           "alice" =
    option_map (usable demo_network)
      (last_call [("alice", ["good.wav"]); ("bob", ["bad.wav"]);
                  ("alice", ["bad.wav"]); ("bob", ["good.wav"])]%string
                 "alice").
Proof.
  assert (H : enroll_all demo_network (ident_init (1 / 2))
                [("alice", ["good.wav"]); ("bob", ["bad.wav"]);
                 ("alice", ["bad.wav"]); ("bob", ["good.wav"])]%string =
              Ok (demo_enrolled [("alice", false); ("bob", true)]%string))
    by reflexivity.
  pose proof (@roster_tracks_latest_call demo_network (1 / 2) _ _ H)
    as (Hk & _ & Hg & _).
  split; [exact H |]. split; [exact Hk | exact (Hg "alice"%string)].
Defined.

End RosterFurther.

(* ================================================================= *)
(** ** What the identification calls and the attack run return *)

Section IdentifyFurther.

Open Scope R_scope.

Import Backend Tasks.

Variable E : string -> option (list R).

Lemma gt_zero_minus_one : gt (Fin 0) (Fin (-1)) = true.
Proof. simpl. apply Rgtb_true. lra. Qed.

Lemma osi_identify_returns (self : ident) (probe : string)
      (r : option string) (s : pyfloat) :
  osi_identify E self probe = Ok (r, s) -> r = None /\ s = Fin 0.
Proof.
  destruct (enrolled_speakers self) as [|first rest] eqn:Hr.
  - unfold osi_identify. rewrite Hr. intros H. injection H as <- <-. auto.
  - rewrite osi_identify_eq by (rewrite Hr; discriminate).
    unfold sv_verify.
    destruct (verify E (verifier_of self) probe) as [[b sim] | e] eqn:Hv;
      cbn [bind fst snd]; [| discriminate].
    apply verify_returns in Hv. destruct Hv as (-> & -> & _).
    cbn [andb]. intros H. injection H as <- <-. auto.
Qed.

Lemma csi_identify_returns (self : ident) (probe id : string) (s : pyfloat) :
  csi_identify E self probe = Ok (id, s) ->
  s = Fin 0 /\
  exists first rest,
    enrolled_speakers self = first :: rest /\
    id = match first_enrolled (enrolled_speakers self) with
         | Some i => i
         | None => fst first
         end.
Proof.
  destruct (enrolled_speakers self) as [|first rest] eqn:Hr.
  - unfold csi_identify. rewrite Hr. discriminate.
  - rewrite (@csi_identify_eq E self probe first rest Hr). unfold sv_verify.
    destruct (verify E (verifier_of self) probe) as [[b sim] | e] eqn:Hv;
      cbn [bind fst snd]; [| discriminate].
    apply verify_returns in Hv. destruct Hv as (-> & -> & _).
    rewrite gt_zero_minus_one, Hr.
    destruct (first_enrolled (first :: rest)) as [i|]; intros H;
      injection H as <- <-; split; try reflexivity; eauto.
Qed.

End IdentifyFurther.

Section IdentifyFurtherClaims.

Open Scope R_scope.
Open Scope string_scope.

Import Backend Tasks.

(** X8.  On a local-embedding backend no [identify] call reports a score
    other than 0.0.  [OpenSetIdentification.identify] returns only
    [(None, 0.0)]: it never names a speaker.
    [ClosedSetIdentification.identify] returns only score 0.0, with the
    first roster entry of status [True] or, when there is none, the first
    roster key.  (A call in which a similarity is computed does not return:
    [verify] raises at its log line.) *)
Theorem identify_scores_zero (E : string -> option (list R)) (self : ident)
        (probe : string) :
  (forall r s, osi_identify E self probe = Ok (r, s) -> r = None /\ s = Fin 0)
  /\
  (forall id s,
      csi_identify E self probe = Ok (id, s) ->
      s = Fin 0 /\
      exists first rest,
        enrolled_speakers self = first :: rest /\
        id = match first_enrolled (enrolled_speakers self) with
             | Some i => i
             | None => fst first
             end) /\
  (E probe = None -> enrolled_speakers self <> [] ->
   osi_identify E self probe = Ok (None, Fin 0)).
Proof.
  split; [| split].
  - intros r s. apply osi_identify_returns.
  - intros id s. apply csi_identify_returns.
  - intros Hp Hr. rewrite osi_identify_eq by exact Hr.
    unfold sv_verify, verify. rewrite Hp.
    destruct (enrollment_embedding (verifier_of self)); reflexivity.
Qed.

Lemma identify_scores_zero_witness :
  demo_network "bad.wav" = None /\
  enrolled_speakers (demo_enrolled [("alice", true)]) <> [] /\
  osi_identify demo_network (demo_enrolled [("alice", true)]) "bad.wav" =
    Ok (None, Fin 0).
Proof.
  assert (Hr : enrolled_speakers (demo_enrolled [("alice", true)]) <> [])
    by discriminate.
  split; [reflexivity |]. split; [exact Hr |].
  exact (proj2 (proj2 (@identify_scores_zero demo_network
                         (demo_enrolled [("alice", true)]) "bad.wav"))
               eq_refl Hr).
Defined.

End IdentifyFurtherClaims.

Section RunAttackFurther.

Open Scope string_scope.

Import Backend Tasks Attack.

Variable _get_embedding : string -> option (list R).
Variable butter_design :
  Z -> list R -> Signal.btype -> Z -> list Signal.sos_section.
Variable standard_normal : nat -> R.
Variable resample_kernel : list R -> Z -> Z -> list R.
Variable librosa_load_native : string -> list R * Z.
Variable librosa_load : string -> Z -> list R.
Variable fish_create_model : list string -> string -> string.
Variable fish_generate_audio : string -> string -> string -> string.
Variable openvoice_generate_audio : string -> string -> string -> string.

Lemma bindM_ok (A B : Type) (m : M A) (k : A -> M B) (s s' : AttackFramework)
      (b : B) :
  bindM m k s = (Ok b, s') ->
  exists a s1, m s = (Ok a, s1) /\ k a s1 = (Ok b, s').
Proof.
  unfold bindM. destruct (m s) as [[a | e] s1]; [eauto | discriminate].
Qed.

Lemma for_each_ok (A B : Type) (body : A -> M B) (P : A -> B -> Prop) :
  (forall x s y s', body x s = (Ok y, s') -> P x y) ->
  forall xs s ys s',
    for_each xs body s = (Ok ys, s') -> Forall2 P xs ys.
Proof.
  intros Hbody. induction xs as [|x xs IH]; intros s ys s'; simpl.
  - unfold ret. intros H. injection H as <- _. constructor.
  - intros H. apply bindM_ok in H. destruct H as (y & s1 & Hy & H).
    apply bindM_ok in H. destruct H as (ys' & s2 & Hys & H).
    unfold ret in H. injection H as <- _.
    constructor; [eapply Hbody; eauto | eapply IH; eauto].
Qed.

Lemma submit_score (p : string) (s s' : AttackFramework) (d : decision)
      (sc : pyfloat) :
  submit _get_embedding p s = (Ok (d, sc), s') -> sc = Fin 0.
Proof.
  unfold submit. intros H. apply bindM_ok in H.
  destruct H as (self & s1 & Hg & H). unfold get in Hg. injection Hg as <- <-.
  destruct (task (config s)), (auth_system s) as [v | c | o];
    try (unfold raise in H; discriminate);
    apply bindM_ok in H; destruct H as ([] & s2 & _ & H);
    apply bindM_ok in H; destruct H as (r & s3 & Hr & H);
    unfold lift in Hr; injection Hr as Hr _;
    unfold ret in H; injection H as _ <- _;
    destruct r as [x sim]; simpl.
  - apply verify_returns in Hr. tauto.
  - apply csi_identify_returns in Hr. tauto.
  - apply osi_identify_returns in Hr. tauto.
  - apply csi_identify_returns in Hr. tauto.
  - apply osi_identify_returns in Hr. tauto.
Qed.

Lemma test_real_result (f : string) (s s' : AttackFramework) (t : test_result) :
  test_real _get_embedding butter_design standard_normal resample_kernel
            librosa_load_native librosa_load f s = (Ok t, s') ->
  file t = f /\ score t = Fin 0.
Proof.
  unfold test_real. intros H.
  apply bindM_ok in H. destruct H as (p & s1 & _ & H).
  apply bindM_ok in H. destruct H as ([d sc] & s2 & Hs & H).
  unfold ret in H. injection H as <- _. simpl.
  split; [reflexivity | eapply submit_score; eauto].
Qed.

Lemma test_attack_result (id text : string) (enrollment_files : list string)
      (i : nat) (s s' : AttackFramework) (t : test_result) :
  test_attack _get_embedding butter_design standard_normal resample_kernel
              librosa_load_native librosa_load fish_create_model
              fish_generate_audio openvoice_generate_audio
              id text enrollment_files i s = (Ok t, s') ->
  score t = Fin 0.
Proof.
  unfold test_attack. intros H.
  apply bindM_ok in H. destruct H as (self & s0 & _ & H).
  apply bindM_ok in H. destruct H as (attack_file & s1 & _ & H).
  apply bindM_ok in H. destruct H as (p & s2 & _ & H).
  apply bindM_ok in H. destruct H as ([d sc] & s3 & Hs & H).
  unfold ret in H. injection H as <- _. simpl.
  eapply submit_score; eauto.
Qed.

Lemma slice_to_firstn (A : Type) (l : list A) (n : Z) :
  (0 <= n <= Z.of_nat (length l))%Z -> slice_to l n = firstn (Z.to_nat n) l.
Proof.
  intros H. unfold slice_to, slice, clamp_index.
  change (0 <? 0)%Z with false. cbv iota.
  assert (E : (n <? 0)%Z = false) by (apply Z.ltb_ge; lia). rewrite E.
  replace (Z.max 0 (Z.min (Z.of_nat (length l)) 0)) with 0%Z by lia.
  replace (Z.max 0 (Z.min (Z.of_nat (length l)) n)) with n by lia.
  now rewrite Z.sub_0_r.
Qed.

Lemma slice_segment (A : Type) (l : list A) (i n : Z) :
  (0 <= i)%Z -> (0 <= n)%Z -> (i + n <= Z.of_nat (length l))%Z ->
  slice l i (i + n) = firstn (Z.to_nat n) (skipn (Z.to_nat i) l).
Proof.
  intros Hi Hn H. unfold slice, clamp_index.
  assert (E1 : (i <? 0)%Z = false) by (apply Z.ltb_ge; lia).
  assert (E2 : (i + n <? 0)%Z = false) by (apply Z.ltb_ge; lia).
  rewrite E1, E2.
  replace (Z.max 0 (Z.min (Z.of_nat (length l)) i)) with i by lia.
  replace (Z.max 0 (Z.min (Z.of_nat (length l)) (i + n))) with (i + n)%Z by lia.
  f_equal. f_equal. lia.
Qed.

Lemma call_enroll_speaker_status (id : string) (wav_files : list string)
      (s s' : AttackFramework) (ok : bool) :
  call_enroll_speaker _get_embedding id wav_files s = (Ok ok, s') ->
  ok = usable _get_embedding wav_files.
Proof.
  unfold call_enroll_speaker. intros H.
  apply bindM_ok in H. destruct H as (self & s0 & Hg & H).
  unfold get in Hg. injection Hg as <- <-.
  destruct (auth_system s) as [v | c | o]; [unfold raise in H; discriminate | |];
    apply bindM_ok in H; destruct H as ([] & s1 & _ & H);
    apply bindM_ok in H; destruct H as ([b st] & s2 & Hr & H);
    unfold lift in Hr; injection Hr as Hr _;
    apply bindM_ok in H; destruct H as ([] & s3 & _ & H);
    unfold ret in H; injection H as <- _; simpl;
    eapply enroll_speaker_status; eauto.
Qed.

Lemma run_attack_returns (id text : string) (s s' : AttackFramework)
      (r : attack_results) :
  run_attack _get_embedding butter_design standard_normal resample_kernel
             librosa_load_native librosa_load fish_create_model
             fish_generate_audio openvoice_generate_audio id text s
    = (Ok r, s') ->
  exists speaker_files,
    dict_get (files s) id = Some speaker_files /\
    (num_enrollment_files (config s) + num_test_files (config s)
     <= Z.of_nat (length speaker_files))%Z /\
    enrollment_success r =
      usable _get_embedding
             (slice_to speaker_files (num_enrollment_files (config s))) /\
    map file (real_test_results r) =
      slice speaker_files (num_enrollment_files (config s))
            (num_enrollment_files (config s) + num_test_files (config s)) /\
    length (attack_results_of r) = Z.to_nat (num_attack_files (config s)) /\
    Forall (fun t => score t = Fin 0)
           (real_test_results r ++ attack_results_of r).
Proof.
  unfold run_attack. intros H.
  apply bindM_ok in H. destruct H as (self & s0 & Hg & H).
  unfold get in Hg. injection Hg as <- <-.
  destruct (dict_get (files s) id) as [speaker_files|];
    [| unfold raise in H; discriminate].
  destruct (Z.of_nat (length speaker_files) <?
            num_enrollment_files (config s) + num_test_files (config s))%Z
    eqn:Hlen; [unfold raise in H; discriminate |].
  apply Z.ltb_ge in Hlen.
  apply bindM_ok in H. destruct H as (ok & s1 & Hok & H).
  apply bindM_ok in H. destruct H as (real & s2 & Hreal & H).
  apply bindM_ok in H. destruct H as (attacks & s3 & Hatt & H).
  unfold ret in H. injection H as <- _. simpl.
  exists speaker_files. split; [reflexivity |]. split; [exact Hlen |].
  split; [eapply call_enroll_speaker_status; eauto |].
  assert (Freal : Forall2 (fun f t => file t = f /\ score t = Fin 0)
                     (slice speaker_files (num_enrollment_files (config s))
                        (num_enrollment_files (config s)
                         + num_test_files (config s))) real).
  { eapply for_each_ok; [| exact Hreal].
    intros x st y st' Hx. eapply test_real_result; eauto. }
  assert (Fatt : Forall2 (fun (_ : nat) t => score t = Fin 0)
                    (seq 0 (Z.to_nat (num_attack_files (config s)))) attacks).
  { eapply for_each_ok; [| exact Hatt].
    intros x st y st' Hx. eapply test_attack_result; eauto. }
  split; [| split].
  - clear - Freal. induction Freal as [|f t fs ts [Hf _] _ IH]; simpl;
      [reflexivity | now rewrite Hf, IH].
  - apply Forall2_length in Fatt. now rewrite <- Fatt, length_seq.
  - apply Forall_app. split.
    + clear - Freal. induction Freal as [|f t fs ts [_ Hs] _ IH]; auto.
    + clear - Fatt. induction Fatt as [|f t fs ts Hs _ IH]; auto.
Qed.

(** X9.  Whenever [run_attack] returns (with counts that are not negative),
    the speaker was enrolled from the first [num_enrollment_files] files of
    the dataset, [enrollment_success] tells whether the network embedded one
    of them, the real tests are those of the next [num_test_files] files, in
    order, there is one attack result per attack file, and every score in
    the results is 0.0. *)
Theorem run_attack_results (self self' : AttackFramework)
        (target_speaker_id attack_text : string) (r : attack_results) :
  (0 <= num_enrollment_files (config self))%Z ->
  (0 <= num_test_files (config self))%Z ->
  run_attack _get_embedding butter_design standard_normal resample_kernel
             librosa_load_native librosa_load fish_create_model
             fish_generate_audio openvoice_generate_audio
             target_speaker_id attack_text self = (Ok r, self') ->
  exists speaker_files,
    dict_get (files self) target_speaker_id = Some speaker_files /\
    enrollment_success r =
      usable _get_embedding
        (firstn (Z.to_nat (num_enrollment_files (config self))) speaker_files)
    /\
    map file (real_test_results r) =
      firstn (Z.to_nat (num_test_files (config self)))
             (skipn (Z.to_nat (num_enrollment_files (config self)))
                    speaker_files) /\
    length (real_test_results r) = Z.to_nat (num_test_files (config self)) /\
    length (attack_results_of r) = Z.to_nat (num_attack_files (config self)) /\
    Forall (fun t => score t = Fin 0)
           (real_test_results r ++ attack_results_of r).
Proof.
  intros Hne Hnt H. apply run_attack_returns in H.
  destruct H as (speaker_files & Hf & Hlen & Hok & Hreal & Hatt & Hsc).
  exists speaker_files.
  rewrite slice_to_firstn in Hok by lia.
  rewrite slice_segment in Hreal by lia.
  split; [exact Hf |]. split; [exact Hok |]. split; [exact Hreal |].
  split; [| split; [exact Hatt | exact Hsc]].
  rewrite <- (length_map file), Hreal, length_firstn, length_skipn. lia.
Qed.

End RunAttackFurther.

Lemma run_attack_results_witness :
  (0 <= Attack.num_enrollment_files
          (Attack.config (Attack.init demo_config_osi demo_dataset_quiet None)))%Z
  /\
  (0 <= Attack.num_test_files
          (Attack.config (Attack.init demo_config_osi demo_dataset_quiet None)))%Z
  /\
  exists r self',
    Attack.run_attack demo_network demo_butter_design demo_standard_normal
      demo_resample_kernel demo_load_native demo_load demo_create_model
      demo_generate_audio demo_generate_audio "id10001" "Hello"
      (Attack.init demo_config_osi demo_dataset_quiet None) = (Ok r, self') /\
    Attack.enrollment_success r = true /\
    map Attack.file (Attack.real_test_results r) = ["c.wav"; "d.wav"]%string /\
    Forall (fun t => Attack.score t = Fin 0)
           (Attack.real_test_results r ++ Attack.attack_results_of r).
Proof.
  assert (H1 : (0 <= Attack.num_enrollment_files
                       (Attack.config
                          (Attack.init demo_config_osi demo_dataset_quiet None)))%Z)
    by (simpl; lia).
  assert (H2 : (0 <= Attack.num_test_files
                       (Attack.config
                          (Attack.init demo_config_osi demo_dataset_quiet None)))%Z)
    by (simpl; lia).
  split; [exact H1 |]. split; [exact H2 |].
  assert (Hrun : exists r self',
             Attack.run_attack demo_network demo_butter_design
               demo_standard_normal demo_resample_kernel demo_load_native
               demo_load demo_create_model demo_generate_audio
               demo_generate_audio "id10001" "Hello"
               (Attack.init demo_config_osi demo_dataset_quiet None)
             = (Ok r, self')).
  { eexists. eexists. cbv -[Rdiv Rplus Rmult INR IZR Rinv]. reflexivity. }
  destruct Hrun as (r & self' & Hrun).
  exists r, self'. split; [exact Hrun |].
  destruct (@run_attack_results demo_network demo_butter_design
              demo_standard_normal demo_resample_kernel demo_load_native
              demo_load demo_create_model demo_generate_audio
              demo_generate_audio
              (Attack.init demo_config_osi demo_dataset_quiet None) self'
              "id10001"%string "Hello"%string r H1 H2 Hrun)
    as (speaker_files & Hf & Hok & Hreal & _ & _ & Hsc).
  injection Hf as <-.
  split; [exact Hok |]. split; [exact Hreal | exact Hsc].
Defined.

(* ================================================================= *)
(** ** The open-air simulator: when it returns *)

Section AirDomain.

Open Scope R_scope.

Import Signal Air.

Variable butter_design : Z -> list R -> btype -> Z -> list sos_section.
Variable standard_normal : nat -> R.

Lemma np_setitem_returns_iff (arr : list R) (i : Z) (v : R) :
  (exists arr', np_setitem arr i v = Ok arr') <->
  (- Z.of_nat (length arr) <= i < Z.of_nat (length arr))%Z.
Proof.
  unfold np_setitem.
  destruct ((i <? - Z.of_nat (length arr)) || (Z.of_nat (length arr) <=? i))%Z
    eqn:E.
  - split; [intros (arr' & H); discriminate |].
    apply orb_true_iff in E. destruct E as [E | E];
      [apply Z.ltb_lt in E | apply Z.leb_le in E]; lia.
  - apply orb_false_iff in E. destruct E as [E1 E2].
    apply Z.ltb_ge in E1. apply Z.leb_gt in E2.
    split; [lia | eauto].
Qed.

Lemma add_reflections_returns_iff (delays : list (R * R)) (room_ir : list R)
      (sr : Z) :
  (exists room_ir', add_reflections room_ir delays sr = Ok room_ir') <->
  Forall (fun p => (- Z.of_nat (length room_ir) <= py_int (fst p * IZR sr)
                    < Z.of_nat (length room_ir))%Z) delays.
Proof.
  revert room_ir. induction delays as [|[d a] delays IH]; intros room_ir; simpl.
  - split; [constructor | eauto].
  - destruct (np_setitem room_ir (py_int (d * IZR sr)) a) as [r1 | e] eqn:H1;
      simpl.
    + pose proof (@np_setitem_length room_ir r1 _ a H1) as Hlen.
      rewrite IH, Hlen. split.
      * intros H. constructor; [| exact H].
        simpl. apply (proj1 (np_setitem_returns_iff room_ir _ a)). eauto.
      * intros H. now inversion H.
    + split; [intros (r & H); discriminate |].
      intros H. inversion H as [|? ? Hp _]; subst. simpl in Hp.
      apply (np_setitem_returns_iff room_ir _ a) in Hp.
      destruct Hp as (r & Hr). congruence.
Qed.

Lemma simulate_returns_iff (self : AirEnvironmentSimulator) (audio : list R)
      (sr : Z) :
  (exists out, simulate butter_design standard_normal self audio sr = Ok out)
  <->
  (audio <> [] /\ (0 < sr)%Z /\
   Forall (fun p => (- sr <= py_int (fst p * IZR sr) < sr)%Z)
          (reverb_delays self) /\
   0 <= noise_level self /\
   0 < lowpass_freq self < IZR sr / 2).
Proof.
  unfold simulate, np_zeros.
  destruct (sr <? 0)%Z eqn:Hneg.
  { apply Z.ltb_lt in Hneg. simpl.
    split; [intros (out & H); discriminate | intros (_ & H & _); lia]. }
  apply Z.ltb_ge in Hneg. cbn [bind].
  destruct (np_setitem (repeat 0 (Z.to_nat sr)) 0 1) as [ir1 | e] eqn:H1;
    cbn [bind].
  2:{ split; [intros (out & H); discriminate |].
      intros (_ & Hsr & _).
      destruct (proj2 (np_setitem_returns_iff (repeat 0 (Z.to_nat sr)) 0 1))
        as (r & Hr); [rewrite repeat_length; lia | congruence]. }
  assert (Hsr : (0 < sr)%Z).
  { assert (Hex : exists arr', np_setitem (repeat 0 (Z.to_nat sr)) 0 1 = Ok arr')
      by eauto.
    apply np_setitem_returns_iff in Hex. rewrite repeat_length in Hex. lia. }
  assert (Hlen1 : Z.of_nat (length ir1) = sr).
  { apply np_setitem_length in H1. rewrite H1, repeat_length. lia. }
  pose proof (add_reflections_returns_iff (reverb_delays self) ir1 sr) as Hrefl.
  rewrite Hlen1 in Hrefl.
  destruct (add_reflections ir1 (reverb_delays self) sr) as [ir | e] eqn:Hir;
    cbn [bind].
  2:{ split; [intros (out & H); discriminate |].
      intros (_ & _ & Hd & _). apply Hrefl in Hd. destruct Hd as (r & Hr).
      discriminate. }
  assert (Hd : Forall (fun p => (- sr <= py_int (fst p * IZR sr) < sr)%Z)
                      (reverb_delays self)) by (apply Hrefl; eauto).
  assert (Hne : ir <> []).
  { apply add_reflections_length in Hir. intros ->. simpl in Hir. lia. }
  destruct audio as [|x audio].
  { destruct (@np_convolve_empty [] ir (or_introl eq_refl)) as (msg & ->).
    cbn [bind]. split; [intros (out & H); discriminate |].
    intros (H & _). exfalso. now apply H. }
  rewrite np_convolve_nonempty by (assumption || discriminate). cbn [bind].
  unfold np_random_normal.
  destruct (Rlt_dec (noise_level self) 0) as [Hn | Hn]; cbn [bind].
  { split; [intros (out & H); discriminate | intros (_ & _ & _ & H & _); lra]. }
  unfold butter.
  destruct (critical_ok [lowpass_freq self] sr) eqn:Hc; cbn [bind].
  - apply critical_ok_iff in Hc. inversion Hc as [|? ? Hf _]; subst.
    rewrite sosfilt_nonempty
      by (apply noisy_nonempty; assumption || discriminate).
    cbn [bind].
    split; [| eauto]. intros _.
    split; [discriminate |]. split; [exact Hsr |]. split; [exact Hd |].
    split; [lra | exact Hf].
  - split; [intros (out & H); discriminate |].
    intros (_ & _ & _ & _ & Hf).
    assert (Hc' : critical_ok [lowpass_freq self] sr = true).
    { apply critical_ok_iff. constructor; [exact Hf | constructor]. }
    congruence.
Qed.

(** With the default parameters and a positive sample rate of 8000 Hz or
    less, the cut-off of 4000 Hz is not below half the rate. *)
Lemma simulate_default_low_rate (audio : list R) (sr : Z) :
  (0 < sr <= 8000)%Z ->
  exists msg,
    simulate butter_design standard_normal Air.default audio sr =
      Raise (ValueError msg).
Proof.
  intros Hsr. unfold simulate, np_zeros.
  assert (E : (sr <? 0)%Z = false) by (apply Z.ltb_ge; lia).
  rewrite E. cbn [bind].
  destruct (@np_setitem_in_range (repeat 0 (Z.to_nat sr)) 0%Z 1) as (ir1 & H1).
  { rewrite repeat_length. lia. }
  rewrite H1. cbn [bind].
  destruct (@add_reflections_returns (reverb_delays Air.default) ir1 sr)
    as (ir & Hir).
  { apply np_setitem_length in H1. now rewrite H1, repeat_length. }
  { lia. }
  { unfold Air.default, Air.init, default_reverb_delays. simpl.
    repeat constructor; simpl; lra. }
  rewrite Hir. cbn [bind].
  assert (Hne : ir <> []).
  { apply add_reflections_length in Hir. apply np_setitem_length in H1.
    rewrite repeat_length in H1. intros ->. simpl in Hir. lia. }
  destruct audio as [|x audio].
  { destruct (@np_convolve_empty [] ir (or_introl eq_refl)) as (msg & ->).
    cbn [bind]. eauto. }
  rewrite np_convolve_nonempty by (assumption || discriminate). cbn [bind].
  unfold np_random_normal. cbn [noise_level Air.default Air.init].
  destruct (Rlt_dec (5 / 1000) 0) as [Hn | Hn]; [lra |]. cbn [bind].
  unfold butter.
  assert (Hc : critical_ok [lowpass_freq Air.default] sr = false).
  { destruct (critical_ok [lowpass_freq Air.default] sr) eqn:Hc; [| reflexivity].
    apply critical_ok_iff in Hc. inversion Hc as [|? ? Hf _]; subst.
    simpl in Hf. assert (IZR sr <= 8000) by (apply IZR_le; lia). lra. }
  rewrite Hc. cbn [bind]. eauto.
Qed.

End AirDomain.

Section AirDomainClaims.

Open Scope R_scope.

Import Signal Air.

(** X11.  For a filter order that is not negative, [simulate] returns
    exactly when the audio is not empty, the sample rate is positive, every
    reflection index [int(delay * sr)] lies in [-sr .. sr-1], the noise level
    is not negative and the cut-off frequency lies strictly between 0 and
    half the sample rate.  With the default parameters and a positive sample
    rate of 8000 Hz or less it raises [ValueError].  An empty list of
    reflections passed to the constructor is replaced by the default
    reflections. *)
Theorem air_simulate_domain
        (butter_design : Z -> list R -> btype -> Z -> list sos_section)
        (standard_normal : nat -> R)
        (self : AirEnvironmentSimulator) (audio : list R) (sr : Z) :
  (0 <= filter_order self)%Z ->
  ((exists out, simulate butter_design standard_normal self audio sr = Ok out)
   <->
   (audio <> [] /\ (0 < sr)%Z /\
    Forall (fun p => (- sr <= py_int (fst p * IZR sr) < sr)%Z)
           (reverb_delays self) /\
    0 <= noise_level self /\
    0 < lowpass_freq self < IZR sr / 2)) /\
  ((0 < sr <= 8000)%Z ->
   exists msg,
     simulate butter_design standard_normal Air.default audio sr =
       Raise (ValueError msg)) /\
  (forall noise lowpass order,
      Air.init (Some []) noise lowpass order = Air.init None noise lowpass order).
Proof.
  intros _. split; [| split].
  - apply simulate_returns_iff.
  - apply simulate_default_low_rate.
  - reflexivity.
Qed.

Lemma air_simulate_domain_witness :
  (0 <= filter_order Air.default)%Z /\
  ((exists out,
       simulate demo_butter_design demo_standard_normal Air.default
                [0; 0; 0] 16000 = Ok out)
   <->
   ([0; 0; 0] <> [] /\ (0 < 16000)%Z /\
    Forall (fun p => (- 16000 <= py_int (fst p * IZR 16000) < 16000)%Z)
           (reverb_delays Air.default) /\
    0 <= noise_level Air.default /\
    0 < lowpass_freq Air.default < IZR 16000 / 2)).
Proof.
  assert (H : (0 <= filter_order Air.default)%Z) by (simpl; lia).
  split; [exact H |].
  exact (proj1 (@air_simulate_domain demo_butter_design demo_standard_normal
                  Air.default [0; 0; 0] 16000%Z H)).
Defined.

End AirDomainClaims.

(* ================================================================= *)
(** ** [_prepare_audio]: the processed file *)

Section Basename.

Open Scope string_scope.

Import Attack.

Lemma contains_char_app (c : ascii) (s t : string) :
  contains_char c (s ++ t) = contains_char c s || contains_char c t.
Proof.
  induction s as [|c' s IH]; simpl; [reflexivity |].
  now rewrite IH, orb_assoc.
Qed.

Lemma append_assoc (s t u : string) : (s ++ t) ++ u = s ++ (t ++ u).
Proof. induction s as [|c s IH]; simpl; [reflexivity | now rewrite IH]. Qed.

Lemma append_empty_r (s : string) : s ++ "" = s.
Proof. induction s as [|c s IH]; simpl; [reflexivity | now rewrite IH]. Qed.

Lemma basename_from_no_slash (s acc : string) :
  contains_char "/" acc = false ->
  contains_char "/" (basename_from s acc) = false.
Proof.
  revert acc. induction s as [|c s IH]; intros acc Hacc; simpl; [exact Hacc |].
  destruct (Ascii.eqb c "/") eqn:Hc.
  - apply IH. reflexivity.
  - apply IH. rewrite contains_char_app, Hacc. simpl. now rewrite Hc.
Qed.

Lemma basename_from_app (s t acc : string) :
  basename_from (s ++ t) acc = basename_from t (basename_from s acc).
Proof.
  revert acc. induction s as [|c s IH]; intros acc; simpl; [reflexivity |].
  destruct (Ascii.eqb c "/"); apply IH.
Qed.

Lemma basename_from_plain (s acc : string) :
  contains_char "/" s = false -> basename_from s acc = acc ++ s.
Proof.
  revert acc. induction s as [|c s IH]; intros acc; simpl.
  - intros _. now rewrite append_empty_r.
  - intros H. apply orb_false_iff in H. destruct H as [Hc Hs].
    rewrite Hc, (IH _ Hs), append_assoc. reflexivity.
Qed.

Lemma basename_from_ends_with_sep (s acc : string) :
  Line.ends_with_sep s = true -> basename_from s acc = "".
Proof.
  unfold Line.ends_with_sep.
  revert acc. induction s as [|c s IH]; intros acc; [discriminate |].
  destruct s as [|c' s].
  - simpl. intros H. now rewrite H.
  - intros H. change (basename_from (String c (String c' s)) acc)
      with (if Ascii.eqb c "/" then basename_from (String c' s) ""
            else basename_from (String c' s) (acc ++ String c "")).
    destruct (Ascii.eqb c "/"); apply IH; exact H.
Qed.

Lemma basename_path_join (dir f : string) :
  basename (Line.path_join dir f) = basename f.
Proof.
  unfold basename, Line.path_join.
  destruct (Line.starts_with_sep f); [reflexivity |].
  destruct (String.eqb dir "") eqn:Hd.
  - apply String.eqb_eq in Hd. subst dir. reflexivity.
  - cbn [orb]. destruct (Line.ends_with_sep dir) eqn:He.
    + rewrite basename_from_app.
      now rewrite (@basename_from_ends_with_sep dir "" He).
    + rewrite basename_from_app. reflexivity.
Qed.

Lemma basename_no_slash (path : string) :
  contains_char "/" (basename path) = false.
Proof. apply basename_from_no_slash. reflexivity. Qed.

Lemma basename_plain (f : string) :
  contains_char "/" f = false -> basename f = f.
Proof. intros H. unfold basename. now rewrite basename_from_plain. Qed.

End Basename.

Section PrepareAudio.

Open Scope string_scope.

Import Attack.

Variable butter_design :
  Z -> list R -> Signal.btype -> Z -> list Signal.sos_section.
Variable standard_normal : nat -> R.
Variable resample_kernel : list R -> Z -> Z -> list R.
Variable librosa_load_native : string -> list R * Z.
Variable librosa_load : string -> Z -> list R.

Lemma prepare_audio_no_simulator (self : AttackFramework) (path : string) :
  env_simulator self = None ->
  _prepare_audio butter_design standard_normal resample_kernel
                 librosa_load_native librosa_load path self = (Ok path, self).
Proof.
  intros H. unfold _prepare_audio, bindM, get. now rewrite H.
Qed.

Lemma prepare_audio_returns (self self' : AttackFramework) (path out : string)
      (sim : env_simulator_t) :
  env_simulator self = Some sim ->
  _prepare_audio butter_design standard_normal resample_kernel
                 librosa_load_native librosa_load path self = (Ok out, self') ->
  out = "processed_" ++ basename path /\
  self' = mkFramework (config self) (files self) (auth_system self)
                      (env_simulator self)
                      (trace self ++ [WriteAudio out]).
Proof.
  intros Hs. unfold _prepare_audio, bindM, get. rewrite Hs.
  destruct (librosa_load_native path) as [audio sr].
  unfold lift.
  destruct sim as [a | l];
    match goal with
    | |- match ?c with Ok _ => _ | Raise _ => _ end = _ -> _ =>
        destruct c as [processed | e]
    end; try discriminate;
    unfold log, ret; intros H; injection H as <- <-; now rewrite Hs.
Qed.

Lemma prepare_audio_raises (self self' : AttackFramework) (path : string)
      (e : exn) :
  _prepare_audio butter_design standard_normal resample_kernel
                 librosa_load_native librosa_load path self = (Raise e, self') ->
  self' = self.
Proof.
  unfold _prepare_audio, bindM, get.
  destruct (env_simulator self) as [sim|]; [| unfold ret; discriminate].
  destruct (librosa_load_native path) as [audio sr].
  unfold lift.
  destruct sim as [a | l];
    match goal with
    | |- match ?c with Ok _ => _ | Raise _ => _ end = _ -> _ =>
        destruct c as [processed | e']
    end;
    solve [ unfold log, ret; discriminate
          | intros H; now injection H as _ <- ].
Qed.

Lemma prepare_audio_air_low_rate (self : AttackFramework) (path : string)
      (audio : list R) (sr : Z) :
  env_simulator self = Some (AirSim Air.default) ->
  librosa_load_native path = (audio, sr) -> (0 < sr <= 8000)%Z ->
  exists msg,
    _prepare_audio butter_design standard_normal resample_kernel
                   librosa_load_native librosa_load path self =
      (Raise (ValueError msg), self).
Proof.
  intros Hs Hl Hsr.
  destruct (@simulate_default_low_rate butter_design standard_normal audio sr
              Hsr) as (msg & Hm).
  exists msg. unfold _prepare_audio, bindM, get, lift.
  now rewrite Hs, Hl, Hm.
Qed.

(** X10.  Without a simulator [_prepare_audio] hands the path back and
    writes nothing.  With one, whenever it returns, the processed file is
    ["processed_"] followed by the base name of the input path: a name
    without a directory part, the same for every directory the input lies
    in; exactly one file is written and nothing else of the framework
    changes.  When it raises nothing is written.  With the default open-air
    simulator it raises [ValueError] for every file whose native sample rate
    is 8000 Hz or less. *)
Theorem prepare_audio_behaviour (self : AttackFramework) (path : string) :
  (env_simulator self = None ->
   _prepare_audio butter_design standard_normal resample_kernel
                  librosa_load_native librosa_load path self = (Ok path, self))
  /\
  (forall out self',
      env_simulator self <> None ->
      _prepare_audio butter_design standard_normal resample_kernel
                     librosa_load_native librosa_load path self
        = (Ok out, self') ->
      out = "processed_" ++ basename path /\
      contains_char "/" out = false /\
      self' = mkFramework (config self) (files self) (auth_system self)
                          (env_simulator self)
                          (trace self ++ [WriteAudio out])) /\
  (forall dir f, basename (Line.path_join dir f) = basename f) /\
  (forall e self',
      _prepare_audio butter_design standard_normal resample_kernel
                     librosa_load_native librosa_load path self
        = (Raise e, self') ->
      self' = self) /\
  (forall audio sr,
      env_simulator self = Some (AirSim Air.default) ->
      librosa_load_native path = (audio, sr) -> (0 < sr <= 8000)%Z ->
      exists msg,
        _prepare_audio butter_design standard_normal resample_kernel
                       librosa_load_native librosa_load path self =
          (Raise (ValueError msg), self)).
Proof.
  split; [| split; [| split; [| split]]].
  - apply prepare_audio_no_simulator.
  - intros out self' Hs H.
    destruct (env_simulator self) as [sim|] eqn:Hsim; [| contradiction].
    destruct (@prepare_audio_returns self self' path out sim Hsim H)
      as (Hout & Hst).
    split; [exact Hout |]. split; [| now rewrite Hst, Hsim].
    rewrite Hout, contains_char_app, basename_no_slash. reflexivity.
  - apply basename_path_join.
  - intros e self'. apply prepare_audio_raises.
  - intros audio sr. apply prepare_audio_air_low_rate.
Qed.

End PrepareAudio.

Lemma prepare_audio_behaviour_witness :
  Attack.env_simulator
    (Attack.mkFramework demo_config demo_dataset
       (Attack.ClosedSetIdentification (Tasks.ident_init (1 / 2)))
       (Some (Attack.LineSim (Line.init "simulated_environments"))) []) <> None
  /\
  exists out self',
    Attack._prepare_audio demo_butter_design demo_standard_normal
      demo_resample_kernel demo_load_native demo_load "data/id10001/a.wav"
      (Attack.mkFramework demo_config demo_dataset
         (Attack.ClosedSetIdentification (Tasks.ident_init (1 / 2)))
         (Some (Attack.LineSim (Line.init "simulated_environments"))) [])
      = (Ok out, self') /\
    out = "processed_a.wav"%string /\
    contains_char "/" out = false.
Proof.
  assert (Hs : Attack.env_simulator
                 (Attack.mkFramework demo_config demo_dataset
                    (Attack.ClosedSetIdentification (Tasks.ident_init (1 / 2)))
                    (Some (Attack.LineSim (Line.init "simulated_environments")))
                    []) <> None) by discriminate.
  split; [exact Hs |].
  assert (Hrun : exists out self',
             Attack._prepare_audio demo_butter_design demo_standard_normal
               demo_resample_kernel demo_load_native demo_load
               "data/id10001/a.wav"
               (Attack.mkFramework demo_config demo_dataset
                  (Attack.ClosedSetIdentification (Tasks.ident_init (1 / 2)))
                  (Some (Attack.LineSim (Line.init "simulated_environments")))
                  [])
             = (Ok out, self')).
  { unfold Attack._prepare_audio, Attack.bindM, Attack.get, Attack.lift.
    cbn [Attack.env_simulator demo_load_native].
    rewrite (@simulate_environment_named demo_butter_design
               demo_resample_kernel demo_load
               (Line.init "simulated_environments")
               (Line.AudioData [0; 0; 0]%R) "phone" Line.phone None eq_refl).
    destruct (@telephone_returns demo_butter_design demo_resample_kernel
                demo_load (Line.init "simulated_environments") Line.phone
                [0; 0; 0]%R eq_refl eq_refl eq_refl ltac:(discriminate)
                ltac:(simpl; lia)) as (processed & Hp & _).
    rewrite Hp. cbn [bind]. unfold Attack.log, Attack.ret. eauto. }
  destruct Hrun as (out & self' & Hrun).
  exists out, self'. split; [exact Hrun |].
  destruct (proj1 (proj2 (@prepare_audio_behaviour demo_butter_design
                            demo_standard_normal demo_resample_kernel
                            demo_load_native demo_load _ _))
                  out self' Hs Hrun) as (Hout & Hc & _).
  split; [exact Hout | exact Hc].
Defined.

(* ================================================================= *)
(** ** The data loader *)

Section LoaderFacts.

Import DataLoader.

Variable fs : string -> option node.
Variable glob : string -> list string.

Lemma dict_mem_keys (V : Type) (d : dict V) (k : string) :
  dict_mem d k = existsb (String.eqb k) (keys d).
Proof.
  unfold dict_mem, keys.
  induction d as [|[k0 v0] d IH]; simpl; [reflexivity |].
  rewrite (String.eqb_sym k k0).
  destruct (String.eqb k0 k); [reflexivity | exact IH].
Qed.

Lemma keys_dict_extend (d : dict (list string)) (k : string)
      (more : list string) :
  keys (dict_extend d k more) = keys d.
Proof.
  unfold keys. induction d as [|[k0 v0] d IH]; simpl; [reflexivity |].
  destruct (String.eqb k0 k); simpl; [reflexivity | now rewrite IH].
Qed.

Lemma dict_get_extend (d : dict (list string)) (k k' : string)
      (more : list string) :
  dict_get (dict_extend d k more) k' =
    if String.eqb k k' then option_map (fun v => v ++ more) (dict_get d k')
    else dict_get d k'.
Proof.
  induction d as [|[k0 v0] d IH]; simpl.
  - destruct (String.eqb k k'); reflexivity.
  - destruct (String.eqb_spec k0 k) as [-> | Hne]; simpl.
    + destruct (String.eqb k k'); reflexivity.
    + destruct (String.eqb_spec k0 k') as [-> | Hne'].
      * destruct (String.eqb_spec k k'); [congruence | reflexivity].
      * exact IH.
Qed.

Lemma vox_loop (base ext : string) (entries : list node)
      (d : dict (list string)) :
  keys (fold_left (vox_user_step glob base ext) entries d) =
    keys d ++ first_occurrences (keys d) (dir_names entries) /\
  (forall uid,
      dict_get (fold_left (vox_user_step glob base ext) entries d) uid =
        if existsb (String.eqb uid) (dir_names entries)
        then Some (glob (pattern (path_div base uid) ext))
        else dict_get d uid).
Proof.
  revert d. induction entries as [|e entries IH]; intros d; simpl.
  - split; [now rewrite app_nil_r | reflexivity].
  - unfold vox_user_step at 2 4. unfold dir_names. simpl.
    destruct (is_dir e) eqn:He; simpl.
    + destruct (IH (dict_set d (name e)
                      (glob (pattern (path_div base (name e)) ext))))
        as (Hk & Hg).
      fold (dir_names entries). split.
      * rewrite Hk, keys_dict_set.
        destruct (existsb (String.eqb (name e)) (keys d)); [reflexivity |].
        now rewrite <- app_assoc.
      * intros uid. rewrite Hg.
        destruct (existsb (String.eqb uid) (dir_names entries));
          [now rewrite orb_true_r |].
        rewrite orb_false_r.
        destruct (String.eqb_spec uid (name e)) as [-> | Hne].
        -- apply dict_get_set_same.
        -- apply dict_get_set_other. congruence.
    + apply IH.
Qed.

Lemma libri_users_loop (subset ext : string) (users : list node)
      (d : dict (list string)) :
  fold_left (libri_user_step glob subset ext) users d =
    fold_left (libri_dir_step glob ext)
              (map (fun uid => (subset, uid)) (dir_names users)) d.
Proof.
  revert d. induction users as [|u users IH]; intros d; simpl; [reflexivity |].
  unfold libri_user_step at 2. unfold dir_names. simpl.
  destruct (is_dir u); simpl; apply IH.
Qed.

Lemma libri_subsets_loop (base ext : string) (entries : list node)
      (d : dict (list string)) :
  fold_left (libri_subset_step glob base ext) entries d =
    fold_left (libri_dir_step glob ext) (libri_speaker_dirs base entries) d.
Proof.
  revert d. induction entries as [|e entries IH]; intros d; simpl;
    [reflexivity |].
  rewrite fold_left_app, <- IH. f_equal.
  destruct e as [f | subset users]; simpl; [reflexivity |].
  apply libri_users_loop.
Qed.

Lemma libri_dirs_loop (ext : string) (dirs : list (string * string))
      (d : dict (list string)) :
  keys (fold_left (libri_dir_step glob ext) dirs d) =
    keys d ++ first_occurrences (keys d) (map snd dirs) /\
  (forall uid,
      dict_get (fold_left (libri_dir_step glob ext) dirs d) uid =
        match dict_get d uid with
        | Some v => Some (v ++ libri_matches glob ext dirs uid)
        | None =>
            if existsb (String.eqb uid) (map snd dirs)
            then Some (libri_matches glob ext dirs uid)
            else None
        end).
Proof.
  revert d. induction dirs as [|[sub u] dirs IH]; intros d.
  - simpl. split; [now rewrite app_nil_r |].
    intros uid. destruct (dict_get d uid); [now rewrite app_nil_r | reflexivity].
  - cbn [fold_left map snd first_occurrences existsb].
    destruct (IH (libri_dir_step glob ext d (sub, u))) as (Hk & Hg).
    split.
    + rewrite Hk. unfold libri_dir_step. cbn [fst snd].
      rewrite keys_dict_extend, dict_mem_keys.
      destruct (existsb (String.eqb u) (keys d)) eqn:Hu; [reflexivity |].
      rewrite keys_dict_set, Hu, <- app_assoc. reflexivity.
    + intros uid. rewrite Hg. unfold libri_dir_step. cbn [fst snd].
      rewrite dict_get_extend.
      unfold libri_matches. cbn [flat_map fst snd].
      fold (libri_matches glob ext dirs uid).
      rewrite (String.eqb_sym uid u).
      destruct (String.eqb_spec u uid) as [-> | Hne].
      * cbn [orb]. unfold dict_mem.
        destruct (dict_get d uid) as [v|] eqn:Hd.
        -- rewrite Hd. simpl. now rewrite app_assoc.
        -- rewrite dict_get_set_same. simpl. reflexivity.
      * cbn [orb app]. unfold dict_mem.
        destruct (dict_get d u);
          [reflexivity | now rewrite dict_get_set_other].
Qed.

End LoaderFacts.

Section LoaderClaims.

Open Scope string_scope.

Import DataLoader.

(** X12.  For VoxCeleb1 and VoxCeleb2 the loader reads
    [root/data/VoxCeleb1/wav] and [root/data/VoxCeleb2/aac].  When nothing
    is there it has no files; when a regular file is there [__init__] raises
    [NotADirectoryError]; when a directory is there, [get_files] has one key
    per directory in it (other entries are skipped), in listing order, and
    maps the key to what [glob] finds for ["<dir>/**/*.flac"]: the extension
    that is looked for is [flac] for both corpora. *)
Theorem loader_voxceleb_files (fs : string -> option node)
        (glob : string -> list string) (root dataset folder : string)
        (gm : option string) (mode : string) :
  (dataset = "VoxCeleb1" /\ folder = "VoxCeleb1/wav") \/
  (dataset = "VoxCeleb2" /\ folder = "VoxCeleb2/aac") ->
  (fs (path_div (path_div root "data") folder) = None ->
   exists dl, init fs glob root dataset gm mode = Loaded dl /\
              get_files dl = []) /\
  (forall n, fs (path_div (path_div root "data") folder) = Some (File n) ->
             init fs glob root dataset gm mode =
               RaiseNotADirectoryError (path_div (path_div root "data") folder))
  /\
  (forall n entries,
      fs (path_div (path_div root "data") folder) = Some (Dir n entries) ->
      exists dl,
        init fs glob root dataset gm mode = Loaded dl /\
        keys (get_files dl) = first_occurrences [] (dir_names entries) /\
        (forall uid,
            dict_get (get_files dl) uid =
              if existsb (String.eqb uid) (dir_names entries)
              then Some (glob (pattern
                                 (path_div
                                    (path_div (path_div root "data") folder)
                                    uid) "flac"))
              else None)).
Proof.
  intros Hd.
  assert (Hinit : init fs glob root dataset gm mode =
            match _collect_files fs glob dataset folder
                    (path_div (path_div root "data") folder) with
            | Loaded files =>
                Loaded (mkDataLoader dataset folder
                          (path_div (path_div root "data") folder) mode gm files)
            | RaiseValueError msg => RaiseValueError msg
            | RaiseNotADirectoryError p => RaiseNotADirectoryError p
            end).
  { destruct Hd as [[-> ->] | [-> ->]]; reflexivity. }
  assert (Hcollect : _collect_files fs glob dataset folder
                       (path_div (path_div root "data") folder) =
            match fs (path_div (path_div root "data") folder) with
            | None => Loaded []
            | Some (File _) =>
                RaiseNotADirectoryError (path_div (path_div root "data") folder)
            | Some (Dir _ entries) =>
                Loaded (fold_left
                          (vox_user_step glob
                             (path_div (path_div root "data") folder) "flac")
                          entries [])
            end).
  { unfold _collect_files.
    destruct (fs (path_div (path_div root "data") folder)) as [[n | n entries]|];
      destruct Hd as [[-> ->] | [-> ->]]; reflexivity. }
  rewrite Hinit, Hcollect. split; [| split].
  - intros ->. eexists. split; reflexivity.
  - intros n ->. reflexivity.
  - intros n entries ->. eexists. split; [reflexivity |].
    unfold get_files. cbn [_files].
    destruct (vox_loop glob (path_div (path_div root "data") folder) "flac"
                entries []) as (Hk & Hg).
    split; [exact Hk | exact Hg].
Qed.

Lemma loader_voxceleb_files_witness :
  (("VoxCeleb1" = "VoxCeleb1" /\ "VoxCeleb1/wav" = "VoxCeleb1/wav") \/
   ("VoxCeleb1" = "VoxCeleb2" /\ "VoxCeleb1/wav" = "VoxCeleb2/aac")) /\
  demo_fs (path_div (path_div "/repo" "data") "VoxCeleb1/wav") =
    Some (Dir "wav" [Dir "id10001" []; File "README.txt"; Dir "id10002" []]) /\
  exists dl,
    init demo_fs demo_glob "/repo" "VoxCeleb1" None "intergender" = Loaded dl /\
    keys (get_files dl) = ["id10001"; "id10002"] /\
    dict_get (get_files dl) "id10001" =
      Some ["/repo/data/VoxCeleb1/wav/id10001/a/1.flac"] /\
    dict_get (get_files dl) "id10002" = Some [].
Proof.
  assert (Hd : ("VoxCeleb1" = "VoxCeleb1" /\ "VoxCeleb1/wav" = "VoxCeleb1/wav") \/
               ("VoxCeleb1" = "VoxCeleb2" /\ "VoxCeleb1/wav" = "VoxCeleb2/aac"))
    by (left; split; reflexivity).
  assert (Hfs : demo_fs (path_div (path_div "/repo" "data") "VoxCeleb1/wav") =
                Some (Dir "wav" [Dir "id10001" []; File "README.txt";
                                 Dir "id10002" []])) by reflexivity.
  split; [exact Hd |]. split; [exact Hfs |].
  destruct (proj2 (proj2 (@loader_voxceleb_files demo_fs demo_glob "/repo"
                            "VoxCeleb1" "VoxCeleb1/wav" None "intergender" Hd))
                  _ _ Hfs) as (dl & Hinit & Hk & Hg).
  exists dl. split; [exact Hinit |]. split; [exact Hk |].
  split; [exact (Hg "id10001") | exact (Hg "id10002")].
Defined.

(** X13.  For LibriSpeech the loader reads [root/data/LibriSpeech/LibriSpeech]:
    the directories in it are the subsets, the directories in a subset the
    speakers.  [get_files] has one key per speaker name, in the order in
    which the names are first met, and maps a name to the matches of
    ["<subset>/<name>/**/*.flac"] for every subset that has a directory of
    that name, one subset after the other: a speaker found in several
    subsets has the files of all of them. *)
Theorem loader_librispeech_files (fs : string -> option node)
        (glob : string -> list string) (root : string)
        (gm : option string) (mode : string) (n : string)
        (entries : list node) :
  fs (path_div (path_div root "data") "LibriSpeech/LibriSpeech")
    = Some (Dir n entries) ->
  exists dl,
    init fs glob root "LibriSpeech" gm mode = Loaded dl /\
    keys (get_files dl) =
      first_occurrences []
        (map snd (libri_speaker_dirs
                    (path_div (path_div root "data") "LibriSpeech/LibriSpeech")
                    entries)) /\
    (forall uid,
        dict_get (get_files dl) uid =
          if existsb (String.eqb uid)
               (map snd (libri_speaker_dirs
                           (path_div (path_div root "data")
                                     "LibriSpeech/LibriSpeech") entries))
          then Some (libri_matches glob "flac"
                       (libri_speaker_dirs
                          (path_div (path_div root "data")
                                    "LibriSpeech/LibriSpeech") entries) uid)
          else None).
Proof.
  intros Hfs. unfold init. cbn [existsb VALID_DATASETS String.eqb Ascii.eqb
                                Bool.eqb orb andb].
  change (String.eqb "LibriSpeech" "LibriSpeech") with true. cbv iota.
  unfold _collect_files. rewrite Hfs.
  change (String.eqb "LibriSpeech/LibriSpeech" "aac") with false.
  change (String.eqb "LibriSpeech/LibriSpeech" "wav") with false.
  change (String.eqb "LibriSpeech" "LibriSpeech") with true. cbv iota.
  eexists. split; [reflexivity |].
  unfold get_files. cbn [_files].
  rewrite libri_subsets_loop.
  destruct (libri_dirs_loop glob "flac"
              (libri_speaker_dirs
                 (path_div (path_div root "data") "LibriSpeech/LibriSpeech")
                 entries) []) as (Hk & Hg).
  split; [exact Hk | exact Hg].
Qed.

Lemma loader_librispeech_files_witness :
  demo_fs (path_div (path_div "/repo" "data") "LibriSpeech/LibriSpeech") =
    Some (Dir "LibriSpeech"
            [Dir "dev-clean" [Dir "84" []; Dir "174" []]; File "README.TXT";
             Dir "test-clean" [Dir "84" []]]) /\
  exists dl,
    init demo_fs demo_glob "/repo" "LibriSpeech" None "intergender"
      = Loaded dl /\
    keys (get_files dl) = ["84"; "174"] /\
    dict_get (get_files dl) "84" = Some ["dev/84/1.flac"; "test/84/2.flac"].
Proof.
  assert (Hfs : demo_fs (path_div (path_div "/repo" "data")
                                  "LibriSpeech/LibriSpeech") =
                Some (Dir "LibriSpeech"
                        [Dir "dev-clean" [Dir "84" []; Dir "174" []];
                         File "README.TXT"; Dir "test-clean" [Dir "84" []]]))
    by reflexivity.
  split; [exact Hfs |].
  destruct (@loader_librispeech_files demo_fs demo_glob "/repo" None
              "intergender" _ _ Hfs) as (dl & Hinit & Hk & Hg).
  exists dl. split; [exact Hinit |]. split; [exact Hk | exact (Hg "84")].
Defined.

End LoaderClaims.

Section FrameworkClaims.

Open Scope string_scope.

Import DataLoader.

Variable fs : string -> option node.
Variable glob : string -> list string.
Variable constructed : component -> bool.
Variable _get_embedding : string -> option (list R).
Variable butter_design :
  Z -> list R -> Signal.btype -> Z -> list Signal.sos_section.
Variable standard_normal : nat -> R.
Variable resample_kernel : list R -> Z -> Z -> list R.
Variable librosa_load_native : string -> list R * Z.
Variable librosa_load : string -> Z -> list R.
Variable fish_create_model : list string -> string -> string.
Variable fish_generate_audio : string -> string -> string -> string.
Variable openvoice_generate_audio : string -> string -> string -> string.

(** X14.  [AttackFramework] cannot be built for a dataset name other than
    ["VoxCeleb1"], ["VoxCeleb2"] and ["LibriSpeech"], spelled so: the data
    loader raises [ValueError] before any component is constructed.  For an
    identification task it cannot be built with a ["threshold"] among the
    keyword arguments either: once the loader and the cloner are there,
    [TypeError] is raised.  Whenever it is built while nothing lies under
    [root/data], its file mapping is empty and [run_attack] raises the
    "not found" error for every speaker, leaving the framework as it is. *)
Theorem attack_framework_dataset (root : string) (cfg : Attack.AttackConfig)
        (kw_threshold : option R) :
  (~ In (Attack.dataset cfg) VALID_DATASETS ->
   attack_framework fs glob constructed root cfg kw_threshold =
     BuildValueError
       ("Dataset must be one of ['VoxCeleb1', 'VoxCeleb2', 'LibriSpeech'], got "
        ++ Attack.dataset cfg)) /\
  (forall data_loader t,
      init fs glob root (Attack.dataset cfg) None "intergender"
        = Loaded data_loader ->
      Attack.task cfg <> Attack.verification ->
      kw_threshold = Some t ->
      constructed Cloner = true ->
      exists msg,
        attack_framework fs glob constructed root cfg kw_threshold =
          BuildTypeError msg) /\
  (forall framework,
      (forall folder, fs (path_div (path_div root "data") folder) = None) ->
      attack_framework fs glob constructed root cfg kw_threshold = Built framework ->
      Attack.files framework = [] /\
      forall target_speaker_id attack_text,
        Attack.run_attack _get_embedding butter_design standard_normal
          resample_kernel librosa_load_native librosa_load fish_create_model
          fish_generate_audio openvoice_generate_audio
          target_speaker_id attack_text framework =
          (Raise (ValueError
                    ("Speaker " ++ target_speaker_id ++ " not found in dataset")),
           framework)).
Proof.
  split; [| split].
  - intros Hn. unfold attack_framework, init.
    destruct (existsb (String.eqb (Attack.dataset cfg)) VALID_DATASETS) eqn:He;
      [| reflexivity].
    exfalso. apply Hn. now apply existsb_eqb_In.
  - intros data_loader t Hl Ht -> Hc. unfold attack_framework.
    rewrite Hl, Hc. cbn [negb].
    destruct (Attack.task cfg); [contradiction | |]; eauto.
  - intros framework Hfs. unfold attack_framework, init.
    destruct (existsb (String.eqb (Attack.dataset cfg)) VALID_DATASETS);
      [| discriminate].
    unfold _collect_files. rewrite Hfs. cbn [get_files _files].
    assert (Hrun : forall target_speaker_id attack_text,
               Attack.run_attack _get_embedding butter_design standard_normal
                 resample_kernel librosa_load_native librosa_load
                 fish_create_model fish_generate_audio openvoice_generate_audio
                 target_speaker_id attack_text
                 (Attack.init cfg [] kw_threshold) =
               (Raise (ValueError
                         ("Speaker " ++ target_speaker_id
                          ++ " not found in dataset")),
                Attack.init cfg [] kw_threshold)) by reflexivity.
    destruct (constructed Cloner); cbn [negb]; [| discriminate].
    destruct (Attack.task cfg), kw_threshold; try discriminate;
      destruct (constructed Backend); cbn [negb]; try discriminate;
      destruct (Attack.environment cfg) as [[|]|]; try discriminate;
      try (destruct (constructed Simulator); try discriminate);
      intros H; injection H as <-; (split; [reflexivity | exact Hrun]).
Qed.

End FrameworkClaims.

Lemma attack_framework_dataset_witness :
  (~ In (Attack.dataset
           (Attack.mkAttackConfig "librispeech" Attack.openvoice
              Attack.deep_speaker Attack.csi None (1 / 2) 3 2 1))
        DataLoader.VALID_DATASETS /\
   DataLoader.attack_framework demo_fs demo_glob demo_constructed "/repo"
     (Attack.mkAttackConfig "librispeech" Attack.openvoice Attack.deep_speaker
        Attack.csi None (1 / 2) 3 2 1) None =
     DataLoader.BuildValueError
       "Dataset must be one of ['VoxCeleb1', 'VoxCeleb2', 'LibriSpeech'], got librispeech")
  /\
  (exists msg,
     DataLoader.attack_framework demo_fs demo_glob demo_constructed "/repo"
       (Attack.mkAttackConfig "VoxCeleb2" Attack.openvoice Attack.deep_speaker
          Attack.csi None (1 / 2) 3 2 1) (Some (7 / 10)%R) =
       DataLoader.BuildTypeError msg)
  /\
  (exists framework,
     DataLoader.attack_framework (fun _ => None) demo_glob demo_constructed
       "/repo"
       (Attack.mkAttackConfig "VoxCeleb2" Attack.openvoice Attack.deep_speaker
          Attack.csi None (1 / 2) 3 2 1) None = DataLoader.Built framework /\
     Attack.files framework = [] /\
     Attack.run_attack demo_network demo_butter_design demo_standard_normal
       demo_resample_kernel demo_load_native demo_load demo_create_model
       demo_generate_audio demo_generate_audio "id10001" "Hello" framework =
       (Raise (ValueError "Speaker id10001 not found in dataset"), framework)).
Proof.
  assert (Hn : ~ In (Attack.dataset
                       (Attack.mkAttackConfig "librispeech" Attack.openvoice
                          Attack.deep_speaker Attack.csi None (1 / 2) 3 2 1))
                    DataLoader.VALID_DATASETS).
  { simpl. intros [H | [H | [H | []]]]; discriminate. }
  assert (Hl : exists data_loader,
             DataLoader.init demo_fs demo_glob "/repo" "VoxCeleb2" None
               "intergender" = DataLoader.Loaded data_loader)
    by (eexists; reflexivity).
  destruct Hl as (data_loader & Hl).
  assert (Hb : exists framework,
             DataLoader.attack_framework (fun _ => None) demo_glob
               demo_constructed "/repo"
               (Attack.mkAttackConfig "VoxCeleb2" Attack.openvoice
                  Attack.deep_speaker Attack.csi None (1 / 2) 3 2 1) None
             = DataLoader.Built framework)
    by (eexists; reflexivity).
  destruct Hb as (framework & Hb).
  split; [split; [exact Hn |] | split].
  - exact (proj1 (@attack_framework_dataset demo_fs demo_glob
                    demo_constructed demo_network
                    demo_butter_design demo_standard_normal demo_resample_kernel
                    demo_load_native demo_load demo_create_model
                    demo_generate_audio demo_generate_audio "/repo"
                    (Attack.mkAttackConfig "librispeech" Attack.openvoice
                       Attack.deep_speaker Attack.csi None (1 / 2) 3 2 1) None)
                 Hn).
  - refine (proj1 (proj2 (@attack_framework_dataset demo_fs demo_glob
                    demo_constructed demo_network
                    demo_butter_design demo_standard_normal demo_resample_kernel
                    demo_load_native demo_load demo_create_model
                    demo_generate_audio demo_generate_audio "/repo"
                    (Attack.mkAttackConfig "VoxCeleb2" Attack.openvoice
                       Attack.deep_speaker Attack.csi None (1 / 2) 3 2 1)
                    (Some (7 / 10)%R)))
                 data_loader (7 / 10)%R Hl _ eq_refl eq_refl).
    discriminate.
  - exists framework. split; [exact Hb |].
    destruct (proj2 (proj2 (@attack_framework_dataset (fun _ => None)
                    demo_glob demo_constructed demo_network
                    demo_butter_design demo_standard_normal demo_resample_kernel
                    demo_load_native demo_load demo_create_model
                    demo_generate_audio demo_generate_audio "/repo"
                    (Attack.mkAttackConfig "VoxCeleb2" Attack.openvoice
                       Attack.deep_speaker Attack.csi None (1 / 2) 3 2 1) None))
                framework (fun _ => eq_refl) Hb) as (Hf & Hrun).
    split; [exact Hf | exact (Hrun "id10001"%string "Hello"%string)].
Defined.

(* ================================================================= *)
(** ** The remote backend *)

Section AzureFacts.

Import Azure.

Variable service : list request -> request -> option response.
Variable read_file : string -> option string.

Lemma send_state (req : request) (st : state) :
  snd (send service req st) = mkState (this st) (sent st ++ [req]).
Proof. unfold send. destruct (service (sent st) req); reflexivity. Qed.

Lemma create_profile_state (st : state) :
  snd (_create_profile service st) =
    mkState (this st) (sent st ++ [CreateProfile]).
Proof.
  unfold _create_profile.
  pose proof (send_state CreateProfile st) as H.
  destruct (send service CreateProfile st) as [[r | e] st']; simpl in H; subst;
    [| reflexivity].
  destruct (status_code r =? 201)%Z; [| reflexivity].
  destruct (response_json r); reflexivity.
Qed.

Lemma get_profile_status_state (p : pyval) (st : state) :
  snd (_get_profile_status service p st) =
    mkState (this st) (sent st ++ [GetProfile p]).
Proof.
  unfold _get_profile_status.
  pose proof (send_state (GetProfile p) st) as H.
  destruct (send service (GetProfile p) st) as [[r | e] st']; simpl in H; subst;
    [| reflexivity].
  destruct (status_code r =? 200)%Z; [| reflexivity].
  destruct (response_json r); reflexivity.
Qed.

Lemma enroll_single_file_state (f : string) (st : state) :
  snd (_enroll_single_file service read_file f st) = st \/
  exists audio,
    snd (_enroll_single_file service read_file f st) =
      mkState (this st) (sent st ++ [PostEnrollment (profile_id (this st)) audio]).
Proof.
  unfold _enroll_single_file.
  destruct (read_file f) as [audio|]; [| now left].
  right. exists audio.
  pose proof (send_state (PostEnrollment (profile_id (this st)) audio) st) as H.
  destruct (send service (PostEnrollment (profile_id (this st)) audio) st)
    as [[r | e] st']; simpl in H; subst; reflexivity.
Qed.

Lemma enroll_files_state (files : list string) (n : nat) (st : state) :
  exists new,
    snd (enroll_files service read_file files n st) =
      mkState (this st) (sent st ++ new) /\
    Forall (fun req => exists audio,
                req = PostEnrollment (profile_id (this st)) audio) new.
Proof.
  revert n st. induction files as [|f files IH]; intros n st; simpl.
  - exists []. rewrite app_nil_r. destruct st; auto.
  - destruct (_enroll_single_file service read_file f st) as [ok st1] eqn:H1.
    pose proof (enroll_single_file_state f st) as Hs. rewrite H1 in Hs.
    simpl in Hs.
    destruct (IH (if ok then S n else n) st1) as (new & Hst & Hnew).
    destruct Hs as [-> | (audio & ->)].
    + exists new. auto.
    + exists (PostEnrollment (profile_id (this st)) audio :: new).
      simpl in Hst, Hnew. rewrite Hst, <- app_assoc. simpl.
      split; [reflexivity |]. constructor; eauto.
Qed.

Lemma enroll_with_profile_state (files : list string) (st : state) :
  exists new,
    snd (enroll_with_profile service read_file files st) =
      mkState (this st) (sent st ++ new) /\
    Forall (fun req => addressed req = Some (profile_id (this st))) new.
Proof.
  unfold enroll_with_profile.
  destruct (enroll_files_state files 0 st) as (new & Hst & Hnew).
  destruct (enroll_files service read_file files 0 st) as [n st1].
  simpl in Hst. subst st1.
  assert (Hnew' : Forall (fun req => addressed req = Some (profile_id (this st)))
                         new).
  { eapply Forall_impl; [| exact Hnew]. intros req (audio & ->). reflexivity. }
  destruct (0 <? n)%nat.
  - rewrite get_profile_status_state. simpl.
    exists (new ++ [GetProfile (profile_id (this st))]).
    rewrite <- app_assoc. split; [reflexivity |].
    apply Forall_app. split; [exact Hnew' | repeat constructor].
  - exists new. auto.
Qed.

Lemma one_profile_extend (st : state) (new : list request) :
  one_profile st -> truthy (profile_id (this st)) = true ->
  Forall (fun req => addressed req = Some (profile_id (this st))) new ->
  one_profile (mkState (this st) (sent st ++ new)).
Proof.
  intros Hinv Ht Hnew req p Hin Ha. simpl in *.
  apply in_app_iff in Hin. destruct Hin as [Hin | Hin].
  - exact (Hinv req p Hin Ha).
  - rewrite Forall_forall in Hnew. rewrite (Hnew req Hin) in Ha.
    injection Ha as <-. auto.
Qed.

Lemma one_profile_unaddressed (st : state) :
  one_profile st -> truthy (profile_id (this st)) = false ->
  forall req p, In req (sent st) -> addressed req = Some p -> False.
Proof.
  intros Hinv Hf req p Hin Ha. destruct (Hinv req p Hin Ha) as [-> Ht].
  congruence.
Qed.

Lemma enroll_keeps_one_profile (w : Backend.wav_arg) (st : state) :
  one_profile st -> one_profile (snd (enroll service read_file w st)).
Proof.
  intros Hinv. unfold enroll.
  destruct (Backend.as_list w) as [|f files] eqn:Hw; [exact Hinv |].
  destruct (truthy (profile_id (this st))) eqn:Ht; cbn [negb].
  - destruct (enroll_with_profile_state (f :: files) st) as (new & -> & Hnew).
    now apply one_profile_extend.
  - pose proof (create_profile_state st) as Hc.
    destruct (_create_profile service st) as [[created | e] st1];
      simpl in Hc; subst st1.
    + set (st2 := set_profile_id created
                    (mkState (this st) (sent st ++ [CreateProfile]))).
      assert (Hinv2 : one_profile st2).
      { intros req p Hin Ha. exfalso. unfold st2 in Hin. simpl in Hin.
        apply in_app_iff in Hin. destruct Hin as [Hin | [<- | []]].
        - eapply one_profile_unaddressed; eauto.
        - discriminate. }
      destruct (truthy (profile_id (this st2))) eqn:Ht2; cbn [negb];
        [| exact Hinv2].
      destruct (enroll_with_profile_state (f :: files) st2) as (new & -> & Hnew).
      now apply one_profile_extend.
    + intros req p Hin Ha. exfalso. simpl in Hin.
      apply in_app_iff in Hin. destruct Hin as [Hin | [<- | []]].
      * eapply one_profile_unaddressed; eauto.
      * discriminate.
Qed.

Lemma verify_keeps_one_profile (path : string) (st : state) :
  one_profile st -> one_profile (snd (verify service read_file path st)).
Proof.
  intros Hinv. unfold verify.
  destruct (truthy (profile_id (this st))) eqn:Ht; cbn [negb]; [| exact Hinv].
  destruct (read_file path) as [audio|]; [| exact Hinv].
  pose proof (send_state (PostVerify (profile_id (this st)) audio) st) as Hs.
  assert (Hnew : one_profile
                   (mkState (this st)
                      (sent st ++ [PostVerify (profile_id (this st)) audio]))).
  { apply one_profile_extend; auto. }
  destruct (send service (PostVerify (profile_id (this st)) audio) st)
    as [[r | e] st1]; simpl in Hs; subst st1; [| exact Hnew].
  destruct (status_code r =? 200)%Z; [| exact Hnew].
  destruct (response_json r); exact Hnew.
Qed.

Lemma azure_run_one_profile (calls : list azure_call) (st : state) :
  one_profile st -> one_profile (azure_run service read_file calls st).
Proof.
  revert st. induction calls as [|[w | p] calls IH]; intros st Hinv; simpl.
  - exact Hinv.
  - apply IH, enroll_keeps_one_profile, Hinv.
  - apply IH, verify_keeps_one_profile, Hinv.
Qed.

Lemma enroll_on_profile (w : Backend.wav_arg) (st : state) :
  truthy (profile_id (this st)) = true ->
  exists new,
    snd (enroll service read_file w st) = mkState (this st) (sent st ++ new) /\
    Forall (fun req => addressed req = Some (profile_id (this st))) new.
Proof.
  intros Ht. unfold enroll.
  destruct (Backend.as_list w) as [|f files].
  - exists []. rewrite app_nil_r. destruct st; auto.
  - rewrite Ht. cbn [negb]. apply enroll_with_profile_state.
Qed.

Lemma verify_on_profile (path : string) (st : state) :
  truthy (profile_id (this st)) = true ->
  exists new,
    snd (verify service read_file path st) = mkState (this st) (sent st ++ new) /\
    Forall (fun req => addressed req = Some (profile_id (this st))) new.
Proof.
  intros Ht. unfold verify. rewrite Ht. cbn [negb].
  destruct (read_file path) as [audio|].
  - exists [PostVerify (profile_id (this st)) audio].
    split; [| repeat constructor].
    pose proof (send_state (PostVerify (profile_id (this st)) audio) st) as Hs.
    destruct (send service (PostVerify (profile_id (this st)) audio) st)
      as [[r | e] st1]; simpl in Hs; subst st1; [| reflexivity].
    destruct (status_code r =? 200)%Z; [| reflexivity].
    destruct (response_json r); reflexivity.
  - exists []. rewrite app_nil_r. destruct st; auto.
Qed.

Lemma azure_run_on_profile (calls : list azure_call) (st : state) :
  truthy (profile_id (this st)) = true ->
  exists new,
    azure_run service read_file calls st = mkState (this st) (sent st ++ new) /\
    Forall (fun req => addressed req = Some (profile_id (this st))) new.
Proof.
  revert st. induction calls as [|[w | p] calls IH]; intros st Ht; simpl.
  - exists []. rewrite app_nil_r. destruct st; auto.
  - destruct (enroll_on_profile w st Ht) as (new1 & -> & H1).
    destruct (IH (mkState (this st) (sent st ++ new1)) Ht) as (new2 & -> & H2).
    exists (new1 ++ new2). simpl. rewrite <- app_assoc.
    split; [reflexivity | apply Forall_app; auto].
  - destruct (verify_on_profile p st Ht) as (new1 & -> & H1).
    destruct (IH (mkState (this st) (sent st ++ new1)) Ht) as (new2 & -> & H2).
    exists (new1 ++ new2). simpl. rewrite <- app_assoc.
    split; [reflexivity | apply Forall_app; auto].
Qed.

End AzureFacts.

Section AzureClaims.

Open Scope string_scope.

Import Azure.

(** X15.  One [AzureSpeakerVerification] object addresses one profile.
    After any sequence of [enroll] and [verify] calls on a new object, every
    request that was made for a profile was made for the profile that the
    object holds; and once the object holds a profile, no call replaces it
    or creates another: every later request, for whichever speaker's
    samples, addresses that profile. *)
Theorem azure_single_profile
        (service : list request -> request -> option response)
        (read_file : string -> option string)
        (key : option string) (region : string) (calls : list azure_call) :
  one_profile (azure_run service read_file calls
                         (mkState (init key region) [])) /\
  (forall st,
      truthy (profile_id (this st)) = true ->
      exists new,
        azure_run service read_file calls st =
          mkState (this st) (sent st ++ new) /\
        Forall (fun req => addressed req = Some (profile_id (this st))) new).
Proof.
  split.
  - apply azure_run_one_profile. intros req p [].
  - intros st. apply azure_run_on_profile.
Qed.

Lemma azure_single_profile_witness :
  truthy (profile_id (this (mkState (mkAzure None "eastus" (PyStr "p1")) [])))
    = true /\
  exists new,
    azure_run demo_service demo_read_file
      [CallEnroll (Backend.FileList ["bob.wav"]); CallVerify "probe.wav"]
      (mkState (mkAzure None "eastus" (PyStr "p1")) []) =
      mkState (mkAzure None "eastus" (PyStr "p1")) ([] ++ new) /\
    Forall (fun req => addressed req = Some (PyStr "p1")) new.
Proof.
  split; [reflexivity |].
  exact (proj2 (@azure_single_profile demo_service demo_read_file None "eastus"
                  [CallEnroll (Backend.FileList ["bob.wav"]);
                   CallVerify "probe.wav"])
               (mkState (mkAzure None "eastus" (PyStr "p1")) []) eq_refl).
Defined.

(** X16.  The guards of the remote backend.  [enroll] of an empty list
    returns [None] and [verify] without a profile returns [False], both
    without a request.  When the object has no profile and the service does
    not answer the creation request with status 201, [enroll] returns [None]
    after that one request: no sample is sent.  When the object has a
    profile and no file of the list can be read, [enroll] returns [None]
    without a request. *)
Theorem azure_enroll_verify_guards
        (service : list request -> request -> option response)
        (read_file : string -> option string) (st : state) :
  enroll service read_file (Backend.FileList []) st = (Return PyNone, st) /\
  (forall path,
      truthy (profile_id (this st)) = false ->
      verify service read_file path st = (Return (PyBool false), st)) /\
  (forall w r,
      truthy (profile_id (this st)) = false -> Backend.as_list w <> [] ->
      service (sent st) CreateProfile = Some r -> status_code r <> 201%Z ->
      enroll service read_file w st =
        (Return PyNone,
         mkState (mkAzure (subscription_key (this st)) (region (this st)) PyNone)
                 (sent st ++ [CreateProfile]))) /\
  (forall w,
      truthy (profile_id (this st)) = true ->
      (forall f, In f (Backend.as_list w) -> read_file f = None) ->
      enroll service read_file w st = (Return PyNone, st)).
Proof.
  split; [reflexivity |]. split; [| split].
  - intros path Ht. unfold verify. now rewrite Ht.
  - intros w r Ht Hw Hs Hc. unfold enroll.
    destruct (Backend.as_list w) as [|f files]; [contradiction |].
    rewrite Ht. cbn [negb]. unfold _create_profile, send. rewrite Hs.
    apply Z.eqb_neq in Hc. rewrite Hc. reflexivity.
  - intros w Ht Hr. unfold enroll.
    destruct (Backend.as_list w) as [|f files]; [reflexivity |].
    rewrite Ht. cbn [negb]. unfold enroll_with_profile.
    assert (Hloop : forall l n s,
               (forall x, In x l -> read_file x = None) ->
               enroll_files service read_file l n s = (n, s)).
    { induction l as [|x l IH]; intros n s Hl; simpl; [reflexivity |].
      unfold _enroll_single_file. rewrite (Hl x) by (now left).
      apply IH. intros y Hy. apply Hl. now right. }
    rewrite (Hloop (f :: files) 0%nat st Hr). reflexivity.
Qed.

Lemma azure_enroll_verify_guards_witness :
  truthy (profile_id (this (mkState (init None "eastus") []))) = false /\
  Backend.as_list (Backend.OneFile "alice.wav") <> [] /\
  demo_service_down (sent (mkState (init None "eastus") [])) CreateProfile =
    Some (mkResponse 401 None) /\
  status_code (mkResponse 401 None) <> 201%Z /\
  enroll demo_service_down demo_read_file (Backend.OneFile "alice.wav")
         (mkState (init None "eastus") []) =
    (Return PyNone, mkState (mkAzure None "eastus" PyNone) [CreateProfile]).
Proof.
  assert (Hw : Backend.as_list (Backend.OneFile "alice.wav") <> [])
    by discriminate.
  assert (Hc : status_code (mkResponse 401 None) <> 201%Z) by discriminate.
  split; [reflexivity |]. split; [exact Hw |]. split; [reflexivity |].
  split; [exact Hc |].
  exact (proj1 (proj2 (proj2 (@azure_enroll_verify_guards demo_service_down
                                demo_read_file
                                (mkState (init None "eastus") []))))
               (Backend.OneFile "alice.wav") (mkResponse 401 None)
               eq_refl Hw eq_refl Hc).
Defined.

(** X17.  On the remote backend [verify] returns one value, not a pair, and
    both [identify] methods unpack it into two: on a roster that is not
    empty they raise whatever the unpacking raises.  In particular, while
    the object has no profile (nothing enrolled, or the profile could not be
    created) [verify] returns [False] and [identify] raises [TypeError]; and
    the answers ["Accept"] and ["Reject"] of the service, strings of six
    characters, make it raise [ValueError]. *)
Theorem azure_identify_raises
        (service : list request -> request -> option response)
        (read_file : string -> option string)
        (self : AzureTasks.ident) (path : string) (st : state) :
  AzureTasks.enrolled_speakers self <> [] ->
  (forall r st' e,
      verify service read_file path st = (Return r, st') ->
      AzureTasks.unpack2 r = Throw e ->
      AzureTasks.osi_identify service read_file self path st = (Throw e, st') /\
      AzureTasks.csi_identify service read_file self path st = (Throw e, st'))
  /\
  (truthy (profile_id (this st)) = false ->
   AzureTasks.osi_identify service read_file self path st
     = (Throw TypeError, st) /\
   AzureTasks.csi_identify service read_file self path st
     = (Throw TypeError, st)) /\
  (forall b, AzureTasks.unpack2 (PyBool b) = Throw TypeError) /\
  AzureTasks.unpack2 (PyStr "Accept") = Throw ValueError /\
  AzureTasks.unpack2 (PyStr "Reject") = Throw ValueError.
Proof.
  intros Hr.
  assert (Hgen : forall r st' e,
             verify service read_file path st = (Return r, st') ->
             AzureTasks.unpack2 r = Throw e ->
             AzureTasks.osi_identify service read_file self path st
               = (Throw e, st') /\
             AzureTasks.csi_identify service read_file self path st
               = (Throw e, st')).
  { intros r st' e Hv Hu.
    unfold AzureTasks.osi_identify, AzureTasks.csi_identify.
    destruct (AzureTasks.enrolled_speakers self) as [|first rest];
      [contradiction |].
    rewrite Hv, Hu. split; reflexivity. }
  split; [exact Hgen |]. split; [| split; [| split]]; try reflexivity.
  intros Ht. apply (Hgen (PyBool false) st TypeError); [| reflexivity].
  unfold verify. now rewrite Ht.
Qed.

Lemma azure_identify_raises_witness :
  AzureTasks.enroll_speaker demo_service_down demo_read_file
    (AzureTasks.mkIdent [] (1 / 2)) "alice" ["alice.wav"]
    (mkState (init None "eastus") []) =
    (Return (PyNone, AzureTasks.mkIdent [("alice", PyNone)] (1 / 2)),
     mkState (mkAzure None "eastus" PyNone) [CreateProfile]) /\
  AzureTasks.enrolled_speakers (AzureTasks.mkIdent [("alice", PyNone)] (1 / 2))
    <> [] /\
  truthy (profile_id (this (mkState (mkAzure None "eastus" PyNone)
                                    [CreateProfile]))) = false /\
  AzureTasks.osi_identify demo_service_down demo_read_file
    (AzureTasks.mkIdent [("alice", PyNone)] (1 / 2)) "probe.wav"
    (mkState (mkAzure None "eastus" PyNone) [CreateProfile]) =
    (Throw TypeError, mkState (mkAzure None "eastus" PyNone) [CreateProfile]).
Proof.
  assert (Hr : AzureTasks.enrolled_speakers
                 (AzureTasks.mkIdent [("alice", PyNone)] (1 / 2)) <> [])
    by discriminate.
  split; [reflexivity |]. split; [exact Hr |]. split; [reflexivity |].
  exact (proj1 (proj1 (proj2 (@azure_identify_raises demo_service_down
                                demo_read_file
                                (AzureTasks.mkIdent [("alice", PyNone)] (1 / 2))
                                "probe.wav"
                                (mkState (mkAzure None "eastus" PyNone)
                                         [CreateProfile]) Hr))
                      eq_refl)).
Defined.

End AzureClaims.
(* ================================================================= *)
(** ** The open-air simulator as a filter *)

Section AirLinear.

Open Scope R_scope.

Import Signal Air.

Variable butter_design : Z -> list R -> btype -> Z -> list sos_section.

Lemma zip_with_firstn (f : R -> R -> R) (a b : list R) (k : nat) :
  firstn k (zip_with f a b) = zip_with f (firstn k a) (firstn k b).
Proof.
  revert a b. induction k as [|k IH]; intros [|x a] [|y b]; simpl;
    try reflexivity.
  now rewrite IH.
Qed.

Lemma add_padded_zip (p p' q q' : list R) :
  length p = length p' -> length q = length q' ->
  add_padded (zip_with Rplus p p') (zip_with Rplus q q') =
    zip_with Rplus (add_padded p q) (add_padded p' q').
Proof.
  revert p' q q'. induction p as [|x p IH]; intros [|x' p'] q q' Hp Hq;
    try discriminate.
  - reflexivity.
  - destruct q as [|y q]; destruct q' as [|y' q']; try discriminate.
    + reflexivity.
    + simpl. injection Hp as Hp. injection Hq as Hq.
      rewrite (IH p' q q' Hp Hq). f_equal. lra.
Qed.

Lemma map_scale_add (x y : R) (v : list R) :
  map (fun z => (x + y) * z) v =
    zip_with Rplus (map (fun z => x * z) v) (map (fun z => y * z) v).
Proof.
  induction v as [|z v IH]; simpl; [reflexivity |].
  rewrite IH. f_equal. lra.
Qed.

Lemma convolve_full_same_length (a b v : list R) :
  length a = length b ->
  length (convolve_full a v) = length (convolve_full b v).
Proof.
  revert b. induction a as [|x a IH]; intros [|y b] H; try discriminate;
    [reflexivity |].
  simpl. rewrite !add_padded_length, !length_map. simpl.
  injection H as H. now rewrite (IH b H).
Qed.

Lemma convolve_full_add (a b v : list R) :
  length a = length b ->
  convolve_full (zip_with Rplus a b) v =
    zip_with Rplus (convolve_full a v) (convolve_full b v).
Proof.
  revert b. induction a as [|x a IH]; intros [|y b] H; try discriminate;
    [reflexivity |].
  injection H as H. simpl.
  rewrite (IH b H), map_scale_add.
  replace (0 :: zip_with Rplus (convolve_full a v) (convolve_full b v))
    with (zip_with Rplus (0 :: convolve_full a v) (0 :: convolve_full b v))
    by (simpl; f_equal; lra).
  apply add_padded_zip.
  - now rewrite !length_map.
  - simpl. f_equal. now apply convolve_full_same_length.
Qed.

Lemma biquad_add (c : sos_section) (x y : list R) (z0 z1 z0' z1' : R) :
  length x = length y ->
  biquad c (z0 + z0') (z1 + z1') (zip_with Rplus x y) =
    zip_with Rplus (biquad c z0 z1 x) (biquad c z0' z1' y).
Proof.
  revert y z0 z1 z0' z1'.
  induction x as [|s x IH]; intros [|t y] z0 z1 z0' z1' H; try discriminate;
    [reflexivity |].
  injection H as H. simpl. f_equal; [lra |].
  rewrite <- (IH y _ _ _ _ H). f_equal; lra.
Qed.

Lemma sos_cascade_add (sos : list sos_section) (x y : list R) :
  length x = length y ->
  sos_cascade sos (zip_with Rplus x y) =
    zip_with Rplus (sos_cascade sos x) (sos_cascade sos y).
Proof.
  unfold sos_cascade. revert x y.
  induction sos as [|c sos IH]; intros x y H; simpl; [reflexivity |].
  replace (biquad c 0 0 (zip_with Rplus x y))
    with (zip_with Rplus (biquad c 0 0 x) (biquad c 0 0 y)).
  - apply IH. now rewrite !biquad_length.
  - rewrite <- (biquad_add c x y 0 0 0 0 H). f_equal; lra.
Qed.

Lemma add_padded_firstn (p q : list R) (n : nat) :
  firstn n (add_padded p q) = add_padded (firstn n p) (firstn n q).
Proof.
  revert p q. induction n as [|n IH]; intros [|x p] [|y q]; simpl;
    try reflexivity.
  now rewrite IH.
Qed.

Lemma convolve_full_firstn (a v : list R) (k : nat) :
  firstn k (convolve_full a v) = firstn k (convolve_full (firstn k a) v).
Proof.
  revert a. induction k as [|k IH]; intros a; [reflexivity |].
  destruct a as [|x a]; [reflexivity |].
  rewrite firstn_cons.
  change (convolve_full (x :: a) v)
    with (add_padded (map (fun y => x * y) v) (0 :: convolve_full a v)).
  change (convolve_full (x :: firstn k a) v)
    with (add_padded (map (fun y => x * y) v)
                     (0 :: convolve_full (firstn k a) v)).
  rewrite !add_padded_firstn, !firstn_cons. now rewrite IH.
Qed.

Lemma biquad_firstn (c : sos_section) (x : list R) (z0 z1 : R) (k : nat) :
  firstn k (biquad c z0 z1 x) = biquad c z0 z1 (firstn k x).
Proof.
  revert x z0 z1. induction k as [|k IH]; intros [|s x] z0 z1; simpl;
    try reflexivity.
  now rewrite IH.
Qed.

Lemma sos_cascade_firstn (sos : list sos_section) (x : list R) (k : nat) :
  firstn k (sos_cascade sos x) = sos_cascade sos (firstn k x).
Proof.
  unfold sos_cascade. revert x.
  induction sos as [|c sos IH]; intros x; simpl; [reflexivity |].
  now rewrite IH, biquad_firstn.
Qed.


Lemma add_padded_scale (k : R) (p q : list R) :
  add_padded (map (fun x => k * x) p) (map (fun x => k * x) q) =
    map (fun x => k * x) (add_padded p q).
Proof.
  revert q. induction p as [|x p IH]; intros [|y q]; simpl; try reflexivity.
  rewrite IH. f_equal. lra.
Qed.

Lemma convolve_full_scale (k : R) (a v : list R) :
  convolve_full (map (fun x => k * x) a) v =
    map (fun x => k * x) (convolve_full a v).
Proof.
  induction a as [|x a IH]; simpl; [reflexivity |].
  rewrite IH, <- add_padded_scale. simpl. rewrite map_map. f_equal.
  - apply map_ext. intros y. lra.
  - f_equal. lra.
Qed.

Lemma biquad_scale (c : sos_section) (k : R) (x : list R) (z0 z1 : R) :
  biquad c (k * z0) (k * z1) (map (fun s => k * s) x) =
    map (fun s => k * s) (biquad c z0 z1 x).
Proof.
  revert z0 z1. induction x as [|s x IH]; intros z0 z1; simpl; [reflexivity |].
  f_equal; [lra |]. rewrite <- IH. f_equal; lra.
Qed.

Lemma sos_cascade_scale (sos : list sos_section) (k : R) (x : list R) :
  sos_cascade sos (map (fun s => k * s) x) = map (fun s => k * s) (sos_cascade sos x).
Proof.
  unfold sos_cascade. revert x.
  induction sos as [|c sos IH]; intros x; simpl; [reflexivity |].
  rewrite <- IH. f_equal.
  rewrite <- (biquad_scale c k x 0 0). f_equal; lra.
Qed.

Lemma zip_with_zeros_r (a z : list R) :
  length a = length z -> Forall (fun x => x = 0) z -> zip_with Rplus a z = a.
Proof.
  revert z. induction a as [|x a IH]; intros [|y z] H Hz; try discriminate;
    [reflexivity |].
  inversion Hz as [|? ? Hy Hz']; subst. injection H as H. simpl.
  rewrite (IH z H Hz'). f_equal. lra.
Qed.

Variable standard_normal : nat -> R.

Lemma simulate_eq (sn : nat -> R) (self : AirEnvironmentSimulator)
      (audio : list R) (sr : Z) :
  simulate butter_design sn self audio sr =
    (room_ir <- room_response self sr ;;
     full <- np_convolve audio room_ir ;;
     noise <- np_random_normal sn 0 (noise_level self) (length audio) ;;
     sos <- butter butter_design (filter_order self) [lowpass_freq self] low sr ;;
     degraded <- sosfilt sos
                   (zip_with Rplus (firstn (length audio) full) noise) ;;
     Ok degraded).
Proof.
  unfold simulate, room_response.
  destruct (np_zeros sr) as [ir0 | e]; [| reflexivity]. cbn [bind].
  destruct (np_setitem ir0 0 1) as [ir1 | e]; reflexivity.
Qed.

Lemma simulate_parts (sn : nat -> R) (self : AirEnvironmentSimulator)
      (audio out : list R) (sr : Z) :
  simulate butter_design sn self audio sr = Ok out ->
  exists ir sos,
    room_response self sr = Ok ir /\ ir <> [] /\ audio <> [] /\
    ~ noise_level self < 0 /\
    butter butter_design (filter_order self) [lowpass_freq self] low sr
      = Ok sos /\
    out = sos_cascade sos
            (zip_with Rplus (firstn (length audio) (convolve_full audio ir))
               (map (fun i => 0 + noise_level self * sn i)
                    (seq 0 (length audio)))).
Proof.
  rewrite simulate_eq.
  destruct (room_response self sr) as [ir | e]; [| discriminate]. cbn [bind].
  destruct audio as [|x audio].
  { destruct (@np_convolve_empty [] ir (or_introl eq_refl)) as (msg & ->).
    discriminate. }
  destruct ir as [|y ir].
  { destruct (@np_convolve_empty (x :: audio) [] (or_intror eq_refl))
      as (msg & ->).
    discriminate. }
  rewrite np_convolve_nonempty by discriminate. cbn [bind].
  unfold np_random_normal.
  destruct (Rlt_dec (noise_level self) 0) as [Hn | Hn]; [discriminate |].
  cbn [bind].
  destruct (butter butter_design (filter_order self) [lowpass_freq self] low sr)
    as [sos | e]; [| discriminate]. cbn [bind].
  rewrite sosfilt_nonempty by (apply noisy_nonempty; discriminate).
  cbn [bind].
  intros H. injection H as <-.
  exists (y :: ir), sos. repeat split; try discriminate; auto.
Qed.

Lemma simulate_from_parts (sn : nat -> R) (self : AirEnvironmentSimulator)
      (audio ir : list R) (sos : list sos_section) (sr : Z) :
  room_response self sr = Ok ir -> ir <> [] -> audio <> [] ->
  ~ noise_level self < 0 ->
  butter butter_design (filter_order self) [lowpass_freq self] low sr = Ok sos ->
  simulate butter_design sn self audio sr =
    Ok (sos_cascade sos
          (zip_with Rplus (firstn (length audio) (convolve_full audio ir))
             (map (fun i => 0 + noise_level self * sn i)
                  (seq 0 (length audio))))).
Proof.
  intros Hir Hne Ha Hn Hb. rewrite simulate_eq, Hir. cbn [bind].
  rewrite np_convolve_nonempty by assumption. cbn [bind].
  unfold np_random_normal.
  destruct (Rlt_dec (noise_level self) 0) as [Hn' | _]; [contradiction |].
  cbn [bind]. rewrite Hb. cbn [bind].
  rewrite sosfilt_nonempty by (apply noisy_nonempty; assumption).
  reflexivity.
Qed.

Lemma firstn_seq_le (k s n : nat) :
  (k <= n)%nat -> firstn k (seq s n) = seq s k.
Proof.
  revert s n. induction k as [|k IH]; intros s [|n] H; simpl;
    try reflexivity; try lia.
  f_equal. apply IH. lia.
Qed.

Lemma simulate_causal (self : AirEnvironmentSimulator) (audio out : list R)
      (sr : Z) (k : nat) :
  simulate butter_design standard_normal self audio sr = Ok out ->
  (0 < k <= length audio)%nat ->
  simulate butter_design standard_normal self (firstn k audio) sr =
    Ok (firstn k out).
Proof.
  intros H Hk. apply simulate_parts in H.
  destruct H as (ir & sos & Hir & Hne & Ha & Hn & Hb & ->).
  assert (Hlen : length (firstn k audio) = k)
    by (rewrite length_firstn; lia).
  rewrite (@simulate_from_parts standard_normal self (firstn k audio) ir sos sr);
    auto.
  - f_equal. rewrite sos_cascade_firstn, zip_with_firstn. f_equal. rewrite Hlen.
    f_equal.
    + rewrite firstn_firstn, <- convolve_full_firstn.
      now rewrite Nat.min_l by lia.
    + rewrite firstn_map, firstn_seq_le by lia. reflexivity.
  - destruct audio as [|x audio]; [contradiction |].
    destruct k; [lia | discriminate].
Qed.

Lemma noise_free (sn : nat -> R) (level : R) (n : nat) :
  level = 0 ->
  Forall (fun x => x = 0) (map (fun i => 0 + level * sn i) (seq 0 n)).
Proof.
  intros ->. apply Forall_forall. intros x Hx.
  apply in_map_iff in Hx. destruct Hx as (i & <- & _). lra.
Qed.

Lemma simulate_noise_free (sn : nat -> R) (self : AirEnvironmentSimulator)
      (audio out : list R) (sr : Z) :
  noise_level self = 0 ->
  simulate butter_design sn self audio sr = Ok out ->
  exists ir sos,
    room_response self sr = Ok ir /\ ir <> [] /\ audio <> [] /\
    butter butter_design (filter_order self) [lowpass_freq self] low sr
      = Ok sos /\
    out = sos_cascade sos (firstn (length audio) (convolve_full audio ir)).
Proof.
  intros H0 H. apply simulate_parts in H.
  destruct H as (ir & sos & Hir & Hne & Ha & Hn & Hb & ->).
  exists ir, sos. repeat split; auto.
  rewrite zip_with_zeros_r; [reflexivity | | now apply noise_free].
  rewrite length_map, length_seq, length_firstn.
  rewrite convolve_full_length by assumption.
  destruct ir; [contradiction | simpl; lia].
Qed.

Lemma simulate_noise_free_from (sn : nat -> R) (self : AirEnvironmentSimulator)
      (audio ir : list R) (sos : list sos_section) (sr : Z) :
  noise_level self = 0 ->
  room_response self sr = Ok ir -> ir <> [] -> audio <> [] ->
  butter butter_design (filter_order self) [lowpass_freq self] low sr = Ok sos ->
  simulate butter_design sn self audio sr =
    Ok (sos_cascade sos (firstn (length audio) (convolve_full audio ir))).
Proof.
  intros H0 Hir Hne Ha Hb.
  rewrite (@simulate_from_parts sn self audio ir sos sr); auto; [| lra].
  f_equal. f_equal.
  rewrite zip_with_zeros_r; [reflexivity | | now apply noise_free].
  rewrite length_map, length_seq, length_firstn.
  rewrite convolve_full_length by assumption.
  destruct ir; [contradiction | simpl; lia].
Qed.


Lemma simulate_additive (self : AirEnvironmentSimulator)
      (a b oa ob : list R) (sr : Z) :
  noise_level self = 0 -> length b = length a ->
  simulate butter_design standard_normal self a sr = Ok oa ->
  simulate butter_design standard_normal self b sr = Ok ob ->
  simulate butter_design standard_normal self (zip_with Rplus a b) sr =
    Ok (zip_with Rplus oa ob).
Proof.
  intros H0 Hlen Ha Hb.
  apply (@simulate_noise_free standard_normal self a oa sr H0) in Ha.
  apply (@simulate_noise_free standard_normal self b ob sr H0) in Hb.
  destruct Ha as (ir & sos & Hir & Hne & Hna & Hbut & ->).
  destruct Hb as (ir' & sos' & Hir' & _ & Hnb & Hbut' & ->).
  assert (ir' = ir) by congruence. assert (sos' = sos) by congruence.
  subst ir' sos'.
  assert (Hab : length (zip_with Rplus a b) = length a)
    by (apply zip_with_length; congruence).
  rewrite (@simulate_noise_free_from standard_normal self (zip_with Rplus a b)
             ir sos sr H0 Hir Hne); auto.
  - f_equal. rewrite Hab, convolve_full_add by congruence.
    rewrite zip_with_firstn, Hlen.
    apply sos_cascade_add.
    rewrite !length_firstn, !convolve_full_length by assumption.
    rewrite Hlen. reflexivity.
  - intros Hnil. rewrite Hnil in Hab. destruct a; [contradiction | discriminate].
Qed.

Lemma simulate_homogeneous (self : AirEnvironmentSimulator)
      (a oa : list R) (sr : Z) (k : R) :
  noise_level self = 0 ->
  simulate butter_design standard_normal self a sr = Ok oa ->
  simulate butter_design standard_normal self (map (fun x => k * x) a) sr =
    Ok (map (fun x => k * x) oa).
Proof.
  intros H0 Ha.
  apply (@simulate_noise_free standard_normal self a oa sr H0) in Ha.
  destruct Ha as (ir & sos & Hir & Hne & Hna & Hbut & ->).
  rewrite (@simulate_noise_free_from standard_normal self
             (map (fun x => k * x) a) ir sos sr H0 Hir Hne); auto.
  - f_equal. rewrite length_map, convolve_full_scale, firstn_map.
    apply sos_cascade_scale.
  - destruct a; [contradiction | discriminate].
Qed.

Lemma simulate_draws (self : AirEnvironmentSimulator) (a oa : list R) (sr : Z)
      (sn : nat -> R) :
  noise_level self = 0 ->
  simulate butter_design standard_normal self a sr = Ok oa ->
  simulate butter_design sn self a sr = Ok oa.
Proof.
  intros H0 Ha.
  apply (@simulate_noise_free standard_normal self a oa sr H0) in Ha.
  destruct Ha as (ir & sos & Hir & Hne & Hna & Hbut & ->).
  now apply simulate_noise_free_from.
Qed.

End AirLinear.

Section AirLinearClaims.

Open Scope R_scope.

Import Signal Air.

(** X18.  [simulate] is causal: on the first [k] samples of an audio it
    returns the first [k] samples of what it returns on the whole audio (for
    the same noise draws).  With [noise_level = 0] its result does not depend
    on the draws, and it is linear: the result for the sum of two audios of
    one length is the sum of the results, and the result for a scaled audio
    is the scaled result. *)
Theorem air_simulate_linear_causal
        (butter_design : Z -> list R -> btype -> Z -> list sos_section)
        (standard_normal : nat -> R)
        (self : AirEnvironmentSimulator) (audio out : list R) (sr : Z) :
  simulate butter_design standard_normal self audio sr = Ok out ->
  (forall k, (0 < k <= length audio)%nat ->
     simulate butter_design standard_normal self (firstn k audio) sr =
       Ok (firstn k out)) /\
  (noise_level self = 0 ->
   (forall draws, simulate butter_design draws self audio sr = Ok out) /\
   (forall audio' out',
       length audio' = length audio ->
       simulate butter_design standard_normal self audio' sr = Ok out' ->
       simulate butter_design standard_normal self
                (zip_with Rplus audio audio') sr =
         Ok (zip_with Rplus out out')) /\
   (forall k,
       simulate butter_design standard_normal self
                (map (fun x => k * x) audio) sr =
         Ok (map (fun x => k * x) out))).
Proof.
  intros H. split.
  - intros k Hk. now apply simulate_causal.
  - intros H0. split; [| split].
    + intros draws. eapply simulate_draws; eauto.
    + intros audio' out' Hlen H'. now apply simulate_additive.
    + intros k. now apply simulate_homogeneous.
Qed.

Lemma air_simulate_linear_causal_witness :
  exists out,
    simulate demo_butter_design demo_standard_normal Air.default
             [1; 2; 3] 16000 = Ok out /\
    simulate demo_butter_design demo_standard_normal Air.default
             (firstn 2 [1; 2; 3]) 16000 = Ok (firstn 2 out).
Proof.
  destruct (@simulate_returns demo_butter_design demo_standard_normal
              Air.default [1; 2; 3] 16000%Z) as (out & Hout).
  - discriminate.
  - lia.
  - unfold Air.default, Air.init, default_reverb_delays. simpl.
    repeat constructor; simpl; lra.
  - simpl. lra.
  - simpl. lra.
  - exists out. split; [exact Hout |].
    apply (proj1 (@air_simulate_linear_causal demo_butter_design
                    demo_standard_normal Air.default [1; 2; 3] out 16000%Z
                    Hout)).
    simpl. lia.
Defined.

End AirLinearClaims.


(** ** The attack run without enrollment files *)

Section OpenVoiceEdge.

Open Scope string_scope.

Import Backend Tasks Attack.

Variable _get_embedding : string -> option (list R).
Variable butter_design :
  Z -> list R -> Signal.btype -> Z -> list Signal.sos_section.
Variable standard_normal : nat -> R.
Variable resample_kernel : list R -> Z -> Z -> list R.
Variable librosa_load_native : string -> list R * Z.
Variable librosa_load : string -> Z -> list R.
Variable fish_create_model : list string -> string -> string.
Variable fish_generate_audio : string -> string -> string -> string.
Variable openvoice_generate_audio : string -> string -> string -> string.

Lemma test_real_unenrolled (cfg : AttackConfig) (data : dict (list string))
      (thr : R) (id : string) (tr : list event) (f : string) :
  environment cfg = None -> task cfg <> verification ->
  exists t,
    test_real _get_embedding butter_design standard_normal resample_kernel
      librosa_load_native librosa_load f
      (mkFramework cfg data
         (match task cfg with
          | csi => ClosedSetIdentification (unenrolled thr id)
          | _ => OpenSetIdentification (unenrolled thr id)
          end) None tr) =
    (Ok t,
     mkFramework cfg data
       (match task cfg with
        | csi => ClosedSetIdentification (unenrolled thr id)
        | _ => OpenSetIdentification (unenrolled thr id)
        end) None (tr ++ [TestCall f])%list).
Proof.
  intros He Ht.
  unfold test_real, _prepare_audio, submit, bindM, get, ret, log, lift.
  cbn [env_simulator config auth_system files trace].
  destruct (task cfg); [contradiction | |]; cbn; eauto.
Qed.

Lemma for_each_unenrolled (cfg : AttackConfig) (data : dict (list string))
      (thr : R) (id : string) (l : list string) (tr : list event) :
  environment cfg = None -> task cfg <> verification ->
  exists ts,
    for_each l
      (test_real _get_embedding butter_design standard_normal resample_kernel
                 librosa_load_native librosa_load)
      (mkFramework cfg data
         (match task cfg with
          | csi => ClosedSetIdentification (unenrolled thr id)
          | _ => OpenSetIdentification (unenrolled thr id)
          end) None tr) =
    (Ok ts,
     mkFramework cfg data
       (match task cfg with
        | csi => ClosedSetIdentification (unenrolled thr id)
        | _ => OpenSetIdentification (unenrolled thr id)
        end) None (tr ++ map TestCall l)%list).
Proof.
  intros He Ht. revert tr. induction l as [|f l IH]; intros tr.
  - exists []. simpl. unfold ret. now rewrite app_nil_r.
  - destruct (@test_real_unenrolled cfg data thr id tr f He Ht) as (t & Hf).
    destruct (IH (tr ++ [TestCall f])%list) as (ts & Hl).
    exists (t :: ts). cbn [for_each]. unfold bindM at 1. rewrite Hf.
    unfold bindM at 1. rewrite Hl. unfold ret. cbn [map].
    now rewrite <- app_assoc.
Qed.

Lemma slice_zero (A : Type) (l : list A) (n : Z) :
  (0 <= n <= Z.of_nat (length l))%Z ->
  slice_to l 0 = [] /\ slice l 0 (0 + n) = firstn (Z.to_nat n) l.
Proof.
  intros H. unfold slice_to, slice, clamp_index.
  change (0 <? 0)%Z with false. cbv iota.
  assert (E : (0 + n <? 0)%Z = false) by (apply Z.ltb_ge; lia). rewrite E.
  replace (Z.max 0 (Z.min (Z.of_nat (length l)) 0)) with 0%Z by lia.
  replace (Z.max 0 (Z.min (Z.of_nat (length l)) (0 + n))) with n by lia.
  split; [reflexivity |]. now rewrite Z.sub_0_r.
Qed.

(** X19. With the OpenVoice cloner, no channel simulator, an identification
    task and [num_enrollment_files = 0], [run_attack] on a fresh framework
    does not return: it enrolls the speaker with no file, tests the real
    files, and then raises [IndexError] at [enrollment_files[0]] when it
    asks the cloner for the first attack.  The calls made before the
    exception are the enrollment and one test for each real file. *)
Theorem run_attack_openvoice_no_reference (cfg : AttackConfig)
        (data : dict (list string)) (kw_threshold : option R)
        (target_speaker_id attack_text : string) (speaker_files : list string) :
  cloner cfg = openvoice -> environment cfg = None ->
  task cfg <> verification ->
  num_enrollment_files cfg = 0%Z ->
  (0 <= num_test_files cfg)%Z -> (0 < num_attack_files cfg)%Z ->
  dict_get data target_speaker_id = Some speaker_files ->
  (num_test_files cfg <= Z.of_nat (length speaker_files))%Z ->
  exists self',
    run_attack _get_embedding butter_design standard_normal resample_kernel
               librosa_load_native librosa_load fish_create_model
               fish_generate_audio openvoice_generate_audio
               target_speaker_id attack_text
               (Attack.init cfg data kw_threshold) =
      (Raise (IndexError "list index out of range"), self') /\
    trace self' =
      EnrollCall target_speaker_id []
        :: map TestCall (firstn (Z.to_nat (num_test_files cfg)) speaker_files).
Proof.
  intros Hc He Ht Hn0 Hnt Hna Hd Hlen.
  destruct (@slice_zero string speaker_files (num_test_files cfg)
              (conj Hnt Hlen)) as (Hs1 & Hs2).
  unfold run_attack. unfold bindM at 1. unfold get at 1.
  unfold Attack.init. rewrite He. cbn [files config]. rewrite Hd, Hn0.
  assert (E : (Z.of_nat (length speaker_files) <? 0 + num_test_files cfg)%Z
              = false) by (apply Z.ltb_ge; lia).
  rewrite E, Hs1, Hs2.
  destruct (@for_each_unenrolled cfg data (threshold cfg) target_speaker_id
              (firstn (Z.to_nat (num_test_files cfg)) speaker_files)
              [EnrollCall target_speaker_id []] He Ht) as (ts & Hts).
  destruct (Z.to_nat (num_attack_files cfg)) as [|na] eqn:Hz; [lia |].
  unfold bindM at 1.
  unfold call_enroll_speaker, bindM, get, log, lift, set_auth, ret.
  cbn [auth_system config files env_simulator trace].
  unfold bindM in Hts.
  destruct (task cfg) eqn:Htask; [contradiction | |];
    cbn [enroll_speaker sv_enroll enroll as_list bind fst snd
         verifier_of enrolled_speakers ident_threshold ident_init dict_set
         app];
    cbn [config files env_simulator trace app];
    fold (unenrolled (threshold cfg) target_speaker_id);
    rewrite Hts;
    cbn [seq for_each]; unfold test_attack, bindM, get, raise;
    cbn [config]; rewrite Hc;
    (eexists; split; [reflexivity | reflexivity]).
Qed.

End OpenVoiceEdge.

Lemma run_attack_openvoice_no_reference_witness :
  exists self',
    Attack.run_attack demo_network demo_butter_design demo_standard_normal
      demo_resample_kernel demo_load_native demo_load demo_create_model
      demo_generate_audio demo_generate_audio "id10001" "Hello"
      (Attack.init demo_config_no_enrollment demo_dataset_quiet None) =
      (Raise (IndexError "list index out of range"), self') /\
    Attack.trace self' =
      [Attack.EnrollCall "id10001"%string []; Attack.TestCall "good.wav"%string;
       Attack.TestCall "good.wav"%string].
Proof.
  apply (@run_attack_openvoice_no_reference demo_network demo_butter_design
           demo_standard_normal demo_resample_kernel demo_load_native
           demo_load demo_create_model demo_generate_audio
           demo_generate_audio demo_config_no_enrollment demo_dataset_quiet
           None "id10001"%string "Hello"%string
           ["good.wav"; "good.wav"; "good.wav"; "c.wav"; "d.wav"]%string).
  - reflexivity.
  - reflexivity.
  - discriminate.
  - reflexivity.
  - simpl; lia.
  - simpl; lia.
  - reflexivity.
  - simpl; lia.
Defined.
